(** * Eco-Grid Sentinel: the sensor node's edge pipeline

    A shallow embedding of the two sensor firmwares of the repository:

    - [Production]: the sketch "ECO-GRID SENTINEL: PRODUCTION SENSOR NODE", the
      30-second monitoring node (FFT voting, HEARTBEAT on a normal boot,
      four-field frames);
    - [FirmwareV2]: firmware/EcoSentinel_Firmware.ino, "ECO-SENTINEL FIRMWARE
      V2.0" in its sensor role (vibration analysis, one audio window,
      two-field frames).

    Numbers are the code's: [double] is the kernel's binary64 [float] (a decimal
    literal is the nearest double, as in C++), [int] and [unsigned long] are
    [Z]: the 32-bit timer readings with their wrap-around, the counters of the
    loops without, since they stay below 401.  The arduinoFFT object, the
    Arduino [String(float, n)] constructor and the hardware are not code of
    the repository: the first two are the fields of a [Platform], the inputs of
    the hardware are the fields of an [Env].  The code runs in the monad [M]:
    a state (timer, global buffers, trace of the hardware events) and an
    outcome, because [while (1);] and [esp_deep_sleep_start()] never return. *)

From Stdlib Require Import ZArith Lia Bool List String Ascii.
From Stdlib Require Import PrimFloat Uint63 DecimalString.
From Stdlib Require DecimalPos DecimalN.
From stdpp Require Import base list.
Import ListNotations.

#[local] Set Warnings "-inexact-float".
#[local] Open Scope Z_scope.

(* ------------------------------------------------------------------ *)
(** ** Constants of the sketches *)

Definition NODE_ID : string := "NODE_A"%string.
Definition SAMPLES : nat := 512.
Definition SAMPLING_FREQ : Z := 6000.
Definition IS_GATEWAY : bool := false.

(** [sampling_period_us = round(1000000 * (1.0 / SAMPLING_FREQ))]: the double
    is 166.66..., see [sampling_period_rounds]. *)
Definition sampling_period_us : Z := 167.

(** [unsigned long duration = 30000;] *)
Definition duration : Z := 30000.

(** The range of [unsigned long] on the ESP32. *)
Definition ULONG : Z := 2 ^ 32.

(* ------------------------------------------------------------------ *)
(** ** Doubles *)

(** The conversion of a non-negative [int] to [double]. *)
Definition double_of_int (z : Z) : float := PrimFloat.of_uint63 (Uint63.of_Z z).

(** [a > b] on doubles. *)
Definition fgt (a b : float) : bool := PrimFloat.ltb b a.

(* ------------------------------------------------------------------ *)
(** ** Spectral bands *)

(** [double e = 0; for (int i = lo; i < hi; i++) e += vReal[i];] *)
Definition band_energy (lo hi : nat) (v : list float) : float :=
  fold_left (fun acc i => PrimFloat.add acc (nth i v 0%float))
            (seq lo (hi - lo)) 0%float.

(** [for (int i = 8; i < 51; i++) engine_energy += vReal[i];] *)
Definition engine_energy (v : list float) : float := band_energy 8 51 v.

(** [for (int i = 170; i < 256; i++) nature_energy += vReal[i];]
    (the V2 firmware writes the bound as [SAMPLES/2]). *)
Definition nature_energy (v : list float) : float :=
  band_energy 170 (SAMPLES / 2) v.

(** The band as the comments of both sketches document it, "Chainsaw Engine
    Rumble: 100Hz to 600Hz (Bins 8 to 51)": every bin from 8 to 51. *)
Definition documented_engine_energy (v : list float) : float :=
  fold_left (fun acc i => PrimFloat.add acc (nth i v 0%float))
            (seq 8 44) 0%float.

(** A magnitude spectrum whose only energy is [x] in bin [k]. *)
Definition spike (k : nat) (x : float) : list float :=
  <[k := x]> (replicate SAMPLES 0%float).

(** The classification of one window, 30-second node:
    [engine_energy > 50000 && engine_energy > (nature_energy * 2)]. *)
Definition chainsaw_signature (engine nature : float) : bool :=
  fgt engine 50000%float && fgt engine (PrimFloat.mul nature 2%float).

(** The second branch of the vote: [nature_energy > engine_energy]. *)
Definition wind_signature (engine nature : float) : bool :=
  fgt nature engine.

(** V2 firmware: [double ratio = engine_energy / (nature_energy + 1);] and then
    [ratio > 2.0 && engine_energy > 50000]. *)
Definition v2_ratio (engine nature : float) : float :=
  PrimFloat.div engine (PrimFloat.add nature 1%float).

Definition v2_chainsaw_detected (engine nature : float) : bool :=
  fgt (v2_ratio engine nature) 2%float && fgt engine 50000%float.

(** [chainsaw_votes > (total_samples * 0.15)]: both [int]s are converted to
    [double], the product is rounded once. *)
Definition vote_threshold_exceeded (chainsaw_votes total_samples : Z) : bool :=
  fgt (double_of_int chainsaw_votes)
      (PrimFloat.mul (double_of_int total_samples) 0.15%float).

(* ------------------------------------------------------------------ *)
(** ** Hardware, libraries and machine state *)

(** [esp_sleep_wakeup_cause_t]. *)
Inductive WakeCause : Set :=
| ESP_SLEEP_WAKEUP_UNDEFINED   (* power-on or reset *)
| ESP_SLEEP_WAKEUP_EXT0        (* the piezo line *)
| ESP_SLEEP_WAKEUP_EXT1
| ESP_SLEEP_WAKEUP_TIMER
| ESP_SLEEP_WAKEUP_TOUCHPAD
| ESP_SLEEP_WAKEUP_ULP.

Definition is_ext0 (c : WakeCause) : bool :=
  match c with ESP_SLEEP_WAKEUP_EXT0 => true | _ => false end.

Inductive Pin : Set := MIC_PIN | PIEZO_PIN | BAT_PIN | LED_PIN.

Inductive FFTCall : Set := Windowing | Compute | ComplexToMagnitude.

(** What the node does to the outside world, in order.  Of the serial log only
    the lines that carry data are kept. *)
Inductive Event : Type :=
| LoRaBegin (ok : bool)
| DigitalWrite (p : Pin) (high : bool)
| DigitalRead (p : Pin) (high : bool)
| AnalogRead (p : Pin) (v : Z)
| FFT (c : FFTCall)
| SerialTally (total_samples chainsaw_votes : Z)
| SerialEnergy (engine nature ratio : float)
| LoRaPacket (payload : string)
| Ext0WakeupEnabled
| DeepSleepStart.

(** The two global arrays [vReal] and [vImag]. *)
Definition Buffers : Type := list float * list float.

(** The library code the sketches call: the three arduinoFFT calls on the
    object built over [(vReal, vImag, SAMPLES, SAMPLING_FREQ)], with their
    fixed arguments ([FFT_WIN_TYP_HAMMING], [FFT_FORWARD]), and
    [String(float, decimalPlaces)] (with the narrowing of the double to
    [float] before it). *)
Record Platform : Type := {
  FFT_windowing : Buffers -> Buffers;
  FFT_compute : Buffers -> Buffers;
  FFT_complexToMagnitude : Buffers -> Buffers;
  String_of_float : float -> nat -> string;
}.

(** The inputs of one boot.  Every hardware access takes the next index [k]:
    [adc k] and [gpio k] are what a read at that index returns, [lag k] the
    microseconds the access takes (for a timed wait: the overshoot). *)
Record Env : Type := {
  lora_begin_ok : bool;
  wakeup_cause : WakeCause;
  boot_time : N;
  adc : nat -> N;
  gpio : nat -> bool;
  lag : nat -> N;
}.

Record State : Type := {
  now : Z;                        (* microseconds since boot *)
  step : nat;                     (* hardware accesses so far *)
  vReal : list float;
  vImag : list float;
  vibrationTriggered : bool;      (* global of the V2 firmware *)
  trace : list Event;
}.

Definition set_clock (t : Z) (k : nat) (s : State) : State :=
  {| now := t; step := k; vReal := vReal s; vImag := vImag s;
     vibrationTriggered := vibrationTriggered s; trace := trace s |}.

Definition set_buffers (b : Buffers) (s : State) : State :=
  {| now := now s; step := step s; vReal := fst b; vImag := snd b;
     vibrationTriggered := vibrationTriggered s; trace := trace s |}.

Definition set_vibrationTriggered (b : bool) (s : State) : State :=
  {| now := now s; step := step s; vReal := vReal s; vImag := vImag s;
     vibrationTriggered := b; trace := trace s |}.

Definition add_event (e : Event) (s : State) : State :=
  {| now := now s; step := step s; vReal := vReal s; vImag := vImag s;
     vibrationTriggered := vibrationTriggered s; trace := trace s ++ [e] |}.

(** The state in which [setup()] starts: globals are zero-initialised. *)
Definition boot (env : Env) : State :=
  {| now := Z.of_N (boot_time env); step := 0;
     vReal := replicate SAMPLES 0%float; vImag := replicate SAMPLES 0%float;
     vibrationTriggered := false; trace := [] |}.

(* ------------------------------------------------------------------ *)
(** ** The monad of the sketches *)

Inductive Stop : Set :=
| Asleep      (* esp_deep_sleep_start() *)
| Halted      (* while (1); *)
| OutOfFuel.  (* the model's bound on the monitoring loop was reached *)

Inductive Outcome (A : Type) : Type :=
| Done (a : A)
| Stopped (why : Stop).
Arguments Done {A} a.
Arguments Stopped {A} why.

Definition M (A : Type) : Type := State -> Outcome A * State.

Definition ret {A} (a : A) : M A := fun s => (Done a, s).

Definition bind {A B} (m : M A) (k : A -> M B) : M B :=
  fun s => match m s with
           | (Done a, s') => k a s'
           | (Stopped w, s') => (Stopped w, s')
           end.

Declare Scope sketch_scope.
Delimit Scope sketch_scope with sketch.
Notation "x <- m ;; k" := (bind m (fun x => k))
  (at level 100, m at next level, right associativity) : sketch_scope.
Notation "m ;; k" := (bind m (fun _ => k))
  (at level 100, right associativity) : sketch_scope.
#[local] Open Scope sketch_scope.

Definition stop {A} (w : Stop) : M A := fun s => (Stopped w, s).
Definition get {A} (f : State -> A) : M A := fun s => (Done (f s), s).
Definition modify (f : State -> State) : M unit := fun s => (Done tt, f s).
Definition emit (e : Event) : M unit := modify (add_event e).

(** [for (int i = ...; ...; i++) body], over the list of the values of [i]. *)
Fixpoint for_each {A} (l : list A) (body : A -> M unit) : M unit :=
  match l with
  | [] => ret tt
  | i :: l' => body i ;; for_each l' body
  end.

(** The same with a local variable carried through the iterations. *)
Fixpoint for_fold {A B} (l : list A) (body : B -> A -> M B) (acc : B) : M B :=
  match l with
  | [] => ret acc
  | i :: l' => acc' <- body acc i ;; for_fold l' body acc'
  end.

Section Hardware.
Context (lib : Platform) (env : Env).

(** One hardware access: it takes the next index and its time. *)
Definition access : M nat :=
  fun s => (Done (step s),
            set_clock (now s + Z.of_N (lag env (step s))) (S (step s)) s).

(** [micros()] and [millis()], as 32-bit [unsigned long]. *)
Definition micros : M Z := get (fun s => now s mod ULONG).
Definition millis : M Z := get (fun s => (now s / 1000) mod ULONG).

(** [delay(ms)]. *)
Definition delay (ms : Z) : M unit :=
  k <- access ;;
  modify (fun s => set_clock (now s + ms * 1000) (step s) s).

(** [while (micros() < target) { }]: nothing happens until the timer reads
    [target]; the exit is late by the access's lag. *)
Definition wait_micros (target : Z) : M unit :=
  m <- micros ;;
  (if m <? target
   then modify (fun s => set_clock (now s + (target - m)) (step s) s)
   else ret tt) ;;
  k <- access ;; ret tt.

Definition analogRead (p : Pin) : M Z :=
  k <- access ;;
  let v := Z.of_N (adc env k) in
  emit (AnalogRead p v) ;; ret v.

Definition digitalRead (p : Pin) : M bool :=
  k <- access ;;
  let v := gpio env k in
  emit (DigitalRead p v) ;; ret v.

Definition digitalWrite (p : Pin) (high : bool) : M unit :=
  emit (DigitalWrite p high).

(** [LoRa.begin(433E6)]. *)
Definition LoRa_begin : M bool :=
  emit (LoRaBegin (lora_begin_ok env)) ;; ret (lora_begin_ok env).

(** [LoRa.beginPacket(); LoRa.print(payload); LoRa.endPacket();] *)
Definition LoRa_send (payload : string) : M unit :=
  k <- access ;; emit (LoRaPacket payload).

Definition fft_call (c : FFTCall) (f : Platform -> Buffers -> Buffers) : M unit :=
  k <- access ;;
  emit (FFT c) ;;
  modify (fun s => set_buffers (f lib (vReal s, vImag s)) s).

(** [esp_sleep_enable_ext0_wakeup(GPIO_NUM_33, 1); esp_deep_sleep_start();] *)
Definition deep_sleep : M unit :=
  emit Ext0WakeupEnabled ;; emit DeepSleepStart ;; stop Asleep.

(** *** Sampler: A. SAMPLE AUDIO / 1. Sample Audio (the same in both) *)
Definition sample_one (i : nat) : M unit :=
  microseconds <- micros ;;
  v <- analogRead MIC_PIN ;;
  modify (fun s => set_buffers (<[i := double_of_int v]> (vReal s),
                                <[i := 0%float]> (vImag s)) s) ;;
  wait_micros ((microseconds + sampling_period_us) mod ULONG).

Definition sample_audio : M unit := for_each (seq 0 SAMPLES) sample_one.

(** *** Spectral Analyzer: B. COMPUTE FFT and the band sums *)
Definition compute_fft : M unit :=
  fft_call Windowing FFT_windowing ;;
  fft_call Compute FFT_compute ;;
  fft_call ComplexToMagnitude FFT_complexToMagnitude.

Definition energy_profile : M (float * float) :=
  get (fun s => (engine_energy (vReal s), nature_energy (vReal s))).

Definition spectral_analysis : M (float * float) :=
  compute_fft ;; energy_profile.

End Hardware.

(* ------------------------------------------------------------------ *)
(** ** The 30-second monitoring node *)

Module Production.

(** The locals [chainsaw_votes], [wind_votes], [total_samples] of
    [run_ai_analysis]. *)
Record Tally : Set := {
  chainsaw_votes : Z;
  wind_votes : Z;
  total_samples : Z;
}.

Definition no_votes : Tally :=
  {| chainsaw_votes := 0; wind_votes := 0; total_samples := 0 |}.

(** D. VOTE, and [total_samples++]. *)
Definition cast_vote (t : Tally) (engine nature : float) : Tally :=
  if chainsaw_signature engine nature then
    {| chainsaw_votes := chainsaw_votes t + 1; wind_votes := wind_votes t;
       total_samples := total_samples t + 1 |}
  else if wind_signature engine nature then
    {| chainsaw_votes := chainsaw_votes t; wind_votes := wind_votes t + 1;
       total_samples := total_samples t + 1 |}
  else
    {| chainsaw_votes := chainsaw_votes t; wind_votes := wind_votes t;
       total_samples := total_samples t + 1 |}.

(** E. FINAL VERDICT: the type of the packet that is sent. *)
Definition final_verdict (t : Tally) : string :=
  if vote_threshold_exceeded (chainsaw_votes t) (total_samples t)
  then "CHAINSAW"%string else "TREE_FALL"%string.

(** [String(millis())]. *)
Definition String_of_ulong (n : Z) : string :=
  NilZero.string_of_uint (N.to_uint (Z.to_N n)).

(** [(analogRead(BAT_PIN) / 4095.0) * 3.3 * 2] *)
Definition battery_volts (raw : Z) : float :=
  PrimFloat.mul
    (PrimFloat.mul (PrimFloat.div (double_of_int raw) 4095%float) 3.3%float)
    2%float.

(** Payload: ID,NODE,TYPE,BAT. *)
Definition payload (ms : Z) (type bat : string) : string :=
  (String_of_ulong ms ++ "," ++ NODE_ID ++ "," ++ type ++ "," ++ bat ++ "V")%string.

(** The iterations the model grants the monitoring loop.  One iteration takes
    at least [SAMPLES * sampling_period_us] = 85504 microseconds, so 30
    seconds hold 351 of them: see [monitor_in_time]. *)
Definition monitor_fuel : nat := 400.

Section Sketch.
Context (lib : Platform) (env : Env).

Definition send_packet (type : string) : M unit :=
  raw <- analogRead env BAT_PIN ;;
  ms <- millis ;;
  LoRa_send env (payload ms type (String_of_float lib (battery_volts raw) 1)) ;;
  delay env 500.

Definition go_to_sleep : M unit :=
  delay env 100 ;; deep_sleep.

(** The body of [while (millis() - start_time < duration)]. *)
Definition monitor_window (t : Tally) : M Tally :=
  sample_audio env ;;
  p <- spectral_analysis lib env ;;
  k <- access env ;;          (* yield() *)
  ret (cast_vote t (fst p) (snd p)).

Fixpoint monitor (fuel : nat) (start_time : Z) (t : Tally) : M Tally :=
  match fuel with
  | O => stop OutOfFuel
  | S fuel' =>
      ms <- millis ;;
      if (ms - start_time) mod ULONG <? duration
      then t' <- monitor_window t ;; monitor fuel' start_time t'
      else ret t
  end.

Definition run_ai_analysis : M unit :=
  digitalWrite LED_PIN true ;;
  start_time <- millis ;;
  t <- monitor monitor_fuel start_time no_votes ;;
  digitalWrite LED_PIN false ;;
  emit (SerialTally (total_samples t) (chainsaw_votes t)) ;;
  if vote_threshold_exceeded (chainsaw_votes t) (total_samples t)
  then send_packet "CHAINSAW"
  else send_packet "TREE_FALL".

Definition setup : M unit :=
  ok <- LoRa_begin env ;;
  (if negb ok then stop Halted else ret tt) ;;
  (if is_ext0 (wakeup_cause env)
   then run_ai_analysis
   else send_packet "HEARTBEAT") ;;
  go_to_sleep.

(** One boot of the node. *)
Definition run : Outcome unit * State := setup (boot env).

End Sketch.

End Production.

(* ------------------------------------------------------------------ *)
(** ** firmware/EcoSentinel_Firmware.ino (V2.0) *)

Module FirmwareV2.

Definition payload (type : string) : string :=
  (NODE_ID ++ "," ++ type)%string.

Section Sketch.
Context (lib : Platform) (env : Env).

Definition send_lora_alert (type : string) : M unit :=
  LoRa_send env (payload type) ;;
  delay env 500.

Definition goToDeepSleep : M unit := deep_sleep.

(** [for(int i=0; i<100; i++) { if(digitalRead(PIEZO_PIN) == HIGH) hits++;
    delay(10); }] *)
Definition count_hits : M Z :=
  for_fold (seq 0 100)
           (fun hits _ =>
              high <- digitalRead env PIEZO_PIN ;;
              delay env 10 ;;
              ret (if high then hits + 1 else hits))
           0.

Definition analyze_environment : M unit :=
  digitalWrite LED_PIN true ;;
  (* A. THEFT DETECTION *)
  triggered <- get vibrationTriggered ;;
  (if triggered then
     hits <- count_hits ;;
     if 5 <? hits then
       send_lora_alert "CLIMBING" ;;
       delay env 100 ;;
       goToDeepSleep
     else ret tt
   else ret tt) ;;
  (* B. CHAINSAW DETECTION *)
  sample_audio env ;;
  p <- spectral_analysis lib env ;;
  let engine := fst p in
  let nature := snd p in
  emit (SerialEnergy engine nature (v2_ratio engine nature)) ;;
  (if v2_chainsaw_detected engine nature
   then send_lora_alert "CHAINSAW"
   else ret tt) ;;
  digitalWrite LED_PIN false.

Definition setup : M unit :=
  ok <- LoRa_begin env ;;
  (if negb ok then stop Halted else ret tt) ;;
  if IS_GATEWAY then ret tt      (* return; stay in loop() *)
  else
    (if is_ext0 (wakeup_cause env) then
       modify (set_vibrationTriggered true) ;;
       analyze_environment
     else ret tt) ;;
    goToDeepSleep.

Definition run : Outcome unit * State := setup (boot env).

End Sketch.

End FirmwareV2.

(* ------------------------------------------------------------------ *)
(** ** Reading a trace *)

(** The payloads handed to the radio, in order. *)
Fixpoint packets (tr : list Event) : list string :=
  match tr with
  | [] => []
  | LoRaPacket p :: tr' => p :: packets tr'
  | _ :: tr' => packets tr'
  end.

(** The Sampler reads the microphone, the Spectral Analyzer calls the FFT. *)
Definition audio_event (e : Event) : bool :=
  match e with
  | AnalogRead MIC_PIN _ | FFT _ => true
  | _ => false
  end.

Definition is_packet (e : Event) : bool :=
  match e with LoRaPacket _ => true | _ => false end.

Definition is_piezo_read (e : Event) : bool :=
  match e with DigitalRead PIEZO_PIN _ => true | _ => false end.

(** The reads of the vibration window that found the line HIGH. *)
Fixpoint active_reads (tr : list Event) : Z :=
  match tr with
  | [] => 0
  | DigitalRead PIEZO_PIN true :: tr' => active_reads tr' + 1
  | _ :: tr' => active_reads tr'
  end.

(** The tally the monitoring loop reports on the serial line. *)
Fixpoint reported_tally (tr : list Event) : option (Z * Z) :=
  match tr with
  | [] => None
  | SerialTally total votes :: _ => Some (total, votes)
  | _ :: tr' => reported_tally tr'
  end.

(** The engine and nature energy the V2 firmware prints on the serial line. *)
Fixpoint reported_energy (tr : list Event) : option (float * float) :=
  match tr with
  | [] => None
  | SerialEnergy engine nature _ :: _ => Some (engine, nature)
  | _ :: tr' => reported_energy tr'
  end.

(** Events that are neither a serial report nor a packet. *)
Definition plain_event (e : Event) : bool :=
  match e with
  | SerialTally _ _ | SerialEnergy _ _ _ | LoRaPacket _ => false
  | _ => true
  end.

(** The fields of a frame: the text between its commas. *)
Fixpoint fields_from (cur : string) (s : string) : list string :=
  match s with
  | EmptyString => [cur]
  | String c s' =>
      if Ascii.eqb c ","%char then cur :: fields_from EmptyString s'
      else fields_from (cur ++ String c EmptyString)%string s'
  end.

Definition fields (s : string) : list string := fields_from EmptyString s.

(** The vocabulary of verdict tags. *)
Definition verdict_tags : list string :=
  ["HEARTBEAT"; "CHAINSAW"; "CLIMBING"; "TREE_FALL"]%string.

Definition is_tag (t : string) : bool :=
  existsb (String.eqb t) verdict_tags.

(** The frame the specification's radio interface asks for: at least four
    comma-delimited fields, a counter, the node, a verdict tag of the
    vocabulary, the battery voltage. *)
Definition full_frame (p : string) : bool :=
  match fields p with
  | _counter :: node :: tag :: _battery :: _ => String.eqb node NODE_ID && is_tag tag
  | _ => false
  end.

(** A text without a comma. *)
Fixpoint no_comma (s : string) : bool :=
  match s with
  | EmptyString => true
  | String c s' => negb (Ascii.eqb c ","%char) && no_comma s'
  end.

(* ------------------------------------------------------------------ *)
(** ** Properties of computations *)

(** Whatever its outcome, [m] moves the state along [R]. *)
Definition steps (R : State -> State -> Prop) {A} (m : M A) : Prop :=
  forall s, R s (snd (m s)).

(** [m] always returns: it neither sleeps nor halts. *)
Definition returns {A} (m : M A) : Prop := forall s, exists a, fst (m s) = Done a.

(** The trace only grows, by events that satisfy [P]. *)
Definition extends (P : Event -> bool) (s s' : State) : Prop :=
  exists evs, trace s' = trace s ++ evs /\ forallb P evs = true.

(** The timer does not go back. *)
Definition later (s s' : State) : Prop := now s <= now s'.

(** The model's horizon: all of a boot happens in its first 4000 seconds,
    before the 32-bit microsecond counter wraps (2^32 us = 4294 s).  A wake
    from deep sleep restarts the timer, and an episode lasts some 30 s. *)
Definition HORIZON : Z := 4000000000.

(** The least duration of one analysis window in microseconds. *)
Definition window_us : Z := Z.of_nat SAMPLES * sampling_period_us.

(** The magnitude spectrum the three FFT calls leave in [vReal]. *)
Definition magnitudes (lib : Platform) (b : Buffers) : list float :=
  fst (FFT_complexToMagnitude lib (FFT_compute lib (FFT_windowing lib b))).

(** The state in which a vibration wake of the 30-second node enters its
    monitoring loop: radio started, LED on. *)
Definition monitoring_entry (env : Env) : State :=
  add_event (DigitalWrite LED_PIN true) (add_event (LoRaBegin true) (boot env)).

(** The window the Sampler acquires when its first access has index [k0]. *)
Definition sampled (env : Env) (k0 : nat) : list float :=
  map (fun i => double_of_int (Z.of_N (adc env (k0 + 2 * i)))) (seq 0 SAMPLES).

(* ------------------------------------------------------------------ *)
(** ** The shapes of a boot *)

(** The four ways a boot of the 30-second node can go, with the trace of each:
    the radio does not start; a normal boot sends its heartbeat; a vibration
    wake monitors and sends its verdict; or (only past the horizon) the model's
    fuel for the monitoring loop runs out. *)
Inductive production_boot (lib : Platform) (env : Env) :
  Outcome unit -> State -> Prop :=
| radio_dead s :
    lora_begin_ok env = false ->
    trace s = [LoRaBegin false] ->
    production_boot lib env (Stopped Halted) s
| heartbeat s raw ms :
    lora_begin_ok env = true ->
    is_ext0 (wakeup_cause env) = false ->
    trace s =
      [LoRaBegin true; AnalogRead BAT_PIN raw;
       LoRaPacket (Production.payload ms "HEARTBEAT"
                     (String_of_float lib (Production.battery_volts raw) 1));
       Ext0WakeupEnabled; DeepSleepStart] ->
    production_boot lib env (Stopped Asleep) s
| episode s audio t raw ms :
    lora_begin_ok env = true ->
    is_ext0 (wakeup_cause env) = true ->
    forallb audio_event audio = true ->
    0 <= Production.chainsaw_votes t <= Production.total_samples t ->
    Production.total_samples t <= Z.of_nat Production.monitor_fuel ->
    trace s =
      [LoRaBegin true; DigitalWrite LED_PIN true] ++ audio ++
      [DigitalWrite LED_PIN false;
       SerialTally (Production.total_samples t) (Production.chainsaw_votes t);
       AnalogRead BAT_PIN raw;
       LoRaPacket (Production.payload ms (Production.final_verdict t)
                     (String_of_float lib (Production.battery_volts raw) 1));
       Ext0WakeupEnabled; DeepSleepStart] ->
    production_boot lib env (Stopped Asleep) s
| overrun s audio :
    lora_begin_ok env = true ->
    is_ext0 (wakeup_cause env) = true ->
    forallb audio_event audio = true ->
    HORIZON < now s ->
    trace s = [LoRaBegin true; DigitalWrite LED_PIN true] ++ audio ->
    production_boot lib env (Stopped OutOfFuel) s.

(** The shapes of a boot of the V2 firmware: the radio does not start; a
    standard startup goes back to sleep; a vibration wake with more than five
    active reads alerts CLIMBING and sleeps at once; any other vibration wake
    listens to one audio window. *)
Inductive v2_boot (lib : Platform) (env : Env) : Outcome unit -> State -> Prop :=
| v2_radio_dead s :
    lora_begin_ok env = false ->
    trace s = [LoRaBegin false] ->
    v2_boot lib env (Stopped Halted) s
| v2_standard_startup s :
    lora_begin_ok env = true ->
    is_ext0 (wakeup_cause env) = false ->
    trace s = [LoRaBegin true; Ext0WakeupEnabled; DeepSleepStart] ->
    v2_boot lib env (Stopped Asleep) s
| v2_climbing s reads :
    lora_begin_ok env = true ->
    is_ext0 (wakeup_cause env) = true ->
    forallb is_piezo_read reads = true ->
    length reads = 100%nat ->
    5 < active_reads reads ->
    trace s =
      [LoRaBegin true; DigitalWrite LED_PIN true] ++ reads ++
      [LoRaPacket (FirmwareV2.payload "CLIMBING");
       Ext0WakeupEnabled; DeepSleepStart] ->
    v2_boot lib env (Stopped Asleep) s
| v2_listening s reads audio engine nature :
    lora_begin_ok env = true ->
    is_ext0 (wakeup_cause env) = true ->
    forallb is_piezo_read reads = true ->
    length reads = 100%nat ->
    active_reads reads <= 5 ->
    forallb audio_event audio = true ->
    trace s =
      [LoRaBegin true; DigitalWrite LED_PIN true] ++ reads ++ audio ++
      [SerialEnergy engine nature (v2_ratio engine nature)] ++
      (if v2_chainsaw_detected engine nature
       then [LoRaPacket (FirmwareV2.payload "CHAINSAW")] else []) ++
      [DigitalWrite LED_PIN false; Ext0WakeupEnabled; DeepSleepStart] ->
    v2_boot lib env (Stopped Asleep) s.

(* ------------------------------------------------------------------ *)
(** ** The verdict threshold, tabulated *)

(** The comparison of the final verdict against exact arithmetic, for one
    tally. *)
Definition threshold_agrees (total votes : nat) : bool :=
  Bool.eqb (vote_threshold_exceeded (Z.of_nat votes) (Z.of_nat total))
           (15 * Z.of_nat total <? 100 * Z.of_nat votes).

(** The same for every tally of at most [fuel] windows. *)
Definition tallies_agree (fuel : nat) : bool :=
  forallb (fun total => forallb (threshold_agrees total) (seq 0 (S total)))
          (seq 0 (S fuel)).

(* ------------------------------------------------------------------ *)
(** ** Concrete boots *)

(** A platform for running the sketches: the FFT calls leave the buffers as
    they are (the "spectrum" is the raw window), every voltage prints as 3.7. *)
Definition bench_platform : Platform :=
  {| FFT_windowing := fun b => b;
     FFT_compute := fun b => b;
     FFT_complexToMagnitude := fun b => b;
     String_of_float := fun _ _ => "3.7"%string |}.

(** A boot 250 ms after reset; [lag_us] microseconds per hardware access. *)
Definition bench_env (radio : bool) (cause : WakeCause)
           (adc : nat -> N) (gpio : nat -> bool) (lag_us : N) : Env :=
  {| lora_begin_ok := radio; wakeup_cause := cause; boot_time := 250000;
     adc := adc; gpio := gpio; lag := fun _ => lag_us |}.

(** Power-on with a working radio. *)
Definition cold_boot : Env :=
  bench_env true ESP_SLEEP_WAKEUP_UNDEFINED (fun _ => 2300%N) (fun _ => false) 3.

(** Power-on with a dead radio. *)
Definition dead_radio : Env :=
  bench_env false ESP_SLEEP_WAKEUP_UNDEFINED (fun _ => 2300%N) (fun _ => false) 3.

(** A vibration wake whose first six piezo reads are HIGH (the reads of the
    vibration window are the accesses 0, 2, 4, ...). *)
Definition climbing_wake : Env :=
  bench_env true ESP_SLEEP_WAKEUP_EXT0 (fun _ => 2300%N) (fun k => (k <? 12)%nat) 3.

(** A vibration wake on hardware so slow that 30 s hold one window, with a
    flat microphone signal. *)
Definition quiet_wake : Env :=
  bench_env true ESP_SLEEP_WAKEUP_EXT0 (fun _ => 2300%N) (fun _ => false) 40000.

(** The same with energy in the windows' samples 8 to 50 only. *)
Definition rumble_wake : Env :=
  bench_env true ESP_SLEEP_WAKEUP_EXT0
            (fun k => if ((16 <=? k) && (k <=? 100))%nat then 4000%N else 0%N)
            (fun _ => false) 40000.

(** A vibration wake of the V2 firmware with a still piezo line and energy in
    the samples 8 to 50 of its audio window (the accesses 216, 218, ..., 300:
    the vibration window takes the first 200). *)
Definition saw_wake : Env :=
  bench_env true ESP_SLEEP_WAKEUP_EXT0
            (fun k => if ((216 <=? k) && (k <=? 300))%nat then 4000%N else 0%N)
            (fun _ => false) 3.

(** Sample [i] of a window whose bins 8 to 50 sum to 60001 and whose bins 170
    to 255 sum to 30000, within the 12 bits of the ADC. *)
Definition edge_window (i : nat) : N :=
  if ((8 <=? i) && (i <=? 22))%nat then 4000%N
  else if (i =? 23)%nat then 1%N
  else if ((170 <=? i) && (i <=? 176))%nat then 4000%N
  else if (i =? 177)%nat then 2000%N
  else 0%N.

(** A vibration wake of the V2 firmware with a still piezo line whose audio
    window (sample [i] is the access [200 + 2 * i]) is [edge_window]: the
    engine energy is over 50000 and over twice the nature energy, and the
    ratio [engine / (nature + 1)] is under 2. *)
Definition edge_wake : Env :=
  bench_env true ESP_SLEEP_WAKEUP_EXT0
            (fun k => if (200 <=? k)%nat then edge_window ((k - 200) / 2) else 0%N)
            (fun _ => false) 3.

(* ------------------------------------------------------------------ *)
(** ** More readings of a trace *)

(** The values the Sampler read from the microphone, in order. *)
Fixpoint mic_values (tr : list Event) : list Z :=
  match tr with
  | [] => []
  | AnalogRead MIC_PIN v :: tr' => v :: mic_values tr'
  | _ :: tr' => mic_values tr'
  end.

(** The FFT calls, in order. *)
Fixpoint fft_calls (tr : list Event) : list FFTCall :=
  match tr with
  | [] => []
  | FFT c :: tr' => c :: fft_calls tr'
  | _ :: tr' => fft_calls tr'
  end.

(** What was written to the LED, in order. *)
Fixpoint led_writes (tr : list Event) : list bool :=
  match tr with
  | [] => []
  | DigitalWrite LED_PIN high :: tr' => high :: led_writes tr'
  | _ :: tr' => led_writes tr'
  end.

(** The level of the LED after a trace; it is LOW at reset. *)
Definition led_on (tr : list Event) : bool := List.last (led_writes tr) false.

Definition is_piezo_pin_read (e : Event) : bool :=
  match e with
  | DigitalRead PIEZO_PIN _ | AnalogRead PIEZO_PIN _ => true
  | _ => false
  end.

Definition is_battery_read (e : Event) : bool :=
  match e with AnalogRead BAT_PIN _ => true | _ => false end.

(** The events a window of the Sampler adds when its first access is [k0]. *)
Definition window_reads (env : Env) (k0 : nat) : list Event :=
  map (fun i => AnalogRead MIC_PIN (Z.of_N (adc env (k0 + 2 * i)))) (seq 0 SAMPLES).

(** The events [n] rounds of the vibration window add when the first access is
    [k0]: each round reads the piezo line, then waits. *)
Definition piezo_reads (env : Env) (k0 n : nat) : list Event :=
  map (fun i => DigitalRead PIEZO_PIN (gpio env (k0 + 2 * i))) (seq 0 n).

(** The two calls of [go_to_sleep] / [goToDeepSleep]. *)
Definition sleep_event (e : Event) : bool :=
  match e with Ext0WakeupEnabled | DeepSleepStart => true | _ => false end.

Definition never_sleeps (tr : list Event) : bool :=
  forallb (fun e => negb (sleep_event e)) tr.

(** The trace ends with the wake source armed and the deep sleep started, in
    this order, and holds neither call before. *)
Fixpoint ends_armed (tr : list Event) : bool :=
  match tr with
  | [] => false
  | e :: tr' =>
      match e, tr' with
      | Ext0WakeupEnabled, [DeepSleepStart] => true
      | _, _ => negb (sleep_event e) && ends_armed tr'
      end
  end.

Definition asleep {A} (o : Outcome A) : bool :=
  match o with Stopped Asleep => true | _ => false end.

Definition battery_reads (tr : list Event) : list Event :=
  List.filter is_battery_read tr.

(** The battery formula checked on the ADC counts below [n]: the voltage is
    between 0 and 6.6 and grows with the count. *)
Definition battery_table (n : nat) : bool :=
  forallb (fun k =>
             let v := Production.battery_volts (Z.of_nat k) in
             PrimFloat.leb 0%float v && PrimFloat.leb v 6.6%float
             && PrimFloat.ltb v (Production.battery_volts (Z.of_nat k + 1)))
          (seq 0 n).

(** The FFT library works in place on the two arrays of [SAMPLES] doubles:
    its calls return buffers of the size they were given. *)
Definition in_place (f : Buffers -> Buffers) : Prop :=
  forall b, length (fst b) = SAMPLES -> length (snd b) = SAMPLES ->
            length (fst (f b)) = SAMPLES /\ length (snd (f b)) = SAMPLES.

Definition works_in_place (lib : Platform) : Prop :=
  in_place (FFT_windowing lib) /\ in_place (FFT_compute lib) /\
  in_place (FFT_complexToMagnitude lib).

(** Whether the window sampled from access [k0] on has the chainsaw
    signature of the 30-second node. *)
Definition chainsaw_window (lib : Platform) (env : Env) (k0 : nat) : bool :=
  let spectrum := magnitudes lib (sampled env k0, replicate SAMPLES 0%float) in
  chainsaw_signature (engine_energy spectrum) (nature_energy spectrum).

(** The three calls of the Spectral Analyzer. *)
Definition analyzer_calls : list Event :=
  [FFT Windowing; FFT Compute; FFT ComplexToMagnitude].

(** The counter of a frame of the 30-second node, read back from its text. *)
Definition counter_of_field (s : string) : option N :=
  option_map N.of_uint (NilZero.uint_of_string s).

(* ------------------------------------------------------------------ *)
(** ** The gateways *)

(** The sketch "ECO-GRID SENTINEL: GATEWAY NODE" and the gateway role of the
    V2 firmware ([#define IS_GATEWAY true]).  A gateway runs [setup()] and then
    [loop()] for ever; each call of [loop()] finds in the radio either no
    packet or the bytes of one.  What it does is the list of its outputs. *)
Module Gateway.

Inductive Output : Type :=
| SerialWrite (text : string)
| Led (high : bool)
| Wait (ms : Z).

(** The line end of [Serial.println]. *)
Definition CRLF : string :=
  String (ascii_of_nat 13) (String (ascii_of_nat 10) EmptyString).

Definition Serial_print (s : string) : Output := SerialWrite s.
Definition Serial_println (s : string) : Output := SerialWrite (s ++ CRLF)%string.

(** [LoRa.parsePacket()]: the length of the received packet, 0 when there is
    none. *)
Definition parsePacket (received : option string) : nat :=
  match received with
  | Some p => String.length p
  | None => 0
  end.

(** The bytes [LoRa.read()] will return. *)
Definition fifo (received : option string) : string :=
  match received with
  | Some p => p
  | None => EmptyString
  end.

(** [while (LoRa.available()) { incoming += (char)LoRa.read(); }] *)
Fixpoint read_all (unread incoming : string) : string :=
  match unread with
  | EmptyString => incoming
  | String c unread' => read_all unread' (incoming ++ String c EmptyString)%string
  end.

(** [loop()] of the gateway node. *)
Definition loop (received : option string) (out : list Output) : list Output :=
  let packetSize := parsePacket received in
  if (packetSize =? 0)%nat then out
  else
    let incoming := read_all (fifo received) EmptyString in
    out ++ [Led true;
            Serial_print "DATA:"; Serial_println incoming;
            Wait 50; Led false].

(** [loop()] of the V2 firmware; [is_gateway] is its [IS_GATEWAY]. *)
Definition v2_loop (is_gateway : bool) (received : option string)
           (out : list Output) : list Output :=
  if is_gateway then
    let packetSize := parsePacket received in
    if (packetSize =? 0)%nat then out
    else
      let incoming := read_all (fifo received) EmptyString in
      out ++ [Serial_print "DATA:"; Serial_println incoming;
              Led true; Wait 50; Led false]
  else out.

(** [setup()] of the gateway node, with its outcome: it halts in [while (1);]
    when the radio does not start, and else flashes the LED three times. *)
Definition setup (radio_ok : bool) : Outcome unit * list Output :=
  if negb radio_ok
  then (Stopped Halted, [Serial_println "LoRa Error! Check Wiring."])
  else (Done tt,
        Serial_println "GATEWAY_READY"
        :: flat_map (fun _ => [Led true; Wait 100; Led false; Wait 100])
                    (seq 0 3)).

(** The runtime: one call of [loop()] after the other, one per reception. *)
Definition loops (step : option string -> list Output -> list Output)
           (receptions : list (option string)) (out : list Output) : list Output :=
  fold_left (fun o r => step r o) receptions out.

(** The bytes on the serial line. *)
Fixpoint serial_stream (out : list Output) : string :=
  match out with
  | [] => EmptyString
  | SerialWrite s :: out' => (s ++ serial_stream out')%string
  | _ :: out' => serial_stream out'
  end.

(** The level of the LED after the outputs; LOW at reset. *)
Fixpoint led_level (level : bool) (out : list Output) : bool :=
  match out with
  | [] => level
  | Led high :: out' => led_level high out'
  | _ :: out' => led_level level out'
  end.

(** The packets a gateway forwards: those of one byte at least. *)
Definition forwarded (receptions : list (option string)) : list string :=
  flat_map (fun r => match r with
                     | Some (String c p) => [String c p]
                     | _ => []
                     end) receptions.

(** The line a frame becomes. *)
Definition line (frame : string) : string := ("DATA:" ++ frame ++ CRLF)%string.

Fixpoint lines (frames : list string) : string :=
  match frames with
  | [] => EmptyString
  | f :: frames' => (line f ++ lines frames')%string
  end.

(** A text that holds neither a carriage return nor a line feed. *)
Fixpoint one_line (s : string) : bool :=
  match s with
  | EmptyString => true
  | String c s' =>
      negb (Ascii.eqb c (ascii_of_nat 13)) && negb (Ascii.eqb c (ascii_of_nat 10))
      && one_line s'
  end.

End Gateway.

(* ================================================================== *)
(** * Properties *)

(* ------------------------------------------------------------------ *)
(** ** Traces *)

Lemma packets_app (a b : list Event) : packets (a ++ b) = packets a ++ packets b.
Proof.
  induction a as [|e a IH]; [reflexivity|].
  destruct e; cbn [packets app]; rewrite ?IH; reflexivity.
Qed.

Lemma packets_quiet (evs : list Event) :
  forallb (fun e => negb (is_packet e)) evs = true -> packets evs = [].
Proof.
  induction evs as [|e evs IH]; [reflexivity|].
  cbn [forallb]. intros [He Hr]%andb_true_iff.
  destruct e; cbn in He; try discriminate; cbn [packets]; auto.
Qed.



Lemma forallb_weaken {A} (P Q : A -> bool) (l : list A) :
  (forall x, P x = true -> Q x = true) ->
  forallb P l = true -> forallb Q l = true.
Proof.
  intros HPQ. induction l as [|x l IH]; [reflexivity|].
  cbn [forallb]. intros [Hx Hl]%andb_true_iff.
  rewrite (HPQ _ Hx), (IH Hl). reflexivity.
Qed.

(* ------------------------------------------------------------------ *)
(** ** Properties every step of a computation keeps *)

Section Steps.
Context (R : State -> State -> Prop) {HR : PreOrder R}.

Lemma steps_ret {A} (a : A) : steps R (ret a).
Proof. intros s. reflexivity. Qed.

Lemma steps_stop {A} (w : Stop) : steps R (@stop A w).
Proof. intros s. reflexivity. Qed.

Lemma steps_get {A} (f : State -> A) : steps R (get f).
Proof. intros s. reflexivity. Qed.

Lemma steps_modify (f : State -> State) :
  (forall s, R s (f s)) -> steps R (modify f).
Proof. intros Hf s. apply Hf. Qed.

Lemma steps_bind {A B} (m : M A) (k : A -> M B) :
  steps R m -> (forall a, steps R (k a)) -> steps R (bind m k).
Proof.
  intros Hm Hk s. unfold bind. specialize (Hm s).
  destruct (m s) as [[a|w] s1]; cbn [snd] in *; [|exact Hm].
  etransitivity; [exact Hm|apply Hk].
Qed.

Lemma steps_if {A} (b : bool) (m1 m2 : M A) :
  steps R m1 -> steps R m2 -> steps R (if b then m1 else m2).
Proof. destruct b; auto. Qed.

Lemma steps_for_each {A} (l : list A) (body : A -> M unit) :
  (forall i, steps R (body i)) -> steps R (for_each l body).
Proof.
  intros Hb. induction l as [|i l IH]; cbn [for_each].
  - apply steps_ret.
  - apply steps_bind; auto.
Qed.

Lemma steps_for_fold {A B} (l : list A) (body : B -> A -> M B) (acc : B) :
  (forall b i, steps R (body b i)) -> steps R (for_fold l body acc).
Proof.
  intros Hb. revert acc. induction l as [|i l IH]; intros acc; cbn [for_fold].
  - apply steps_ret.
  - apply steps_bind; auto.
Qed.
End Steps.

Lemma returns_ret {A} (a : A) : returns (ret a).
Proof. intros s. exists a. reflexivity. Qed.

Lemma returns_get {A} (f : State -> A) : returns (get f).
Proof. intros s. eexists. reflexivity. Qed.

Lemma returns_modify (f : State -> State) : returns (modify f).
Proof. intros s. exists tt. reflexivity. Qed.

Lemma returns_bind {A B} (m : M A) (k : A -> M B) :
  returns m -> (forall a, returns (k a)) -> returns (bind m k).
Proof.
  intros Hm Hk s. unfold bind. destruct (Hm s) as [a Ha].
  destruct (m s) as [[a'|w] s1]; cbn [fst] in Ha; [|discriminate].
  apply Hk.
Qed.

Lemma returns_if {A} (b : bool) (m1 m2 : M A) :
  returns m1 -> returns m2 -> returns (if b then m1 else m2).
Proof. destruct b; auto. Qed.

Lemma returns_for_each {A} (l : list A) (body : A -> M unit) :
  (forall i, returns (body i)) -> returns (for_each l body).
Proof.
  intros Hb. induction l as [|i l IH]; cbn [for_each].
  - apply returns_ret.
  - apply returns_bind; auto.
Qed.

Lemma returns_for_fold {A B} (l : list A) (body : B -> A -> M B) (acc : B) :
  (forall b i, returns (body b i)) -> returns (for_fold l body acc).
Proof.
  intros Hb. revert acc. induction l as [|i l IH]; intros acc; cbn [for_fold].
  - apply returns_ret.
  - apply returns_bind; auto.
Qed.

(** A computation that returns, run to its value and final state. *)
Lemma returns_run {A} (m : M A) (s : State) :
  returns m -> exists a s', m s = (Done a, s').
Proof.
  intros Hm. destruct (Hm s) as [a Ha]. exists a, (snd (m s)).
  destruct (m s) as [r s']. cbn [fst snd] in *. congruence.
Qed.

Lemma bind_done {A B} (m : M A) (k : A -> M B) (s s' : State) (a : A) :
  m s = (Done a, s') -> bind m k s = k a s'.
Proof. intros H. unfold bind. rewrite H. reflexivity. Qed.

Lemma bind_ext {A B} (m : M A) (k k' : A -> M B) (s : State) :
  (forall a s', k a s' = k' a s') -> bind m k s = bind m k' s.
Proof. intros H. unfold bind. destruct (m s) as [[a|w] s']; auto. Qed.

Lemma bind_stopped {A B} (m : M A) (k : A -> M B) (s s' : State) (w : Stop) :
  m s = (Stopped w, s') -> bind m k s = (Stopped w, s').
Proof. intros H. unfold bind. rewrite H. reflexivity. Qed.

#[export] Instance extends_preorder (P : Event -> bool) : PreOrder (extends P).
Proof.
  split.
  - intros s. exists []. split; [symmetry; apply app_nil_r|reflexivity].
  - intros s1 s2 s3 [e1 [H1 F1]] [e2 [H2 F2]]. exists (e1 ++ e2). split.
    + rewrite H2, H1, app_assoc. reflexivity.
    + rewrite forallb_app, F1, F2. reflexivity.
Qed.

#[export] Instance later_preorder : PreOrder later.
Proof.
  split.
  - intros s. unfold later. lia.
  - intros s1 s2 s3. unfold later. lia.
Qed.

Lemma extends_weaken (P Q : Event -> bool) {A} (m : M A) :
  (forall e, P e = true -> Q e = true) ->
  steps (extends P) m -> steps (extends Q) m.
Proof.
  intros HPQ Hm s. destruct (Hm s) as [evs [Ht Hf]].
  exists evs. split; [exact Ht|]. eapply forallb_weaken; eauto.
Qed.

Lemma extends_same (P : Event -> bool) (s s' : State) :
  trace s' = trace s -> extends P s s'.
Proof. intros H. exists []. rewrite H, app_nil_r. split; reflexivity. Qed.

Lemma extends_one (P : Event -> bool) (e : Event) (s : State) :
  P e = true -> extends P s (add_event e s).
Proof. intros H. exists [e]. cbn. rewrite H. split; reflexivity. Qed.

(** Splits a computation at its binds, loops and branches. *)
Ltac split_steps :=
  repeat first
    [ solve [simple apply steps_ret; typeclasses eauto]
    | solve [simple apply steps_get; typeclasses eauto]
    | solve [simple apply steps_stop; typeclasses eauto]
    | simple apply steps_bind; [typeclasses eauto| |intros ?]
    | simple apply steps_if
    | simple apply steps_for_each; [typeclasses eauto|intros ?]
    | simple apply steps_for_fold; [typeclasses eauto|intros ? ?] ].

Ltac split_returns :=
  repeat first
    [ simple apply returns_ret | simple apply returns_get
    | simple apply returns_modify
    | simple apply returns_bind; [|intros ?]
    | simple apply returns_if
    | simple apply returns_for_each; intros ?
    | simple apply returns_for_fold; intros ? ? ].

(** Closes a step that leaves the trace as it is. *)
Ltac same_trace := intros ?; apply extends_same; reflexivity.

Section HardwareFacts.
Context (lib : Platform) (env : Env).

(** *** What each call adds to the trace *)

Lemma access_extends P : steps (extends P) (access env).
Proof. intros s. apply extends_same. reflexivity. Qed.

Lemma emit_extends P e : P e = true -> steps (extends P) (emit e).
Proof. intros H s. apply extends_one, H. Qed.

Lemma delay_extends P ms : steps (extends P) (delay env ms).
Proof. unfold delay. split_steps; same_trace. Qed.

Lemma wait_micros_extends P target : steps (extends P) (wait_micros env target).
Proof. unfold wait_micros, micros. split_steps; same_trace. Qed.

Lemma analogRead_extends P p :
  (forall v, P (AnalogRead p v) = true) -> steps (extends P) (analogRead env p).
Proof.
  intros H. unfold analogRead. split_steps; [same_trace|].
  apply emit_extends, H.
Qed.

Lemma digitalRead_extends P p :
  (forall v, P (DigitalRead p v) = true) -> steps (extends P) (digitalRead env p).
Proof.
  intros H. unfold digitalRead. split_steps; [same_trace|].
  apply emit_extends, H.
Qed.

Lemma fft_call_extends P c f :
  P (FFT c) = true -> steps (extends P) (fft_call lib env c f).
Proof.
  intros H. unfold fft_call. split_steps; [same_trace| |same_trace].
  apply emit_extends, H.
Qed.

Lemma sample_one_audio i : steps (extends audio_event) (sample_one env i).
Proof.
  unfold sample_one, micros. split_steps.
  - apply analogRead_extends. reflexivity.
  - same_trace.
  - apply wait_micros_extends.
Qed.

Lemma sample_audio_audio : steps (extends audio_event) (sample_audio env).
Proof. unfold sample_audio. split_steps. apply sample_one_audio. Qed.

Lemma spectral_analysis_audio :
  steps (extends audio_event) (spectral_analysis lib env).
Proof.
  unfold spectral_analysis, compute_fft, energy_profile.
  split_steps; apply fft_call_extends; reflexivity.
Qed.

(** *** The timer *)

Lemma access_later : steps later (access env).
Proof. intros s. unfold later. cbn. lia. Qed.

Lemma emit_later e : steps later (emit e).
Proof. intros s. unfold later. cbn. lia. Qed.

Lemma delay_later ms : 0 <= ms -> steps later (delay env ms).
Proof.
  intros H. unfold delay. split_steps; [apply access_later|].
  apply steps_modify. intros s. unfold later. cbn. lia.
Qed.

Lemma wait_micros_later target : steps later (wait_micros env target).
Proof.
  unfold wait_micros, micros.
  apply steps_bind; [typeclasses eauto|apply steps_get; typeclasses eauto|].
  intros m. apply steps_bind; [typeclasses eauto| |].
  - destruct (Z.ltb_spec m target); [|apply steps_ret; typeclasses eauto].
    apply steps_modify. intros s. unfold later. cbn. lia.
  - intros _. split_steps. apply access_later.
Qed.

Lemma analogRead_later p : steps later (analogRead env p).
Proof.
  unfold analogRead. split_steps; [apply access_later|apply emit_later].
Qed.

Lemma fft_call_later c f : steps later (fft_call lib env c f).
Proof.
  unfold fft_call. split_steps; [apply access_later|apply emit_later|].
  apply steps_modify. intros s. unfold later. cbn. lia.
Qed.

Lemma sample_one_later i : steps later (sample_one env i).
Proof.
  unfold sample_one, micros. split_steps.
  - apply analogRead_later.
  - apply steps_modify. intros s. unfold later. cbn. lia.
  - apply wait_micros_later.
Qed.

Lemma sample_audio_later : steps later (sample_audio env).
Proof. unfold sample_audio. split_steps. apply sample_one_later. Qed.

Lemma spectral_analysis_later : steps later (spectral_analysis lib env).
Proof.
  unfold spectral_analysis, compute_fft, energy_profile.
  split_steps; apply fft_call_later.
Qed.

(** *** Calls that always return *)

Lemma access_returns : returns (access env).
Proof. intros s. eexists. reflexivity. Qed.

Lemma emit_returns e : returns (emit e).
Proof. apply returns_modify. Qed.

Lemma delay_returns ms : returns (delay env ms).
Proof. unfold delay. split_returns. apply access_returns. Qed.

Lemma wait_micros_returns target : returns (wait_micros env target).
Proof. unfold wait_micros, micros. split_returns; apply access_returns. Qed.

Lemma analogRead_returns p : returns (analogRead env p).
Proof.
  unfold analogRead. split_returns; [apply access_returns|apply emit_returns].
Qed.

Lemma digitalRead_returns p : returns (digitalRead env p).
Proof.
  unfold digitalRead. split_returns; [apply access_returns|apply emit_returns].
Qed.

Lemma fft_call_returns c f : returns (fft_call lib env c f).
Proof.
  unfold fft_call. split_returns; [apply access_returns|apply emit_returns].
Qed.

Lemma sample_audio_returns : returns (sample_audio env).
Proof.
  unfold sample_audio, sample_one, micros. split_returns.
  - apply analogRead_returns.
  - apply wait_micros_returns.
Qed.

Lemma spectral_analysis_returns : returns (spectral_analysis lib env).
Proof.
  unfold spectral_analysis, compute_fft, energy_profile.
  split_returns; apply fft_call_returns.
Qed.

End HardwareFacts.

(* ------------------------------------------------------------------ *)
(** ** Timing of the acquisition *)

Section Timing.
Context (lib : Platform) (env : Env).

Lemma sample_one_returns i : returns (sample_one env i).
Proof.
  unfold sample_one, micros. split_returns.
  - apply analogRead_returns.
  - apply wait_micros_returns.
Qed.

(** The busy wait holds every sample for a full sampling period. *)
Lemma sample_one_duration i s :
  0 <= now s ->
  now (snd (sample_one env i s)) <= HORIZON ->
  now s + sampling_period_us <= now (snd (sample_one env i s)).
Proof.
  intros H0.
  unfold sample_one, micros, analogRead, wait_micros, micros, access, emit,
    modify, get, ret, bind.
  cbn [fst snd now step set_clock add_event set_buffers].
  pose proof (N2Z.is_nonneg (lag env (step s))) as HL.
  change ULONG with 4294967296. unfold sampling_period_us, HORIZON.
  destruct (Z.ltb_spec ((now s + Z.of_N (lag env (step s))) mod 4294967296)
                       ((now s mod 4294967296 + 167) mod 4294967296));
    cbn [fst snd now step set_clock add_event set_buffers];
    match goal with
    | |- context [lag env (S ?k)] => pose proof (N2Z.is_nonneg (lag env (S k)))
    end;
    intros Hh; Z.div_mod_to_equations; lia.
Qed.

Lemma sampling_duration (l : list nat) (s : State) :
  0 <= now s ->
  now (snd (for_each l (sample_one env) s)) <= HORIZON ->
  now s + sampling_period_us * Z.of_nat (length l)
    <= now (snd (for_each l (sample_one env) s)).
Proof.
  revert s. induction l as [|i l IH]; intros s H0; cbn [for_each length].
  - cbn. lia.
  - destruct (returns_run (sample_one env i) s (sample_one_returns i))
      as [[] [s1 E1]].
    rewrite (bind_done _ _ _ _ _ E1). intros Hh.
    pose proof (sample_one_later env i s) as L1.
    pose proof (steps_for_each later l (sample_one env)
                  (sample_one_later env) s1) as L2.
    pose proof (sample_one_duration i s H0) as D1.
    rewrite E1 in L1, D1. cbn [snd] in L1, D1. unfold later in *.
    specialize (IH s1). lia.
Qed.

Lemma sample_audio_duration (s : State) :
  0 <= now s ->
  now (snd (sample_audio env s)) <= HORIZON ->
  now s + window_us <= now (snd (sample_audio env s)).
Proof.
  intros H0 Hh. pose proof (sampling_duration (seq 0 SAMPLES) s H0 Hh) as D.
  rewrite length_seq in D. unfold window_us, sample_audio. lia.
Qed.

End Timing.

(* ------------------------------------------------------------------ *)
(** ** The monitoring loop *)

Section MonitoringLoop.
Context (lib : Platform) (env : Env).
Import Production.

Lemma cast_vote_counts (t : Tally) (e n : float) :
  total_samples (cast_vote t e n) = total_samples t + 1 /\
  chainsaw_votes t <= chainsaw_votes (cast_vote t e n) <= chainsaw_votes t + 1.
Proof.
  unfold cast_vote.
  destruct (chainsaw_signature e n); [|destruct (wind_signature e n)];
    cbn; lia.
Qed.

Lemma monitor_window_returns t : returns (monitor_window lib env t).
Proof.
  unfold monitor_window. split_returns.
  - apply sample_audio_returns.
  - apply spectral_analysis_returns.
  - apply access_returns.
Qed.

Lemma monitor_window_audio t :
  steps (extends audio_event) (monitor_window lib env t).
Proof.
  unfold monitor_window. split_steps.
  - apply sample_audio_audio.
  - apply spectral_analysis_audio.
  - same_trace.
Qed.

Lemma monitor_window_later t : steps later (monitor_window lib env t).
Proof.
  unfold monitor_window. split_steps.
  - apply sample_audio_later.
  - apply spectral_analysis_later.
  - apply access_later.
Qed.

(** One window: a tally one sample larger, after at least [window_us]. *)
Lemma monitor_window_run (t : Tally) (s : State) :
  exists t' s',
    monitor_window lib env t s = (Done t', s') /\
    total_samples t' = total_samples t + 1 /\
    chainsaw_votes t <= chainsaw_votes t' <= chainsaw_votes t + 1 /\
    (0 <= now s -> now s' <= HORIZON -> now s + window_us <= now s').
Proof.
  unfold monitor_window.
  destruct (returns_run _ s (sample_audio_returns env)) as [[] [s1 E1]].
  destruct (returns_run _ s1 (spectral_analysis_returns lib env)) as [p [s2 E2]].
  rewrite (bind_done _ _ _ _ _ E1), (bind_done _ _ _ _ _ E2).
  eexists _, _. split; [reflexivity|].
  destruct (cast_vote_counts t (fst p) (snd p)) as [Ht Hv].
  split; [exact Ht|]. split; [exact Hv|].
  cbn [now set_clock]. intros H0 Hh.
  pose proof (sample_audio_duration env s H0) as D.
  pose proof (spectral_analysis_later lib env s1) as L.
  rewrite E1 in D. rewrite E2 in L. cbn [snd] in D, L. unfold later in L.
  pose proof (N2Z.is_nonneg (lag env (step s2))). lia.
Qed.

Lemma monitor_audio fuel start t :
  steps (extends audio_event) (monitor lib env fuel start t).
Proof.
  revert t. induction fuel as [|fuel IH]; intros t; cbn [monitor].
  - apply steps_stop. typeclasses eauto.
  - unfold millis. split_steps; [apply monitor_window_audio|apply IH].
Qed.

Lemma monitor_later fuel start t : steps later (monitor lib env fuel start t).
Proof.
  revert t. induction fuel as [|fuel IH]; intros t; cbn [monitor].
  - apply steps_stop. typeclasses eauto.
  - unfold millis. split_steps; [apply monitor_window_later|apply IH].
Qed.

Lemma monitor_step fuel start t s :
  monitor lib env (S fuel) start t s =
  if ((now s / 1000) mod ULONG - start) mod ULONG <? duration
  then bind (monitor_window lib env t) (monitor lib env fuel start) s
  else (Done t, s).
Proof.
  cbn [monitor]. unfold millis, get, bind at 1.
  destruct (_ <? duration); reflexivity.
Qed.

(** The loop ends by its condition or by the model's fuel, never otherwise. *)
Lemma monitor_outcome fuel start t s :
  (exists t', fst (monitor lib env fuel start t s) = Done t') \/
  fst (monitor lib env fuel start t s) = Stopped OutOfFuel.
Proof.
  revert t s. induction fuel as [|fuel IH]; intros t s.
  - right. reflexivity.
  - rewrite monitor_step. destruct (_ <? duration).
    + destruct (monitor_window_run t s) as [t1 [s1 [E1 _]]].
      rewrite (bind_done _ _ _ _ _ E1). apply IH.
    + left. eexists. reflexivity.
Qed.

(** Votes never exceed the windows, windows never exceed the fuel. *)
Lemma monitor_tally fuel start t s t' s' :
  monitor lib env fuel start t s = (Done t', s') ->
  0 <= chainsaw_votes t <= total_samples t ->
  0 <= chainsaw_votes t' <= total_samples t' /\
  total_samples t' <= total_samples t + Z.of_nat fuel.
Proof.
  revert t s. induction fuel as [|fuel IH]; intros t s.
  - discriminate.
  - rewrite monitor_step. destruct (_ <? duration).
    + destruct (monitor_window_run t s) as [t1 [s1 [E1 [Ht [Hv _]]]]].
      rewrite (bind_done _ _ _ _ _ E1). intros E Hok.
      destruct (IH _ _ E) as [H1 H2]; lia.
    + intros [= <- <-]. lia.
Qed.

(** Within the horizon the condition ends the loop: after [k] windows the
    timer has advanced by [k * window_us], and 351 windows exceed 30 s. *)
Lemma monitor_in_time fuel (k : nat) (t0 : Z) t s :
  0 <= t0 ->
  t0 + Z.of_nat k * window_us <= now s ->
  (k <= 351)%nat -> (352 <= fuel + k)%nat ->
  now (snd (monitor lib env fuel ((t0 / 1000) mod ULONG) t s)) <= HORIZON ->
  exists t', fst (monitor lib env fuel ((t0 / 1000) mod ULONG) t s) = Done t'.
Proof.
  revert k t s. induction fuel as [|fuel IH]; intros k t s H0 Hk Hle Hfuel;
    [lia|].
  rewrite monitor_step.
  destruct (Z.ltb_spec (((now s / 1000) mod ULONG - (t0 / 1000) mod ULONG) mod ULONG)
              duration) as [Hrun|Hend]; [|intros _; eexists; reflexivity].
  destruct (monitor_window_run t s) as [t1 [s1 [E1 [_ [_ D]]]]].
  rewrite (bind_done _ _ _ _ _ E1). intros Hh.
  pose proof (monitor_later fuel ((t0 / 1000) mod ULONG) t1 s1) as L.
  unfold later in L.
  assert (Hs1 : now s1 <= HORIZON) by lia.
  assert (Hs : now s + window_us <= now s1).
  { apply D; [|exact Hs1]. unfold window_us, SAMPLES, sampling_period_us in *. lia. }
  apply (IH (S k)); try lia; clear IH L Hh D E1;
    unfold window_us, SAMPLES, sampling_period_us, HORIZON, duration in *;
    change ULONG with 4294967296 in *;
    Z.div_mod_to_equations; lia.
Qed.

End MonitoringLoop.

(* ------------------------------------------------------------------ *)
(** ** The anatomy of a boot *)

Section ProductionAnatomy.
Context (lib : Platform) (env : Env).
Import Production.

Lemma send_packet_run type s :
  exists raw ms s',
    send_packet lib env type s = (Done tt, s') /\
    trace s' = trace s ++
      [AnalogRead BAT_PIN raw;
       LoRaPacket (payload ms type (String_of_float lib (battery_volts raw) 1))] /\
    now s <= now s'.
Proof.
  eexists _, _, _. split; [reflexivity|]. cbn [trace now set_clock add_event].
  split.
  - rewrite <- app_assoc. reflexivity.
  - pose proof (N2Z.is_nonneg (lag env (step s))).
    pose proof (N2Z.is_nonneg (lag env (S (step s)))).
    pose proof (N2Z.is_nonneg (lag env (S (S (step s))))).
    cbn [step set_clock add_event]. lia.
Qed.

Lemma go_to_sleep_run s :
  exists s',
    go_to_sleep env s = (Stopped Asleep, s') /\
    trace s' = trace s ++ [Ext0WakeupEnabled; DeepSleepStart] /\
    now s <= now s'.
Proof.
  eexists. split; [reflexivity|]. cbn [trace now set_clock add_event step].
  split.
  - rewrite <- app_assoc. reflexivity.
  - pose proof (N2Z.is_nonneg (lag env (step s))). lia.
Qed.

Lemma setup_unfold s :
  setup lib env s =
  if lora_begin_ok env then
    bind (if is_ext0 (wakeup_cause env)
          then run_ai_analysis lib env
          else send_packet lib env "HEARTBEAT")
         (fun _ => go_to_sleep env)
         (add_event (LoRaBegin true) s)
  else (Stopped Halted, add_event (LoRaBegin false) s).
Proof.
  unfold setup, LoRa_begin, emit, modify, ret, bind at 1 2 3.
  destruct (lora_begin_ok env); reflexivity.
Qed.

Lemma run_ai_analysis_unfold s :
  run_ai_analysis lib env s =
  let s1 := add_event (DigitalWrite LED_PIN true) s in
  bind (monitor lib env monitor_fuel ((now s1 / 1000) mod ULONG) no_votes)
       (fun t =>
          digitalWrite LED_PIN false ;;
          emit (SerialTally (total_samples t) (chainsaw_votes t)) ;;
          send_packet lib env (final_verdict t))
       s1.
Proof.
  cbn zeta. etransitivity; [|apply bind_ext].
  - reflexivity.
  - intros t s'. unfold final_verdict. cbv beta.
    destruct (vote_threshold_exceeded _ _); reflexivity.
Qed.

(** A monitoring episode: it returns with a verdict sent, or the model's
    fuel runs out past the horizon. *)
Lemma run_ai_analysis_run s :
  0 <= now s ->
  (exists audio t raw ms s',
      run_ai_analysis lib env s = (Done tt, s') /\
      forallb audio_event audio = true /\
      0 <= chainsaw_votes t <= total_samples t /\
      total_samples t <= Z.of_nat monitor_fuel /\
      trace s' =
        trace s ++ [DigitalWrite LED_PIN true] ++ audio ++
        [DigitalWrite LED_PIN false;
         SerialTally (total_samples t) (chainsaw_votes t);
         AnalogRead BAT_PIN raw;
         LoRaPacket (payload ms (final_verdict t)
                       (String_of_float lib (battery_volts raw) 1))] /\
      now s <= now s') \/
  (exists audio s',
      run_ai_analysis lib env s = (Stopped OutOfFuel, s') /\
      forallb audio_event audio = true /\
      HORIZON < now s' /\
      trace s' = trace s ++ [DigitalWrite LED_PIN true] ++ audio).
Proof.
  intros H0. rewrite run_ai_analysis_unfold. cbn zeta.
  set (s1 := add_event (DigitalWrite LED_PIN true) s).
  set (start := (now s1 / 1000) mod ULONG).
  destruct (monitor_audio lib env monitor_fuel start no_votes s1) as [audio [Ha Hf]].
  pose proof (monitor_outcome lib env monitor_fuel start no_votes s1) as Hout.
  pose proof (monitor_later lib env monitor_fuel start no_votes s1) as Hl.
  pose proof (monitor_in_time lib env monitor_fuel 0 (now s1) no_votes s1) as Htime.
  fold start in Htime. unfold later in Hl.
  destruct (monitor lib env monitor_fuel start no_votes s1) as [[t|w] s2] eqn:E;
    cbn [fst snd] in *.
  - left. rewrite (bind_done _ _ _ _ _ E).
    destruct (monitor_tally lib env _ _ _ _ _ _ E) as [Hv Ht]; [cbn; lia|].
    set (s3 := add_event (SerialTally (total_samples t) (chainsaw_votes t))
                 (add_event (DigitalWrite LED_PIN false) s2)).
    destruct (send_packet_run (final_verdict t) s3) as [raw [ms [s' [Es [Htr Hn]]]]].
    exists audio, t, raw, ms, s'. split; [exact Es|].
    split; [exact Hf|]. split; [exact Hv|]. split; [cbn in Ht; lia|].
    split.
    + rewrite Htr. subst s3. cbn [trace add_event]. rewrite Ha.
      subst s1. cbn [trace add_event]. rewrite <- !app_assoc. reflexivity.
    + subst s3 s1. cbn [now add_event] in *. lia.
  - right. rewrite (bind_stopped _ _ _ _ _ E).
    destruct Hout as [[t' Hd]|Hw]; [discriminate|]. injection Hw as ->.
    exists audio, s2. split; [reflexivity|]. split; [exact Hf|]. split.
    + destruct (Z.lt_ge_cases HORIZON (now s2)) as [Hlt|Hge]; [exact Hlt|].
      destruct Htime as [t' Hd]; try discriminate; try lia.
      * subst s1. cbn [now add_event]. exact H0.
      * unfold monitor_fuel. lia.
    + rewrite Ha. subst s1. cbn [trace add_event].
      rewrite <- !app_assoc. reflexivity.
Qed.

(** Every boot of the 30-second node has one of the four shapes. *)
Lemma production_run_shape :
  production_boot lib env (fst (run lib env)) (snd (run lib env)).
Proof.
  unfold run. rewrite setup_unfold.
  destruct (lora_begin_ok env) eqn:Hok;
    [|apply radio_dead; [exact Hok|reflexivity]].
  set (s0 := add_event (LoRaBegin true) (boot env)).
  assert (H0 : 0 <= now s0) by (cbn; lia).
  destruct (is_ext0 (wakeup_cause env)) eqn:Hwake.
  - destruct (run_ai_analysis_run s0 H0)
      as [(audio & t & raw & ms & s1 & E & Hf & Hv & Ht & Htr & Hn)
         |(audio & s1 & E & Hf & Hh & Htr)].
    + rewrite (bind_done _ _ _ _ _ E).
      destruct (go_to_sleep_run s1) as [s2 [E2 [Htr2 _]]].
      rewrite E2. cbn [fst snd].
      apply (episode lib env s2 audio t raw ms); auto.
      rewrite Htr2, Htr. cbn [trace add_event boot s0 app].
      rewrite <- !app_assoc. reflexivity.
    + rewrite (bind_stopped _ _ _ _ _ E). cbn [fst snd].
      apply (overrun lib env s1 audio); auto.
  - destruct (send_packet_run "HEARTBEAT" s0) as [raw [ms [s1 [E [Htr _]]]]].
    rewrite (bind_done _ _ _ _ _ E).
    destruct (go_to_sleep_run s1) as [s2 [E2 [Htr2 _]]].
    rewrite E2. cbn [fst snd].
    apply (heartbeat lib env s2 raw ms); auto.
    rewrite Htr2, Htr. reflexivity.
Qed.

End ProductionAnatomy.

Section FirmwareV2Anatomy.
Context (lib : Platform) (env : Env).
Import FirmwareV2.

(** The vibration window: 100 reads of the piezo line, and their count. *)
Lemma count_loop_run (l : list nat) (hits : Z) (s : State) :
  exists reads s',
    for_fold l
      (fun hits _ =>
         high <- digitalRead env PIEZO_PIN ;;
         delay env 10 ;;
         ret (if high then hits + 1 else hits)) hits s
    = (Done (hits + active_reads reads), s') /\
    trace s' = trace s ++ reads /\
    forallb is_piezo_read reads = true /\
    length reads = length l /\
    vibrationTriggered s' = vibrationTriggered s.
Proof.
  revert hits s. induction l as [|i l IH]; intros hits s; cbn [for_fold].
  - exists [], s. cbn. rewrite Z.add_0_r, app_nil_r. auto.
  - set (v := gpio env (step s)).
    set (s1 := set_clock (now s + Z.of_N (lag env (step s))) (S (step s)) s).
    set (s2 := add_event (DigitalRead PIEZO_PIN v) s1).
    set (s3 := set_clock (now s2 + Z.of_N (lag env (step s2))) (S (step s2)) s2).
    set (s4 := set_clock (now s3 + 10 * 1000) (step s3) s3).
    rewrite (bind_done
               (high <- digitalRead env PIEZO_PIN ;;
                delay env 10 ;;
                ret (if high then hits + 1 else hits))
               _ s s4 (if v then hits + 1 else hits) eq_refl).
    destruct (IH (if v then hits + 1 else hits) s4) as [reads [s' [E [Htr [Hf [Hl Hv]]]]]].
    exists (DigitalRead PIEZO_PIN v :: reads), s'. split; [|split; [|split; [|split]]].
    + rewrite E. f_equal. f_equal. destruct v; cbn [active_reads]; lia.
    + rewrite Htr. cbn [trace s4 s3 s2 s1 set_clock add_event].
      rewrite <- app_assoc. reflexivity.
    + cbn [forallb is_piezo_read]. exact Hf.
    + cbn [length]. rewrite Hl. reflexivity.
    + rewrite Hv. reflexivity.
Qed.

Lemma count_hits_run (s : State) :
  exists reads s',
    count_hits env s = (Done (active_reads reads), s') /\
    trace s' = trace s ++ reads /\
    forallb is_piezo_read reads = true /\
    length reads = 100%nat.
Proof.
  destruct (count_loop_run (seq 0 100) 0 s) as [reads [s' [E [Htr [Hf [Hl _]]]]]].
  exists reads, s'. rewrite length_seq in Hl. auto.
Qed.

(** The two ways [analyze_environment] goes after a vibration wake. *)
Lemma analyze_environment_run (s : State) :
  vibrationTriggered s = true ->
  (exists reads s',
      analyze_environment lib env s = (Stopped Asleep, s') /\
      forallb is_piezo_read reads = true /\
      length reads = 100%nat /\
      5 < active_reads reads /\
      trace s' =
        trace s ++ [DigitalWrite LED_PIN true] ++ reads ++
        [LoRaPacket (payload "CLIMBING"); Ext0WakeupEnabled; DeepSleepStart]) \/
  (exists reads audio engine nature s',
      analyze_environment lib env s = (Done tt, s') /\
      forallb is_piezo_read reads = true /\
      length reads = 100%nat /\
      active_reads reads <= 5 /\
      forallb audio_event audio = true /\
      trace s' =
        trace s ++ [DigitalWrite LED_PIN true] ++ reads ++ audio ++
        [SerialEnergy engine nature (v2_ratio engine nature)] ++
        (if v2_chainsaw_detected engine nature
         then [LoRaPacket (payload "CHAINSAW")] else []) ++
        [DigitalWrite LED_PIN false]).
Proof.
  intros Hv. unfold analyze_environment.
  set (s1 := add_event (DigitalWrite LED_PIN true) s).
  rewrite (bind_done (digitalWrite LED_PIN true) _ s s1 tt eq_refl).
  assert (Eg : get vibrationTriggered s1 = (Done true, s1)).
  { unfold get. subst s1. cbn [vibrationTriggered add_event]. rewrite Hv. reflexivity. }
  rewrite (bind_done _ _ _ _ _ Eg). cbv beta iota.
  destruct (count_hits_run s1) as [reads [s2 [E [Htr [Hf Hl]]]]].
  destruct (Z.ltb_spec 5 (active_reads reads)) as [Hhi|Hlo].
  - (* sustained vibration *)
    left.
    destruct (Z.ltb_spec 5 (active_reads reads)) as [_|?]; [|lia].
    eexists reads, _. split.
    + apply bind_stopped. rewrite (bind_done _ _ _ _ _ E).
      apply Z.ltb_lt in Hhi. rewrite Hhi. reflexivity.
    + split; [exact Hf|]. split; [exact Hl|]. split; [exact Hhi|].
      cbn [trace now step set_clock add_event]. rewrite Htr. subst s1.
      cbn [trace add_event]. rewrite <- !app_assoc. reflexivity.
  - (* listen to one window *)
    right.
    assert (Ei : bind (count_hits env)
                   (fun hits =>
                      if 5 <? hits
                      then send_lora_alert env "CLIMBING" ;;
                           delay env 100 ;; goToDeepSleep
                      else ret tt) s1 = (Done tt, s2)).
    { rewrite (bind_done _ _ _ _ _ E).
      apply Z.ltb_ge in Hlo. rewrite Hlo. reflexivity. }
    rewrite (bind_done _ _ _ _ _ Ei).
    destruct (returns_run _ s2 (sample_audio_returns env)) as [[] [s3 E3]].
    destruct (sample_audio_audio env s2) as [a1 [Ha1 Hf1]].
    rewrite E3 in Ha1. cbn [snd] in Ha1.
    destruct (returns_run _ s3 (spectral_analysis_returns lib env)) as [p [s4 E4]].
    destruct (spectral_analysis_audio lib env s3) as [a2 [Ha2 Hf2]].
    rewrite E4 in Ha2. cbn [snd] in Ha2.
    rewrite (bind_done _ _ _ _ _ E3), (bind_done _ _ _ _ _ E4). cbv zeta.
    exists reads, (a1 ++ a2), (fst p), (snd p).
    destruct (v2_chainsaw_detected (fst p) (snd p)); eexists;
      (split; [reflexivity|]);
      (split; [exact Hf|]); (split; [exact Hl|]); (split; [exact Hlo|]);
      (split; [rewrite forallb_app, Hf1, Hf2; reflexivity|]);
      cbn [trace now step set_clock add_event]; rewrite Ha2, Ha1, Htr;
      subst s1; cbn [trace add_event]; rewrite <- !app_assoc; reflexivity.
Qed.

Lemma v2_setup_unfold s :
  setup lib env s =
  if lora_begin_ok env then
    bind (if is_ext0 (wakeup_cause env)
          then modify (set_vibrationTriggered true) ;; analyze_environment lib env
          else ret tt)
         (fun _ => goToDeepSleep)
         (add_event (LoRaBegin true) s)
  else (Stopped Halted, add_event (LoRaBegin false) s).
Proof.
  unfold setup, LoRa_begin, emit, modify, ret, bind at 1 2 3.
  destruct (lora_begin_ok env); reflexivity.
Qed.

(** Every boot of the V2 firmware has one of the four shapes. *)
Lemma v2_run_shape :
  v2_boot lib env (fst (run lib env)) (snd (run lib env)).
Proof.
  unfold run. rewrite v2_setup_unfold.
  destruct (lora_begin_ok env) eqn:Hok;
    [|apply v2_radio_dead; [exact Hok|reflexivity]].
  set (s0 := add_event (LoRaBegin true) (boot env)).
  destruct (is_ext0 (wakeup_cause env)) eqn:Hwake;
    [|apply v2_standard_startup; [exact Hok|exact Hwake|reflexivity]].
  set (s1 := set_vibrationTriggered true s0).
  destruct (analyze_environment_run s1 eq_refl)
    as [(reads & s2 & E & Hf & Hl & Hhi & Htr)
       |(reads & audio & engine & nature & s2 & E & Hf & Hl & Hlo & Hfa & Htr)].
  - assert (Em : bind (modify (set_vibrationTriggered true))
                   (fun _ => analyze_environment lib env) s0
                 = (Stopped Asleep, s2)) by exact E.
    rewrite (bind_stopped _ _ _ _ _ Em). cbn [fst snd].
    apply (v2_climbing lib env s2 reads); auto.
  - assert (Em : bind (modify (set_vibrationTriggered true))
                   (fun _ => analyze_environment lib env) s0
                 = (Done tt, s2)) by exact E.
    rewrite (bind_done _ _ _ _ _ Em).
    change (goToDeepSleep s2)
      with (@Stopped unit Asleep,
            add_event DeepSleepStart (add_event Ext0WakeupEnabled s2)).
    cbn [fst snd].
    apply (v2_listening lib env _ reads audio engine nature); auto.
    cbn [trace add_event]. rewrite Htr. cbn [trace add_event s1 s0 boot
      set_vibrationTriggered]. rewrite <- !app_assoc. reflexivity.
Qed.

End FirmwareV2Anatomy.

(* ------------------------------------------------------------------ *)
(** ** The sketches at work *)

Example production_heartbeat_boot :
  Production.run bench_platform cold_boot
  = (Stopped Asleep,
     {| now := 850012; step := 4;
        vReal := replicate SAMPLES 0%float; vImag := replicate SAMPLES 0%float;
        vibrationTriggered := false;
        trace := [LoRaBegin true; AnalogRead BAT_PIN 2300;
                  LoRaPacket "250,NODE_A,HEARTBEAT,3.7V";
                  Ext0WakeupEnabled; DeepSleepStart] |}).
Proof. vm_compute. reflexivity. Qed.

Example production_dead_radio_boot :
  fst (Production.run bench_platform dead_radio) = Stopped Halted /\
  trace (snd (Production.run bench_platform dead_radio)) = [LoRaBegin false] /\
  fst (FirmwareV2.run bench_platform dead_radio) = Stopped Halted /\
  trace (snd (FirmwareV2.run bench_platform dead_radio)) = [LoRaBegin false].
Proof. vm_compute. repeat split; reflexivity. Qed.

Example production_quiet_episode :
  fst (Production.run bench_platform quiet_wake) = Stopped Asleep /\
  reported_tally (trace (snd (Production.run bench_platform quiet_wake)))
  = Some (1, 0) /\
  packets (trace (snd (Production.run bench_platform quiet_wake)))
  = ["41410,NODE_A,TREE_FALL,3.7V"%string].
Proof. vm_compute. repeat split; reflexivity. Qed.

Example production_rumble_episode :
  fst (Production.run bench_platform rumble_wake) = Stopped Asleep /\
  reported_tally (trace (snd (Production.run bench_platform rumble_wake)))
  = Some (1, 1) /\
  packets (trace (snd (Production.run bench_platform rumble_wake)))
  = ["41410,NODE_A,CHAINSAW,3.7V"%string].
Proof. vm_compute. repeat split; reflexivity. Qed.

Example v2_saw_episode :
  fst (FirmwareV2.run bench_platform saw_wake) = Stopped Asleep /\
  active_reads (trace (snd (FirmwareV2.run bench_platform saw_wake))) = 0 /\
  packets (trace (snd (FirmwareV2.run bench_platform saw_wake)))
  = ["NODE_A,CHAINSAW"%string].
Proof. vm_compute. repeat split; reflexivity. Qed.

(** The scenario of 5 chainsaw windows in 30: 16.7% is over the threshold. *)
Example five_votes_in_thirty :
  Production.final_verdict
    {| Production.chainsaw_votes := 5; Production.wind_votes := 0;
       Production.total_samples := 30 |} = "CHAINSAW"%string.
Proof. vm_compute. reflexivity. Qed.

(** The V2 firmware tests the ratio [engine / (nature + 1)], the 30-second
    node the product [nature * 2]: between the two lies for instance the
    profile (60000, 29999.5). *)
Example v2_ratio_test_is_stricter :
  chainsaw_signature 60000%float 29999.5%float = true /\
  v2_chainsaw_detected 60000%float 29999.5%float = false.
Proof. vm_compute. split; reflexivity. Qed.

(* ------------------------------------------------------------------ *)
(** ** Numbers of the classifier *)

(** The double [1000000 * (1.0 / SAMPLING_FREQ)] lies between 166.5 and 167.5:
    [round] makes it 167. *)
Lemma sampling_period_rounds :
  let x := PrimFloat.mul 1000000%float
             (PrimFloat.div 1%float (double_of_int SAMPLING_FREQ)) in
  PrimFloat.ltb 166.5%float x = true /\ PrimFloat.ltb x 167.5%float = true /\
  sampling_period_us = 167.
Proof. vm_compute. auto. Qed.

Lemma threshold_table_holds : tallies_agree Production.monitor_fuel = true.
Proof. vm_compute. reflexivity. Qed.

Lemma forallb_seq (f : nat -> bool) (n : nat) :
  forallb f (seq 0 n) = true -> forall i, (i < n)%nat -> f i = true.
Proof.
  intros H i Hi. rewrite forallb_forall in H. apply H, in_seq. lia.
Qed.

Lemma tallies_agree_sound (fuel total votes : nat) :
  tallies_agree fuel = true ->
  (votes <= total)%nat -> (total <= fuel)%nat ->
  threshold_agrees total votes = true.
Proof.
  intros T Hv Ht. unfold tallies_agree in T.
  apply (forallb_seq (threshold_agrees total) (S total)); [|lia].
  apply (forallb_seq _ _ T). lia.
Qed.

(** On the tallies of the loop the rounded double product decides exactly
    "more than 15% of the windows". *)
Lemma threshold_exact (votes total : Z) :
  0 <= votes <= total -> total <= Z.of_nat Production.monitor_fuel ->
  vote_threshold_exceeded votes total = (15 * total <? 100 * votes).
Proof.
  intros Hv Ht.
  pose proof (tallies_agree_sound Production.monitor_fuel
                (Z.to_nat total) (Z.to_nat votes) threshold_table_holds) as T.
  unfold threshold_agrees in T. rewrite !Z2Nat.id in T by lia.
  apply Bool.eqb_prop, T; lia.
Qed.

Lemma final_verdict_exact (t : Production.Tally) :
  0 <= Production.chainsaw_votes t <= Production.total_samples t ->
  Production.total_samples t <= Z.of_nat Production.monitor_fuel ->
  (Production.final_verdict t = "CHAINSAW"%string <->
   15 * Production.total_samples t < 100 * Production.chainsaw_votes t) /\
  (Production.final_verdict t = "TREE_FALL"%string <->
   100 * Production.chainsaw_votes t <= 15 * Production.total_samples t).
Proof.
  intros Hv Ht. unfold Production.final_verdict.
  rewrite (threshold_exact _ _ Hv Ht).
  destruct (Z.ltb_spec (15 * Production.total_samples t)
                       (100 * Production.chainsaw_votes t));
    (split; split; intros H'; try discriminate; try reflexivity; lia).
Qed.

(** A band sum reads only the bins below its upper bound. *)
Lemma band_fold_above (l : list nat) (acc : float) (k : nat) (x : float)
      (v : list float) :
  (forall i, In i l -> (i < k)%nat) ->
  fold_left (fun acc i => PrimFloat.add acc (nth i (<[k := x]> v) 0%float)) l acc =
  fold_left (fun acc i => PrimFloat.add acc (nth i v 0%float)) l acc.
Proof.
  revert acc. induction l as [|i l IH]; intros acc H; [reflexivity|].
  cbn [fold_left]. rewrite IH by (intros j Hj; apply H; right; exact Hj).
  f_equal. f_equal. rewrite !nth_lookup.
  rewrite list_lookup_insert_ne; [reflexivity|].
  specialize (H i (or_introl eq_refl)). lia.
Qed.

Lemma band_energy_above (lo hi k : nat) (x : float) (v : list float) :
  (hi <= k)%nat -> band_energy lo hi (<[k := x]> v) = band_energy lo hi v.
Proof.
  intros Hk. unfold band_energy. apply band_fold_above.
  intros i Hi%in_seq. lia.
Qed.

(* ------------------------------------------------------------------ *)
(** ** Frames *)

Lemma fields_from_nonempty (cur s : string) :
  exists f fs, fields_from cur s = f :: fs.
Proof.
  revert cur. induction s as [|c s IH]; intros cur; cbn [fields_from].
  - eauto.
  - destruct (Ascii.eqb c ","); eauto.
Qed.

Lemma append_snoc (a : string) (c : ascii) (b : string) :
  ((a ++ String c EmptyString) ++ b)%string = (a ++ String c b)%string.
Proof. induction a as [|x a IH]; cbn; [reflexivity|]. rewrite IH. reflexivity. Qed.

(** A comma-free text followed by a comma is one field. *)
Lemma fields_from_field (cur a rest : string) :
  no_comma a = true ->
  fields_from cur (a ++ "," ++ rest)%string
  = (cur ++ a)%string :: fields_from EmptyString rest.
Proof.
  change ("," ++ rest)%string with (String ","%char rest).
  revert cur. induction a as [|c a IH]; intros cur Ha.
  - cbn. f_equal. induction cur as [|x cur IHc]; cbn; congruence.
  - cbn [no_comma] in Ha. apply andb_true_iff in Ha as [Hc Ha].
    cbn [String.append fields_from]. apply negb_true_iff in Hc. rewrite Hc.
    rewrite (IH _ Ha), append_snoc. reflexivity.
Qed.

Lemma no_comma_digits (d : Decimal.uint) :
  no_comma (NilEmpty.string_of_uint d) = true.
Proof. induction d; cbn; auto. Qed.

Lemma no_comma_ulong (n : Z) : no_comma (Production.String_of_ulong n) = true.
Proof.
  unfold Production.String_of_ulong, NilZero.string_of_uint.
  destruct (N.to_uint (Z.to_N n)) eqn:E; try reflexivity;
    rewrite <- E; apply no_comma_digits.
Qed.

(** A frame of the 30-second node has the four fields of the interface. *)
Lemma production_payload_full (ms : Z) (tag bat : string) :
  no_comma tag = true -> is_tag tag = true ->
  full_frame (Production.payload ms tag bat) = true.
Proof.
  intros Hc Ht. unfold full_frame, fields, Production.payload.
  rewrite (fields_from_field _ _ _ (no_comma_ulong ms)).
  rewrite (fields_from_field EmptyString NODE_ID _ eq_refl).
  rewrite (fields_from_field EmptyString tag _ Hc).
  destruct (fields_from_nonempty EmptyString (bat ++ "V")) as [f [fs ->]].
  cbn [String.append]. rewrite Ht. reflexivity.
Qed.

(* ------------------------------------------------------------------ *)
(** ** What audio and piezo events are not *)

Lemma packets_audio (evs : list Event) :
  forallb audio_event evs = true -> packets evs = [].
Proof.
  intros H. apply packets_quiet. revert H. apply forallb_weaken.
  intros [] He; try discriminate; reflexivity.
Qed.

Lemma packets_piezo (evs : list Event) :
  forallb is_piezo_read evs = true -> packets evs = [].
Proof.
  intros H. apply packets_quiet. revert H. apply forallb_weaken.
  intros [] He; try discriminate; reflexivity.
Qed.


Lemma reported_tally_audio (evs rest : list Event) :
  forallb audio_event evs = true ->
  reported_tally (evs ++ rest) = reported_tally rest.
Proof.
  induction evs as [|e evs IH]; [reflexivity|].
  cbn [forallb]. intros [He Hr]%andb_true_iff.
  destruct e; try discriminate; cbn [reported_tally app]; auto.
Qed.


(* ------------------------------------------------------------------ *)
(** ** What a boot reports, and where its packet stands *)

(** Whatever bin 51 holds, the engine energy of the code does not change. *)
Lemma engine_energy_ignores_bin_51 (x : float) (v : list float) :
  engine_energy (<[51%nat := x]> v) = engine_energy v.
Proof. unfold engine_energy. apply band_energy_above. lia. Qed.

Lemma spectral_analysis_value (lib : Platform) (env : Env) (s : State) :
  fst (spectral_analysis lib env s)
  = Done (engine_energy (magnitudes lib (vReal s, vImag s)),
          nature_energy (magnitudes lib (vReal s, vImag s))) /\
  vReal (snd (spectral_analysis lib env s)) = magnitudes lib (vReal s, vImag s).
Proof.
  unfold spectral_analysis, compute_fft, fft_call, energy_profile, access, emit,
    modify, get, bind, magnitudes.
  cbn [fst snd vReal vImag set_clock set_buffers add_event].
  rewrite <- !surjective_pairing. split; reflexivity.
Qed.

(** What a reported tally says about the boot that reported it. *)
Lemma production_report (lib : Platform) (env : Env) (total votes : Z) :
  reported_tally (trace (snd (Production.run lib env))) = Some (total, votes) ->
  fst (Production.run lib env) = Stopped Asleep /\
  exists t ms bat,
    total = Production.total_samples t /\
    votes = Production.chainsaw_votes t /\
    0 <= votes <= total /\
    total <= Z.of_nat Production.monitor_fuel /\
    packets (trace (snd (Production.run lib env)))
    = [Production.payload ms (Production.final_verdict t) bat].
Proof.
  destruct (production_run_shape lib env)
    as [s Hok Htr|s raw ms Hok Hw Htr|s audio t raw ms Hok Hw Hf Hv Ht Htr
       |s audio Hok Hw Hf Hh Htr]; rewrite Htr.
  - discriminate.
  - discriminate.
  - cbn [app reported_tally]. rewrite (reported_tally_audio _ _ Hf).
    cbn [reported_tally]. intros [= <- <-]. split; [reflexivity|].
    exists t, ms, (String_of_float lib (Production.battery_volts raw) 1).
    repeat (split; [first [reflexivity|lia]|]).
    cbn [packets]. rewrite packets_app, (packets_audio _ Hf). reflexivity.
  - cbn [app reported_tally]. rewrite <- (app_nil_r audio).
    rewrite (reported_tally_audio _ _ Hf). discriminate.
Qed.

(** A vibration wake with a working radio, within the horizon, is a complete
    episode. *)
Lemma production_vibration_wake (lib : Platform) (env : Env) :
  lora_begin_ok env = true ->
  wakeup_cause env = ESP_SLEEP_WAKEUP_EXT0 ->
  now (snd (Production.run lib env)) <= HORIZON ->
  fst (Production.run lib env) = Stopped Asleep /\
  exists total votes,
    reported_tally (trace (snd (Production.run lib env))) = Some (total, votes).
Proof.
  intros Hok Hwake Hh.
  destruct (production_run_shape lib env)
    as [s Hok' Htr|s raw ms Hok' Hw Htr|s audio t raw ms Hok' Hw Hf Hv Ht Htr
       |s audio Hok' Hw Hf Hh' Htr].
  - congruence.
  - rewrite Hwake in Hw. discriminate.
  - split; [reflexivity|]. eexists _, _. rewrite Htr.
    cbn [app reported_tally]. rewrite (reported_tally_audio _ _ Hf).
    reflexivity.
  - lia.
Qed.

Lemma packets_cons_nil (e : Event) (l : list Event) :
  packets (e :: l) = [] -> is_packet e = false /\ packets l = [].
Proof. destruct e; cbn [packets is_packet]; auto; discriminate. Qed.

(** A trace with a single packet splits around it in one way only. *)
Lemma packet_split_unique (A B pre post : list Event) (p0 p : string) :
  packets A = [] -> packets B = [] ->
  A ++ LoRaPacket p0 :: B = pre ++ LoRaPacket p :: post ->
  pre = A /\ p = p0 /\ post = B.
Proof.
  intros HA HB. revert pre. induction A as [|e A IH]; intros pre Heq.
  - destruct pre as [|e' pre].
    + cbn in Heq. injection Heq as -> ->. auto.
    + cbn in Heq. injection Heq as <- ->.
      rewrite packets_app in HB. cbn [packets] in HB.
      destruct (packets pre); discriminate.
  - apply packets_cons_nil in HA as [He HA]. destruct pre as [|e' pre].
    + cbn in Heq. injection Heq as -> _. discriminate.
    + cbn in Heq. injection Heq as <- Heq.
      destruct (IH HA pre Heq) as (-> & -> & ->). auto.
Qed.

Lemma packets_split_nonempty (pre post : list Event) (p : string) :
  packets (pre ++ LoRaPacket p :: post) <> [].
Proof.
  rewrite packets_app. cbn [packets]. destruct (packets pre); discriminate.
Qed.

(* ------------------------------------------------------------------ *)
(** ** The acquisition leaves no history in the buffers *)

Section Acquisition.
Context (env : Env).

Lemma sample_one_buffers (i : nat) (s : State) :
  step (snd (sample_one env i s)) = S (S (step s)) /\
  vReal (snd (sample_one env i s))
  = <[i := double_of_int (Z.of_N (adc env (step s)))]> (vReal s) /\
  vImag (snd (sample_one env i s)) = <[i := 0%float]> (vImag s).
Proof.
  unfold sample_one, micros, analogRead, wait_micros, micros, access, emit,
    modify, get, ret, bind.
  cbn [fst snd now step set_clock add_event set_buffers vReal vImag].
  destruct (_ <? _); cbn; auto.
Qed.

Lemma sampling_buffers (n a : nat) (s : State) :
  let s' := snd (for_each (seq a n) (sample_one env) s) in
  step s' = (step s + 2 * n)%nat /\
  length (vReal s') = length (vReal s) /\
  length (vImag s') = length (vImag s) /\
  (forall j : nat,
      (a <= j < a + n)%nat -> (j < length (vReal s))%nat ->
      vReal s' !! j
      = Some (double_of_int (Z.of_N (adc env (step s + 2 * (j - a)))))) /\
  (forall j : nat,
      (a <= j < a + n)%nat -> (j < length (vImag s))%nat ->
      vImag s' !! j = Some 0%float) /\
  (forall j : nat, ~ (a <= j < a + n)%nat ->
                   vReal s' !! j = vReal s !! j /\ vImag s' !! j = vImag s !! j).
Proof.
  revert a s. induction n as [|n IH]; intros a s; cbn [seq for_each].
  - cbn. repeat split; auto; intros; lia.
  - destruct (returns_run (sample_one env a) s (sample_one_returns env a))
      as [[] [s1 E1]].
    rewrite (bind_done _ _ _ _ _ E1).
    destruct (sample_one_buffers a s) as [Hs [Hr Hi]].
    rewrite E1 in Hs, Hr, Hi. cbn [snd] in Hs, Hr, Hi.
    destruct (IH (S a) s1) as (IHs & IHlr & IHli & IHr & IHi & IHo).
    cbn zeta. rewrite IHs, IHlr, IHli, Hs, Hr, Hi, !length_insert.
    split; [lia|]. split; [reflexivity|]. split; [reflexivity|].
    split; [|split].
    + intros j Hj Hlen. destruct (decide (j = a)) as [->|Hne].
      * destruct (IHo a) as [-> _]; [lia|].
        rewrite Hr, list_lookup_insert_eq by exact Hlen.
        do 4 f_equal. lia.
      * rewrite IHr; [|lia|rewrite Hr, length_insert; exact Hlen].
        rewrite Hs. do 4 f_equal. lia.
    + intros j Hj Hlen. destruct (decide (j = a)) as [->|Hne].
      * destruct (IHo a) as [_ ->]; [lia|].
        rewrite Hi, list_lookup_insert_eq by exact Hlen. reflexivity.
      * apply IHi; [lia|rewrite Hi, length_insert; exact Hlen].
    + intros j Hj. destruct (IHo j) as [-> ->]; [lia|].
      rewrite Hr, Hi, !list_lookup_insert_ne by lia. auto.
Qed.

(** Whatever the buffers held, after the acquisition [vReal] is the sampled
    window and [vImag] is zero. *)
Lemma sample_audio_overwrites (s : State) :
  length (vReal s) = SAMPLES -> length (vImag s) = SAMPLES ->
  vReal (snd (sample_audio env s)) = sampled env (step s) /\
  vImag (snd (sample_audio env s)) = replicate SAMPLES 0%float.
Proof.
  intros Lr Li. unfold sample_audio.
  destruct (sampling_buffers SAMPLES 0 s) as (_ & Hlr & Hli & Hr & Hi & Ho).
  cbn zeta in *. split; apply list_eq; intros j.
  - destruct (decide (j < SAMPLES)%nat) as [Hj|Hj].
    + rewrite Hr by lia. unfold sampled.
      rewrite list_lookup_fmap, lookup_seq_lt by exact Hj.
      cbn [fmap option_fmap option_map]. do 4 f_equal. lia.
    + rewrite !lookup_ge_None_2; [reflexivity| |].
      * unfold sampled. rewrite length_map, length_seq. lia.
      * rewrite Hlr. lia.
  - destruct (decide (j < SAMPLES)%nat) as [Hj|Hj].
    + rewrite Hi by lia. rewrite lookup_replicate_2 by exact Hj. reflexivity.
    + rewrite !lookup_ge_None_2; [reflexivity| |].
      * rewrite length_replicate. lia.
      * rewrite Hli. lia.
Qed.

End Acquisition.

(** Two analysis cycles that acquire the same samples return the same energy
    profile, whatever the buffers held before: a cycle keeps no history. *)
Lemma cycle_depends_on_samples_only
      (lib : Platform) (env1 env2 : Env) (s1 s2 : State) :
  length (vReal s1) = SAMPLES -> length (vImag s1) = SAMPLES ->
  length (vReal s2) = SAMPLES -> length (vImag s2) = SAMPLES ->
  sampled env1 (step s1) = sampled env2 (step s2) ->
  fst ((sample_audio env1 ;; spectral_analysis lib env1) s1)
  = fst ((sample_audio env2 ;; spectral_analysis lib env2) s2).
Proof.
  intros L1 L1' L2 L2' Hsame.
  destruct (returns_run _ s1 (sample_audio_returns env1)) as [[] [t1 E1]].
  destruct (returns_run _ s2 (sample_audio_returns env2)) as [[] [t2 E2]].
  rewrite (bind_done _ _ _ _ _ E1), (bind_done _ _ _ _ _ E2).
  destruct (sample_audio_overwrites env1 s1 L1 L1') as [R1 I1].
  destruct (sample_audio_overwrites env2 s2 L2 L2') as [R2 I2].
  rewrite E1 in R1, I1. rewrite E2 in R2, I2. cbn [snd] in *.
  rewrite (proj1 (spectral_analysis_value lib env1 t1)).
  rewrite (proj1 (spectral_analysis_value lib env2 t2)).
  rewrite R1, I1, R2, I2, Hsame. reflexivity.
Qed.

(* ------------------------------------------------------------------ *)
(** ** Reading longer traces *)

Lemma mic_values_app (a b : list Event) :
  mic_values (a ++ b) = mic_values a ++ mic_values b.
Proof.
  induction a as [|e a IH]; [reflexivity|].
  destruct e as [| | |[] v| | | | | |]; cbn [mic_values app]; rewrite ?IH; reflexivity.
Qed.

Lemma fft_calls_app (a b : list Event) :
  fft_calls (a ++ b) = fft_calls a ++ fft_calls b.
Proof.
  induction a as [|e a IH]; [reflexivity|].
  destruct e; cbn [fft_calls app]; rewrite ?IH; reflexivity.
Qed.

Lemma led_writes_app (a b : list Event) :
  led_writes (a ++ b) = led_writes a ++ led_writes b.
Proof.
  induction a as [|e a IH]; [reflexivity|].
  destruct e as [|[] h| | | | | | | |]; cbn [led_writes app]; rewrite ?IH; reflexivity.
Qed.

Lemma mic_values_window (env : Env) (k0 : nat) :
  mic_values (window_reads env k0)
  = map (fun i => Z.of_N (adc env (k0 + 2 * i))) (seq 0 SAMPLES).
Proof.
  unfold window_reads. induction (seq 0 SAMPLES) as [|i l IH]; [reflexivity|].
  cbn [map mic_values]. rewrite IH. reflexivity.
Qed.

Lemma fft_calls_window (env : Env) (k0 : nat) :
  fft_calls (window_reads env k0) = [].
Proof.
  unfold window_reads. induction (seq 0 SAMPLES) as [|i l IH]; [reflexivity|].
  cbn [map fft_calls]. exact IH.
Qed.

Lemma window_reads_audio (env : Env) (k0 : nat) :
  forallb audio_event (window_reads env k0) = true.
Proof.
  unfold window_reads. induction (seq 0 SAMPLES) as [|i l IH]; [reflexivity|].
  cbn [map forallb audio_event]. exact IH.
Qed.

Lemma led_writes_audio (evs : list Event) :
  forallb audio_event evs = true -> led_writes evs = [].
Proof.
  induction evs as [|e evs IH]; [reflexivity|].
  cbn [forallb]. intros [He Hr]%andb_true_iff.
  destruct e as [|[] h| | | | | | | |]; try discriminate; cbn [led_writes]; auto.
Qed.

Lemma led_writes_piezo (evs : list Event) :
  forallb is_piezo_read evs = true -> led_writes evs = [].
Proof.
  induction evs as [|e evs IH]; [reflexivity|].
  cbn [forallb]. intros [He Hr]%andb_true_iff.
  destruct e as [|[] h| | | | | | | |]; try discriminate; cbn [led_writes]; auto.
Qed.

(* ------------------------------------------------------------------ *)
(** ** One analysis cycle, event by event *)

Section Cycle.
Context (lib : Platform) (env : Env).

Lemma sample_one_trace (i : nat) (s : State) :
  trace (snd (sample_one env i s))
  = trace s ++ [AnalogRead MIC_PIN (Z.of_N (adc env (step s)))].
Proof.
  unfold sample_one, micros, analogRead, wait_micros, micros, access, emit,
    modify, get, ret, bind.
  cbn [fst snd now step set_clock add_event set_buffers trace].
  destruct (_ <? _); reflexivity.
Qed.

Lemma sampling_trace (n a : nat) (s : State) :
  trace (snd (for_each (seq a n) (sample_one env) s))
  = trace s
    ++ map (fun i => AnalogRead MIC_PIN (Z.of_N (adc env (step s + 2 * i))))
           (seq 0 n).
Proof.
  revert a s. induction n as [|n IH]; intros a s; cbn [seq for_each].
  - cbn. rewrite app_nil_r. reflexivity.
  - destruct (returns_run (sample_one env a) s (sample_one_returns env a))
      as [[] [s1 E1]].
    rewrite (bind_done _ _ _ _ _ E1).
    pose proof (sample_one_trace a s) as Ht.
    destruct (sample_one_buffers env a s) as [Hs _].
    rewrite E1 in Ht, Hs. cbn [snd] in Ht, Hs.
    rewrite IH, Ht, Hs, <- app_assoc. f_equal. cbn [app map]. f_equal.
    + do 3 f_equal. lia.
    + rewrite <- seq_shift, map_map. apply map_ext. intros i.
      do 3 f_equal. lia.
Qed.

Lemma sample_audio_trace (s : State) :
  trace (snd (sample_audio env s)) = trace s ++ window_reads env (step s).
Proof. unfold sample_audio, window_reads. apply sampling_trace. Qed.

Lemma sample_audio_step (s : State) :
  step (snd (sample_audio env s)) = (step s + 2 * SAMPLES)%nat.
Proof.
  unfold sample_audio.
  destruct (sampling_buffers env SAMPLES 0 s) as [H _]. exact H.
Qed.

Lemma spectral_analysis_trace (s : State) :
  trace (snd (spectral_analysis lib env s)) = trace s ++ analyzer_calls /\
  step (snd (spectral_analysis lib env s)) = (step s + 3)%nat.
Proof.
  unfold spectral_analysis, compute_fft, fft_call, energy_profile, access, emit,
    modify, get, bind, analyzer_calls.
  cbn [fst snd trace step set_clock set_buffers add_event].
  rewrite <- !app_assoc. split; [reflexivity|lia].
Qed.

End Cycle.

(* ------------------------------------------------------------------ *)
(** ** The monitoring loop, window by window *)

Section MonitoringCounts.
Context (lib : Platform) (env : Env).
Import Production.

Lemma monitor_window_trace (t : Tally) (s : State) :
  trace (snd (monitor_window lib env t s))
  = trace s ++ window_reads env (step s) ++ analyzer_calls.
Proof.
  unfold monitor_window.
  destruct (returns_run _ s (sample_audio_returns env)) as [[] [s1 E1]].
  destruct (returns_run _ s1 (spectral_analysis_returns lib env)) as [p [s2 E2]].
  rewrite (bind_done _ _ _ _ _ E1), (bind_done _ _ _ _ _ E2).
  pose proof (sample_audio_trace env s) as H1.
  pose proof (proj1 (spectral_analysis_trace lib env s1)) as H2.
  rewrite E1 in H1. rewrite E2 in H2. cbn [snd] in H1, H2.
  unfold bind, access, ret. cbn [fst snd trace set_clock].
  rewrite H2, H1, <- app_assoc. reflexivity.
Qed.

(** Every window the tally counts is in the trace: 512 microphone reads and
    three FFT calls for each. *)
Lemma monitor_counts fuel start t s t' s' :
  monitor lib env fuel start t s = (Done t', s') ->
  total_samples t <= total_samples t' /\
  Z.of_nat (length (mic_values (trace s')))
  = Z.of_nat (length (mic_values (trace s)))
    + Z.of_nat SAMPLES * (total_samples t' - total_samples t) /\
  Z.of_nat (length (fft_calls (trace s')))
  = Z.of_nat (length (fft_calls (trace s)))
    + 3 * (total_samples t' - total_samples t).
Proof.
  revert t s. induction fuel as [|fuel IH]; intros t s.
  - discriminate.
  - rewrite monitor_step. destruct (_ <? duration).
    + destruct (monitor_window_run lib env t s) as [t1 [s1 [E1 [Ht _]]]].
      pose proof (monitor_window_trace t s) as Htr.
      rewrite E1 in Htr. cbn [snd] in Htr.
      rewrite (bind_done _ _ _ _ _ E1). intros E.
      destruct (IH _ _ E) as (H1 & H2 & H3).
      rewrite H2, H3, Htr, !mic_values_app, !fft_calls_app, !length_app.
      rewrite mic_values_window, fft_calls_window, length_map, length_seq.
      cbn [mic_values fft_calls analyzer_calls length]. lia.
    + intros [= <- <-]. lia.
Qed.

(** The loop is left only when 30000 ms have passed on the timer. *)
Lemma monitor_exit fuel start t s t' s' :
  monitor lib env fuel start t s = (Done t', s') ->
  duration <= ((now s' / 1000) mod ULONG - start) mod ULONG.
Proof.
  revert t s. induction fuel as [|fuel IH]; intros t s.
  - discriminate.
  - rewrite monitor_step.
    destruct (Z.ltb_spec (((now s / 1000) mod ULONG - start) mod ULONG) duration).
    + destruct (monitor_window_run lib env t s) as [t1 [s1 [E1 _]]].
      rewrite (bind_done _ _ _ _ _ E1). apply IH.
    + intros [= <- <-]. assumption.
Qed.

(** Entered right after [start_time = millis()], the loop runs a window. *)
Lemma monitor_first fuel t s :
  monitor lib env (S fuel) ((now s / 1000) mod ULONG) t s
  = bind (monitor_window lib env t)
         (monitor lib env fuel ((now s / 1000) mod ULONG)) s.
Proof.
  rewrite monitor_step, Z.sub_diag. reflexivity.
Qed.

(** Within the horizon a loop that has run [k] windows runs at most
    [351 - k] more. *)
Lemma monitor_windows_bound fuel (k : nat) (t0 : Z) t s t' s' :
  0 <= t0 ->
  t0 + Z.of_nat k * window_us <= now s ->
  (k <= 351)%nat ->
  monitor lib env fuel ((t0 / 1000) mod ULONG) t s = (Done t', s') ->
  now s' <= HORIZON ->
  total_samples t' <= total_samples t + (351 - Z.of_nat k).
Proof.
  revert k t s. induction fuel as [|fuel IH]; intros k t s H0 Hk Hle;
    [discriminate|].
  rewrite monitor_step.
  destruct (Z.ltb_spec (((now s / 1000) mod ULONG - (t0 / 1000) mod ULONG) mod ULONG)
              duration) as [Hrun|Hend]; [|intros [= <- <-] _; lia].
  destruct (monitor_window_run lib env t s) as [t1 [s1 [E1 [Ht [_ D]]]]].
  rewrite (bind_done _ _ _ _ _ E1). intros E Hh.
  pose proof (monitor_later lib env fuel ((t0 / 1000) mod ULONG) t1 s1) as L.
  rewrite E in L. unfold later in L. cbn [snd] in L.
  assert (Hs1 : now s1 <= HORIZON) by lia.
  assert (Hs : now s + window_us <= now s1).
  { apply D; [|exact Hs1]. unfold window_us, SAMPLES, sampling_period_us in *. lia. }
  assert (Hk' : (S k <= 351)%nat).
  { clear IH L Hh D E1 E.
    unfold window_us, SAMPLES, sampling_period_us, HORIZON, duration in *.
    change ULONG with 4294967296 in *.
    Z.div_mod_to_equations. lia. }
  specialize (IH (S k) t1 s1 H0).
  assert (Hk1 : t0 + Z.of_nat (S k) * window_us <= now s1) by lia.
  specialize (IH Hk1 Hk' E Hh). lia.
Qed.

End MonitoringCounts.

(* ------------------------------------------------------------------ *)
(** ** A monitoring episode in detail *)

Section ProductionEpisode.
Context (lib : Platform) (env : Env).
Import Production.

(** [send_packet]: the battery is read first, the counter is the timer after
    that read, and the call takes three accesses and 500 ms. *)
Lemma send_packet_detail type s :
  let raw := Z.of_N (adc env (step s)) in
  let ms := ((now s + Z.of_N (lag env (step s))) / 1000) mod ULONG in
  exists s',
    send_packet lib env type s = (Done tt, s') /\
    trace s' = trace s ++
      [AnalogRead BAT_PIN raw;
       LoRaPacket (payload ms type (String_of_float lib (battery_volts raw) 1))] /\
    now s + Z.of_N (lag env (step s)) + 500000 <= now s'.
Proof.
  cbn zeta. eexists. split; [reflexivity|].
  cbn [trace now step set_clock add_event]. split.
  - rewrite <- app_assoc. reflexivity.
  - pose proof (N2Z.is_nonneg (lag env (step s))).
    pose proof (N2Z.is_nonneg (lag env (S (step s)))).
    pose proof (N2Z.is_nonneg (lag env (S (S (step s))))). lia.
Qed.

Lemma go_to_sleep_detail s :
  exists s',
    go_to_sleep env s = (Stopped Asleep, s') /\
    trace s' = trace s ++ [Ext0WakeupEnabled; DeepSleepStart] /\
    now s + 100000 <= now s'.
Proof.
  eexists. split; [reflexivity|]. cbn [trace now set_clock add_event step].
  split.
  - rewrite <- app_assoc. reflexivity.
  - pose proof (N2Z.is_nonneg (lag env (step s))). lia.
Qed.

(** A vibration wake, from the loop's result to the end of the boot. *)
Lemma production_episode_detail :
  lora_begin_ok env = true -> is_ext0 (wakeup_cause env) = true ->
  (exists t s2 s',
      monitor lib env monitor_fuel ((Z.of_N (boot_time env) / 1000) mod ULONG)
        no_votes (monitoring_entry env) = (Done t, s2) /\
      run lib env = (Stopped Asleep, s') /\
      trace s' = trace s2 ++
        [DigitalWrite LED_PIN false;
         SerialTally (total_samples t) (chainsaw_votes t);
         AnalogRead BAT_PIN (Z.of_N (adc env (step s2)));
         LoRaPacket
           (payload (((now s2 + Z.of_N (lag env (step s2))) / 1000) mod ULONG)
              (final_verdict t)
              (String_of_float lib
                 (battery_volts (Z.of_N (adc env (step s2)))) 1));
         Ext0WakeupEnabled; DeepSleepStart] /\
      now s2 + Z.of_N (lag env (step s2)) + 600000 <= now s') \/
  fst (run lib env) = Stopped OutOfFuel.
Proof.
  intros Hok Hw. unfold run. rewrite setup_unfold, Hok, Hw.
  set (s0 := add_event (LoRaBegin true) (boot env)).
  destruct (monitor lib env monitor_fuel ((Z.of_N (boot_time env) / 1000) mod ULONG)
              no_votes (monitoring_entry env)) as [[t|w] s2] eqn:E.
  - left.
    set (s3 := add_event (SerialTally (total_samples t) (chainsaw_votes t))
                 (add_event (DigitalWrite LED_PIN false) s2)).
    destruct (send_packet_detail (final_verdict t) s3) as [s4 [E4 [Htr4 Hn4]]].
    destruct (go_to_sleep_detail s4) as [s5 [E5 [Htr5 Hn5]]].
    assert (Er : run_ai_analysis lib env s0 = (Done tt, s4)).
    { rewrite run_ai_analysis_unfold. cbn zeta.
      change (add_event (DigitalWrite LED_PIN true) s0) with (monitoring_entry env).
      change (now (monitoring_entry env)) with (Z.of_N (boot_time env)).
      rewrite (bind_done _ _ _ _ _ E). exact E4. }
    rewrite (bind_done _ _ _ _ _ Er), E5.
    exists t, s2, s5. split; [reflexivity|]. split; [reflexivity|].
    split.
    + rewrite Htr5, Htr4. subst s3. cbn [trace step now add_event].
      rewrite <- !app_assoc. reflexivity.
    + subst s3. cbn [now step add_event] in Hn4. lia.
  - right.
    assert (Er : run_ai_analysis lib env s0 = (Stopped w, s2)).
    { rewrite run_ai_analysis_unfold. cbn zeta.
      change (add_event (DigitalWrite LED_PIN true) s0) with (monitoring_entry env).
      change (now (monitoring_entry env)) with (Z.of_N (boot_time env)).
      apply (bind_stopped _ _ _ _ _ E). }
    rewrite (bind_stopped _ _ _ _ _ Er). cbn [fst].
    pose proof (monitor_outcome lib env monitor_fuel
                  ((Z.of_N (boot_time env) / 1000) mod ULONG) no_votes (monitoring_entry env)) as Hout.
    rewrite E in Hout. cbn [fst] in Hout.
    destruct Hout as [[t' Hd]|Hw']; [discriminate|]. injection Hw' as ->.
    reflexivity.
Qed.

(** What the loop of a vibration wake leaves behind. *)
Lemma production_monitor_facts t s2 :
  monitor lib env monitor_fuel ((Z.of_N (boot_time env) / 1000) mod ULONG)
    no_votes (monitoring_entry env) = (Done t, s2) ->
  1 <= total_samples t /\
  Z.of_nat (length (mic_values (trace s2)))
  = Z.of_nat SAMPLES * total_samples t /\
  Z.of_nat (length (fft_calls (trace s2))) = 3 * total_samples t /\
  led_writes (trace s2) = [true] /\
  forallb (fun e => negb (is_piezo_pin_read e)) (trace s2) = true /\
  (now s2 <= HORIZON ->
   total_samples t <= 351 /\
   Z.of_N (boot_time env) / 1000 + duration <= now s2 / 1000).
Proof.
  intros E.
  pose proof (monitor_counts lib env _ _ _ _ _ _ E) as (_ & Hm & Hf).
  assert (H1 : 1 <= total_samples t).
  { change monitor_fuel with (S 399) in E.
    change (Z.of_N (boot_time env)) with (now (monitoring_entry env)) in E.
    rewrite monitor_first in E.
    destruct (monitor_window_run lib env no_votes (monitoring_entry env)) as [t1 [s1 [E1 [Ht _]]]].
    rewrite (bind_done _ _ _ _ _ E1) in E.
    pose proof (monitor_counts lib env _ _ _ _ _ _ E) as (Hle & _).
    cbn [total_samples no_votes] in Ht. lia. }
  destruct (monitor_audio lib env monitor_fuel
              ((Z.of_N (boot_time env) / 1000) mod ULONG) no_votes (monitoring_entry env))
    as [audio [Ha Hfa]].
  rewrite E in Ha. cbn [snd] in Ha.
  split; [exact H1|]. split; [|split; [|split; [|split]]].
  - rewrite Hm. cbn [monitoring_entry trace add_event boot app mic_values length
                      total_samples no_votes]. lia.
  - rewrite Hf. cbn [monitoring_entry trace add_event boot app fft_calls length
                      total_samples no_votes]. lia.
  - rewrite Ha. cbn [monitoring_entry trace add_event boot app led_writes].
    rewrite (led_writes_audio _ Hfa). reflexivity.
  - rewrite Ha. cbn [monitoring_entry trace add_event boot app forallb is_piezo_pin_read negb].
    apply forallb_forall. intros e He.
    rewrite forallb_forall in Hfa. specialize (Hfa e He).
    destruct e as [ | |p ?|p ?| | | | | | ]; try destruct p; cbn in *; congruence.
  - intros Hh.
    pose proof (monitor_windows_bound lib env monitor_fuel 0
                  (Z.of_N (boot_time env)) no_votes (monitoring_entry env) t s2) as Hb.
    pose proof (monitor_exit lib env _ _ _ _ _ _ E) as Hx.
    pose proof (monitor_later lib env monitor_fuel
                  ((Z.of_N (boot_time env) / 1000) mod ULONG) no_votes (monitoring_entry env)) as Hl.
    rewrite E in Hl. unfold later in Hl. cbn [snd] in Hl.
    change (now (monitoring_entry env)) with (Z.of_N (boot_time env)) in Hl.
    pose proof (N2Z.is_nonneg (boot_time env)) as Hb0.
    split.
    + cbn [total_samples no_votes] in Hb. apply Hb; try lia; [|exact E].
      change (now (monitoring_entry env)) with (Z.of_N (boot_time env)). lia.
    + unfold HORIZON, duration in *. change ULONG with 4294967296 in *.
      clear Hb E Hm Hf Ha. Z.div_mod_to_equations. lia.
Qed.

End ProductionEpisode.

(* ------------------------------------------------------------------ *)
(** ** The vibration window and the single-window boot in detail *)

Lemma piezo_reads_S (env : Env) (k0 n : nat) :
  piezo_reads env k0 (S n)
  = DigitalRead PIEZO_PIN (gpio env k0) :: piezo_reads env (S (S k0)) n.
Proof.
  unfold piezo_reads. cbn [seq map]. f_equal.
  - do 2 f_equal. lia.
  - rewrite <- seq_shift, map_map. apply map_ext. intros i. do 2 f_equal. lia.
Qed.

Lemma piezo_reads_facts (env : Env) (k0 n : nat) :
  forallb is_piezo_read (piezo_reads env k0 n) = true /\
  length (piezo_reads env k0 n) = n /\
  0 <= active_reads (piezo_reads env k0 n) <= Z.of_nat n.
Proof.
  revert k0. induction n as [|n IH]; intros k0.
  - cbn. lia.
  - rewrite piezo_reads_S. destruct (IH (S (S k0))) as (Hf & Hl & Ha).
    cbn [forallb is_piezo_read length active_reads]. rewrite Hf, Hl.
    split; [reflexivity|]. split; [reflexivity|].
    destruct (gpio env k0); lia.
Qed.

Section VibrationWindow.
Context (lib : Platform) (env : Env).
Import FirmwareV2.

(** The counting loop, read by read. *)
Lemma count_loop_exact (l : list nat) (hits : Z) (s : State) :
  exists s',
    for_fold l
      (fun hits _ =>
         high <- digitalRead env PIEZO_PIN ;;
         delay env 10 ;;
         ret (if high then hits + 1 else hits)) hits s
    = (Done (hits + active_reads (piezo_reads env (step s) (length l))), s') /\
    trace s' = trace s ++ piezo_reads env (step s) (length l) /\
    step s' = (step s + 2 * length l)%nat /\
    vReal s' = vReal s /\ vImag s' = vImag s /\
    now s + 10000 * Z.of_nat (length l) <= now s'.
Proof.
  revert hits s. induction l as [|i l IH]; intros hits s; cbn [for_fold length].
  - exists s. cbn. rewrite Z.add_0_r, app_nil_r, Nat.add_0_r.
    repeat split; try reflexivity. lia.
  - set (v := gpio env (step s)).
    set (s1 := set_clock (now s + Z.of_N (lag env (step s))) (S (step s)) s).
    set (s2 := add_event (DigitalRead PIEZO_PIN v) s1).
    set (s3 := set_clock (now s2 + Z.of_N (lag env (step s2))) (S (step s2)) s2).
    set (s4 := set_clock (now s3 + 10 * 1000) (step s3) s3).
    rewrite (bind_done
               (high <- digitalRead env PIEZO_PIN ;;
                delay env 10 ;;
                ret (if high then hits + 1 else hits))
               _ s s4 (if v then hits + 1 else hits) eq_refl).
    destruct (IH (if v then hits + 1 else hits) s4)
      as (s' & E & Htr & Hst & Hr & Hi & Hn).
    exists s'. rewrite piezo_reads_S. fold v.
    change (step s4) with (S (S (step s))) in E, Htr, Hst.
    split; [|split; [|split; [|split; [|split]]]].
    + rewrite E. f_equal. f_equal. destruct v; cbn [active_reads]; lia.
    + rewrite Htr. cbn [trace s4 s3 s2 s1 set_clock add_event].
      rewrite <- app_assoc. reflexivity.
    + rewrite Hst. lia.
    + rewrite Hr. reflexivity.
    + rewrite Hi. reflexivity.
    + pose proof (N2Z.is_nonneg (lag env (step s))).
      pose proof (N2Z.is_nonneg (lag env (S (step s)))).
      cbn [now step s4 s3 s2 s1 set_clock add_event] in Hn. lia.
Qed.

Lemma count_hits_exact (s : State) :
  exists s',
    count_hits env s = (Done (active_reads (piezo_reads env (step s) 100)), s') /\
    trace s' = trace s ++ piezo_reads env (step s) 100 /\
    step s' = (step s + 200)%nat /\
    vReal s' = vReal s /\ vImag s' = vImag s /\
    now s + 1000000 <= now s'.
Proof.
  destruct (count_loop_exact (seq 0 100) 0 s) as (s' & E & Htr & Hst & Hr & Hi & Hn).
  assert (L : length (seq 0 100) = 100%nat) by apply length_seq.
  rewrite L in E, Htr, Hst, Hn.
  rewrite Z.add_0_l in E.
  exists s'. split; [exact E|]. split; [exact Htr|]. split; [exact Hst|].
  split; [exact Hr|]. split; [exact Hi|]. lia.
Qed.

(** One analysis cycle on buffers of the right size: what it reads, what it
    calls and what it returns. *)
Lemma analysis_cycle_exact (s : State) :
  length (vReal s) = SAMPLES -> length (vImag s) = SAMPLES ->
  let spectrum :=
    magnitudes lib (sampled env (step s), replicate SAMPLES 0%float) in
  exists s',
    (sample_audio env ;; spectral_analysis lib env) s
    = (Done (engine_energy spectrum, nature_energy spectrum), s') /\
    trace s' = trace s ++ window_reads env (step s) ++ analyzer_calls /\
    step s' = (step s + 2 * SAMPLES + 3)%nat /\
    vReal s' = spectrum.
Proof.
  intros Lr Li spectrum.
  destruct (returns_run _ s (sample_audio_returns env)) as [[] [s1 E1]].
  rewrite (bind_done _ _ _ _ _ E1).
  destruct (sample_audio_overwrites env s Lr Li) as [R1 I1].
  pose proof (sample_audio_trace env s) as T1.
  pose proof (sample_audio_step env s) as S1.
  rewrite E1 in R1, I1, T1, S1. cbn [snd] in *.
  destruct (spectral_analysis_value lib env s1) as [V2 R2].
  destruct (spectral_analysis_trace lib env s1) as [T2 S2].
  destruct (spectral_analysis lib env s1) as [o s2]. cbn [fst snd] in *.
  exists s2. rewrite V2, T2, S2, R2, T1, S1, R1, I1, <- app_assoc.
  auto.
Qed.

End VibrationWindow.

Section SingleWindowBoot.
Context (lib : Platform) (env : Env).
Import FirmwareV2.

(** [analyze_environment] after a vibration wake, event by event. *)
Lemma analyze_environment_exact (s : State) :
  vibrationTriggered s = true ->
  length (vReal s) = SAMPLES -> length (vImag s) = SAMPLES ->
  let reads := piezo_reads env (step s) 100 in
  let spectrum :=
    magnitudes lib (sampled env (step s + 200), replicate SAMPLES 0%float) in
  let engine := engine_energy spectrum in
  let nature := nature_energy spectrum in
  exists s',
    now s + 1000000 <= now s' /\
    if 5 <? active_reads reads then
      analyze_environment lib env s = (Stopped Asleep, s') /\
      trace s' =
        trace s ++ [DigitalWrite LED_PIN true] ++ reads ++
        [LoRaPacket (payload "CLIMBING"); Ext0WakeupEnabled; DeepSleepStart]
    else
      analyze_environment lib env s = (Done tt, s') /\
      trace s' =
        trace s ++ [DigitalWrite LED_PIN true] ++ reads ++
        window_reads env (step s + 200) ++ analyzer_calls ++
        [SerialEnergy engine nature (v2_ratio engine nature)] ++
        (if v2_chainsaw_detected engine nature
         then [LoRaPacket (payload "CHAINSAW")] else []) ++
        [DigitalWrite LED_PIN false].
Proof.
  intros Hv Lr Li reads spectrum engine nature. unfold analyze_environment.
  set (s1 := add_event (DigitalWrite LED_PIN true) s).
  rewrite (bind_done (digitalWrite LED_PIN true) _ s s1 tt eq_refl).
  assert (Eg : get vibrationTriggered s1 = (Done true, s1)).
  { unfold get. subst s1. cbn [vibrationTriggered add_event]. rewrite Hv. reflexivity. }
  rewrite (bind_done _ _ _ _ _ Eg). cbv beta iota.
  destruct (count_hits_exact env s1) as (s2 & E & Htr & Hst & Hr & Hi & Hn).
  change (step s1) with (step s) in E, Htr, Hst. fold reads in E, Htr.
  change (now s1) with (now s) in Hn.
  destruct (5 <? active_reads reads) eqn:Hhits.
  - eexists. split; [|split].
    2:{ apply bind_stopped. rewrite (bind_done _ _ _ _ _ E), Hhits. reflexivity. }
    + cbn [now step set_clock add_event].
      pose proof (N2Z.is_nonneg (lag env (step s2))).
      pose proof (N2Z.is_nonneg (lag env (S (step s2)))).
      pose proof (N2Z.is_nonneg (lag env (S (S (step s2))))). lia.
    + cbn [trace now step set_clock add_event]. rewrite Htr. subst s1.
      cbn [trace add_event]. rewrite <- !app_assoc. reflexivity.
  - assert (Ei : bind (count_hits env)
                   (fun hits =>
                      if 5 <? hits
                      then send_lora_alert env "CLIMBING" ;;
                           delay env 100 ;; goToDeepSleep
                      else ret tt) s1 = (Done tt, s2)).
    { rewrite (bind_done _ _ _ _ _ E), Hhits. reflexivity. }
    rewrite (bind_done _ _ _ _ _ Ei).
    assert (Lr2 : length (vReal s2) = SAMPLES) by (rewrite Hr; exact Lr).
    assert (Li2 : length (vImag s2) = SAMPLES) by (rewrite Hi; exact Li).
    destruct (analysis_cycle_exact lib env s2 Lr2 Li2) as (s3 & E3 & Htr3 & _ & _).
    rewrite Hst in E3, Htr3. fold spectrum in E3. fold engine nature in E3.
    destruct (returns_run _ s2 (sample_audio_returns env)) as [[] [sa Ea]].
    rewrite (bind_done _ _ _ _ _ Ea) in E3.
    pose proof (sample_audio_later env s2) as La.
    pose proof (spectral_analysis_later lib env sa) as Lb.
    rewrite Ea in La. rewrite E3 in Lb. unfold later in La, Lb.
    cbn [snd] in La, Lb.
    rewrite (bind_done _ _ _ _ _ Ea), (bind_done _ _ _ _ _ E3). cbv zeta.
    cbn [fst snd].
    destruct (v2_chainsaw_detected engine nature); eexists;
      (split; [|split; [reflexivity|]]);
      cbn [trace now step set_clock add_event];
      try lia;
      rewrite Htr3, Htr; subst s1; cbn [trace add_event];
      rewrite <- !app_assoc; reflexivity.
Qed.

(** A vibration wake of the V2 firmware, from reset to deep sleep. *)
Lemma v2_vibration_boot :
  lora_begin_ok env = true -> is_ext0 (wakeup_cause env) = true ->
  let reads := piezo_reads env 0 100 in
  let spectrum := magnitudes lib (sampled env 200, replicate SAMPLES 0%float) in
  let engine := engine_energy spectrum in
  let nature := nature_energy spectrum in
  fst (run lib env) = Stopped Asleep /\
  Z.of_N (boot_time env) + 1000000 <= now (snd (run lib env)) /\
  trace (snd (run lib env)) =
    [LoRaBegin true; DigitalWrite LED_PIN true] ++ reads ++
    (if 5 <? active_reads reads then
       [LoRaPacket (payload "CLIMBING")]
     else
       window_reads env 200 ++ analyzer_calls ++
       [SerialEnergy engine nature (v2_ratio engine nature)] ++
       (if v2_chainsaw_detected engine nature
        then [LoRaPacket (payload "CHAINSAW")] else []) ++
       [DigitalWrite LED_PIN false]) ++
    [Ext0WakeupEnabled; DeepSleepStart].
Proof.
  intros Hok Hw reads spectrum engine nature.
  unfold run. rewrite v2_setup_unfold, Hok, Hw.
  set (s0 := add_event (LoRaBegin true) (boot env)).
  set (s1 := set_vibrationTriggered true s0).
  destruct (analyze_environment_exact s1 eq_refl) as (s2 & Hn & H);
    [apply length_replicate|apply length_replicate|].
  change (step s1) with 0%nat in H. change (0 + 200)%nat with 200%nat in H.
  change (now s1) with (Z.of_N (boot_time env)) in Hn.
  fold reads spectrum in H. fold engine nature in H.
  destruct (5 <? active_reads reads).
  - destruct H as [E Htr].
    assert (Em : bind (modify (set_vibrationTriggered true))
                   (fun _ => analyze_environment lib env) s0
                 = (Stopped Asleep, s2)) by exact E.
    rewrite (bind_stopped _ _ _ _ _ Em). cbn [fst snd].
    split; [reflexivity|]. split; [exact Hn|].
    rewrite Htr. cbn [trace add_event s1 s0 boot set_vibrationTriggered].
    rewrite <- !app_assoc. reflexivity.
  - destruct H as [E Htr].
    assert (Em : bind (modify (set_vibrationTriggered true))
                   (fun _ => analyze_environment lib env) s0
                 = (Done tt, s2)) by exact E.
    rewrite (bind_done _ _ _ _ _ Em).
    change (goToDeepSleep s2)
      with (@Stopped unit Asleep,
            add_event DeepSleepStart (add_event Ext0WakeupEnabled s2)).
    cbn [fst snd]. split; [reflexivity|]. split; [exact Hn|].
    cbn [trace add_event]. rewrite Htr.
    cbn [trace add_event s1 s0 boot set_vibrationTriggered].
    rewrite <- !app_assoc. reflexivity.
Qed.

End SingleWindowBoot.

Lemma tally_energy_packets_quiet (evs rest : list Event) :
  forallb plain_event evs = true ->
  reported_tally (evs ++ rest) = reported_tally rest /\
  reported_energy (evs ++ rest) = reported_energy rest /\
  packets (evs ++ rest) = packets rest.
Proof.
  induction evs as [|e evs IH]; [auto|].
  cbn [forallb]. intros [He Hr]%andb_true_iff.
  destruct e; try discriminate;
    cbn [app reported_tally reported_energy packets]; auto.
Qed.

(* ------------------------------------------------------------------ *)
(** ** The specification, claim by claim *)

(** C1.  Whenever a boot of the voting classifier reports a tally of [total]
    windows and [votes] chainsaw votes, it sends exactly one frame, of type
    CHAINSAW exactly when [votes] is more than 15% of [total] and of type
    TREE_FALL exactly when it is not.  A tally of 16 votes in 100 windows gives
    CHAINSAW, 14 in 100 (and 15 in 100) give TREE_FALL. *)
Theorem voting_verdict_threshold
        (lib : Platform) (env : Env) (total votes : Z) :
  reported_tally (trace (snd (Production.run lib env))) = Some (total, votes) ->
  (exists ms bat verdict,
      packets (trace (snd (Production.run lib env)))
      = [Production.payload ms verdict bat] /\
      (verdict = "CHAINSAW"%string <-> 15 * total < 100 * votes) /\
      (verdict = "TREE_FALL"%string <-> 100 * votes <= 15 * total)) /\
  (forall wind,
      Production.final_verdict
        {| Production.chainsaw_votes := 16; Production.wind_votes := wind;
           Production.total_samples := 100 |} = "CHAINSAW"%string /\
      Production.final_verdict
        {| Production.chainsaw_votes := 14; Production.wind_votes := wind;
           Production.total_samples := 100 |} = "TREE_FALL"%string /\
      Production.final_verdict
        {| Production.chainsaw_votes := 15; Production.wind_votes := wind;
           Production.total_samples := 100 |} = "TREE_FALL"%string).
Proof.
  intros Hrep. split.
  - destruct (production_report lib env total votes Hrep)
      as [_ (t & ms & bat & -> & -> & Hv & Ht & Hp)].
    exists ms, bat, (Production.final_verdict t). split; [exact Hp|].
    apply final_verdict_exact; [exact Hv|exact Ht].
  - intros wind. vm_compute. repeat split; reflexivity.
Qed.

Lemma voting_verdict_threshold_witness :
  reported_tally (trace (snd (Production.run bench_platform quiet_wake)))
  = Some (1, 0) /\
  exists ms bat verdict,
    packets (trace (snd (Production.run bench_platform quiet_wake)))
    = [Production.payload ms verdict bat] /\
    (verdict = "CHAINSAW"%string <-> 15 * 1 < 100 * 0) /\
    (verdict = "TREE_FALL"%string <-> 100 * 0 <= 15 * 1).
Proof.
  assert (H : reported_tally
                (trace (snd (Production.run bench_platform quiet_wake)))
              = Some (1, 0)) by (vm_compute; reflexivity).
  split; [exact H|].
  exact (proj1 (voting_verdict_threshold bench_platform quiet_wake 1 0 H)).
Defined.

(** C2, the counterexample.  The window of [edge_wake] has engine energy 60001
    and nature energy 30000: over the floor of 50000 and over twice the nature
    energy, so the 30-second node counts a chainsaw vote for it.  The V2
    firmware, which tests [engine / (nature + 1) > 2.0], prints these energies
    and sends nothing. *)
Lemma v2_signature_without_alert :
  fst (FirmwareV2.run bench_platform edge_wake) = Stopped Asleep /\
  reported_energy (trace (snd (FirmwareV2.run bench_platform edge_wake)))
  = Some (60001%float, 30000%float) /\
  PrimFloat.ltb 50000%float 60001%float
  && PrimFloat.ltb (PrimFloat.mul 30000%float 2%float) 60001%float = true /\
  Production.chainsaw_votes
    (Production.cast_vote Production.no_votes 60001%float 30000%float) = 1 /\
  packets (trace (snd (FirmwareV2.run bench_platform edge_wake))) = [].
Proof. vm_compute. repeat split; reflexivity. Qed.

(** C2, amended.  Every analysis window of the 30-second node returns, counts
    one more sample, and adds exactly one chainsaw vote when the engine-band
    energy of its spectrum exceeds 50000 and exceeds twice the nature-band
    energy; when either comparison fails it adds none.  The V2 firmware keeps
    no votes: a vibration wake that goes on to listen (radio started, at most
    5 active piezo reads) sends the CHAINSAW frame exactly when, on the
    spectrum of its one window, [engine / (nature + 1)] exceeds 2.0 and the
    engine energy exceeds 50000, and otherwise sends nothing. *)
Theorem one_vote_per_chainsaw_window
        (lib : Platform) (env : Env) (t : Production.Tally) (s : State) :
  (exists t' s',
     Production.monitor_window lib env t s = (Done t', s') /\
     let engine := engine_energy (vReal s') in
     let nature := nature_energy (vReal s') in
     Production.total_samples t' = Production.total_samples t + 1 /\
     Production.chainsaw_votes t'
     = Production.chainsaw_votes t
       + (if PrimFloat.ltb 50000%float engine
             && PrimFloat.ltb (PrimFloat.mul nature 2%float) engine
          then 1 else 0)) /\
  (lora_begin_ok env = true ->
   wakeup_cause env = ESP_SLEEP_WAKEUP_EXT0 ->
   active_reads (piezo_reads env 0 100) <= 5 ->
   let spectrum :=
     magnitudes lib (sampled env 200, replicate SAMPLES 0%float) in
   let engine := engine_energy spectrum in
   let nature := nature_energy spectrum in
   reported_tally (trace (snd (FirmwareV2.run lib env))) = None /\
   reported_energy (trace (snd (FirmwareV2.run lib env)))
   = Some (engine, nature) /\
   packets (trace (snd (FirmwareV2.run lib env)))
   = if PrimFloat.ltb 2%float
          (PrimFloat.div engine (PrimFloat.add nature 1%float))
        && PrimFloat.ltb 50000%float engine
     then [FirmwareV2.payload "CHAINSAW"] else []).
Proof.
  split.
  - unfold Production.monitor_window.
    destruct (returns_run _ s (sample_audio_returns env)) as [[] [s1 E1]].
    rewrite (bind_done _ _ _ _ _ E1).
    eexists _, _. split; [reflexivity|].
    cbn [vReal set_clock set_buffers add_event fst snd].
    unfold Production.cast_vote, chainsaw_signature, fgt.
    destruct (PrimFloat.ltb 50000 _ && PrimFloat.ltb _ _);
      [|destruct (wind_signature _ _)]; cbn; split; lia.
  - intros Hok Hwake Hhits spectrum engine nature.
    assert (Hw : is_ext0 (wakeup_cause env) = true)
      by (rewrite Hwake; reflexivity).
    destruct (v2_vibration_boot lib env Hok Hw) as (_ & _ & Htr).
    apply Z.ltb_ge in Hhits. rewrite Hhits in Htr.
    fold spectrum in Htr. fold engine nature in Htr.
    destruct (piezo_reads_facts env 0 100) as (Hp & _ & _).
    change (PrimFloat.ltb 2%float
              (PrimFloat.div engine (PrimFloat.add nature 1%float))
            && PrimFloat.ltb 50000%float engine)
      with (v2_chainsaw_detected engine nature).
    set (pre := [LoRaBegin true; DigitalWrite LED_PIN true]
                ++ piezo_reads env 0 100 ++ window_reads env 200
                ++ analyzer_calls).
    set (rest := SerialEnergy engine nature (v2_ratio engine nature)
                 :: (if v2_chainsaw_detected engine nature
                     then [LoRaPacket (FirmwareV2.payload "CHAINSAW")] else [])
                 ++ [DigitalWrite LED_PIN false; Ext0WakeupEnabled;
                     DeepSleepStart]).
    assert (Hsplit : trace (snd (FirmwareV2.run lib env)) = pre ++ rest).
    { rewrite Htr. subst pre rest.
      rewrite <- !app_assoc. cbn [app]. reflexivity. }
    assert (Hpre : forallb plain_event pre = true).
    { subst pre. cbn [app forallb plain_event andb].
      rewrite !forallb_app. apply andb_true_iff. split.
      - revert Hp. apply forallb_weaken.
        intros [ | |p ?|p ?| | | | | | ]; try destruct p; cbn; congruence.
      - apply andb_true_iff. split; [|reflexivity].
        generalize (window_reads_audio env 200). apply forallb_weaken.
        intros [ | |p ?|p ?| | | | | | ]; try destruct p; cbn; congruence. }
    destruct (tally_energy_packets_quiet pre rest Hpre) as (H1 & H2 & H3).
    rewrite Hsplit, H1, H2, H3. subst rest.
    destruct (v2_chainsaw_detected engine nature);
      cbn [app reported_tally reported_energy packets]; auto.
Qed.

Lemma one_vote_per_chainsaw_window_witness :
  reported_tally (trace (snd (FirmwareV2.run bench_platform saw_wake))) = None /\
  reported_energy (trace (snd (FirmwareV2.run bench_platform saw_wake)))
  = Some (engine_energy
            (magnitudes bench_platform
               (sampled saw_wake 200, replicate SAMPLES 0%float)),
          nature_energy
            (magnitudes bench_platform
               (sampled saw_wake 200, replicate SAMPLES 0%float))) /\
  packets (trace (snd (FirmwareV2.run bench_platform saw_wake)))
  = if PrimFloat.ltb 2%float
         (PrimFloat.div
            (engine_energy
               (magnitudes bench_platform
                  (sampled saw_wake 200, replicate SAMPLES 0%float)))
            (PrimFloat.add
               (nature_energy
                  (magnitudes bench_platform
                     (sampled saw_wake 200, replicate SAMPLES 0%float)))
               1%float))
       && PrimFloat.ltb 50000%float
            (engine_energy
               (magnitudes bench_platform
                  (sampled saw_wake 200, replicate SAMPLES 0%float)))
    then [FirmwareV2.payload "CHAINSAW"] else [].
Proof.
  apply (proj2 (one_vote_per_chainsaw_window bench_platform saw_wake
                  Production.no_votes (boot saw_wake))).
  - reflexivity.
  - reflexivity.
  - vm_compute. discriminate.
Defined.

(** C3 (the code departs from the band it documents).  Both sketches document
    the engine band as "100Hz to 600Hz (Bins 8 to 51)" and sum it with
    [for (int i = 8; i < 51; i++)]: bin 51 is left out.  A spectrum whose only
    energy is in bin 51 has engine energy 0, where the documented band gives 1;
    bin 50 is the last one counted. *)
Theorem engine_band_omits_bin_51 :
  engine_energy (spike 51 1%float) = 0%float /\
  documented_engine_energy (spike 51 1%float) = 1%float /\
  engine_energy (spike 50 1%float) = 1%float /\
  engine_energy (spike 8 1%float) = 1%float /\
  engine_energy (spike 7 1%float) = 0%float.
Proof. vm_compute. repeat split; reflexivity. Qed.



(** C5 as stated fails on the V2 firmware: its standard startup sends no frame
    at all before it sleeps. *)
Lemma v2_cold_boot_sends_nothing :
  fst (FirmwareV2.run bench_platform cold_boot) = Stopped Asleep /\
  packets (trace (snd (FirmwareV2.run bench_platform cold_boot))) = [] /\
  trace (snd (FirmwareV2.run bench_platform cold_boot))
  = [LoRaBegin true; Ext0WakeupEnabled; DeepSleepStart].
Proof. vm_compute. repeat split; reflexivity. Qed.

(** C5, amended.  On a boot that is not a wake by the piezo line (radio
    started), neither firmware monitors: the LED stays off, nothing is read
    from the piezo or the microphone, no FFT call is made.  The 30-second node
    reads the battery, sends one HEARTBEAT frame and sleeps; the V2 firmware
    sleeps without sending. *)
Theorem cold_boot_skips_monitoring (lib : Platform) (env : Env) :
  lora_begin_ok env = true ->
  is_ext0 (wakeup_cause env) = false ->
  (fst (Production.run lib env) = Stopped Asleep /\
   exists raw ms,
     trace (snd (Production.run lib env))
     = [LoRaBegin true; AnalogRead BAT_PIN raw;
        LoRaPacket (Production.payload ms "HEARTBEAT"
                      (String_of_float lib (Production.battery_volts raw) 1));
        Ext0WakeupEnabled; DeepSleepStart]) /\
  (fst (FirmwareV2.run lib env) = Stopped Asleep /\
   trace (snd (FirmwareV2.run lib env))
   = [LoRaBegin true; Ext0WakeupEnabled; DeepSleepStart]).
Proof.
  intros Hok Hwake. split.
  - destruct (production_run_shape lib env)
      as [s Hok' Htr|s raw ms Hok' Hw Htr|s audio t raw ms Hok' Hw Hf Hv Ht Htr
         |s audio Hok' Hw Hf Hh' Htr]; try congruence.
    split; [reflexivity|]. exists raw, ms. exact Htr.
  - destruct (v2_run_shape lib env)
      as [s Hok' Htr|s Hok' Hw Htr|s reads Hok' Hw Hf Hl Hhi Htr
         |s reads audio engine nature Hok' Hw Hf Hl Hlo Hfa Htr]; try congruence.
    split; [reflexivity|exact Htr].
Qed.

Lemma cold_boot_skips_monitoring_witness :
  (fst (Production.run bench_platform cold_boot) = Stopped Asleep /\
   exists raw ms,
     trace (snd (Production.run bench_platform cold_boot))
     = [LoRaBegin true; AnalogRead BAT_PIN raw;
        LoRaPacket (Production.payload ms "HEARTBEAT"
                      (String_of_float bench_platform
                                       (Production.battery_volts raw) 1));
        Ext0WakeupEnabled; DeepSleepStart]) /\
  (fst (FirmwareV2.run bench_platform cold_boot) = Stopped Asleep /\
   trace (snd (FirmwareV2.run bench_platform cold_boot))
   = [LoRaBegin true; Ext0WakeupEnabled; DeepSleepStart]).
Proof.
  apply (cold_boot_skips_monitoring bench_platform cold_boot); reflexivity.
Defined.

(** C6 as stated fails on the V2 firmware: the frame of its CLIMBING alert has
    two fields, the node and the tag, and so neither a counter nor a battery
    voltage. *)
Lemma v2_frame_has_two_fields :
  packets (trace (snd (FirmwareV2.run bench_platform climbing_wake)))
  = ["NODE_A,CLIMBING"%string] /\
  map fields (packets (trace (snd (FirmwareV2.run bench_platform climbing_wake))))
  = [["NODE_A"; "CLIMBING"]%string] /\
  forallb full_frame
          (packets (trace (snd (FirmwareV2.run bench_platform climbing_wake))))
  = false.
Proof. vm_compute. repeat split; reflexivity. Qed.

(** C6, amended.  Every frame of the 30-second node is
    [<millis>,<node>,<tag>,<volts>V] with the tag one of HEARTBEAT, CHAINSAW,
    TREE_FALL, and has the four fields of the interface; every frame of the V2
    firmware is [<node>,<tag>] with the tag CLIMBING or CHAINSAW, and these two
    are all its fields. *)
Theorem frames_carry_node_and_tag (lib : Platform) (env : Env) :
  Forall (fun p =>
            full_frame p = true /\
            exists ms raw tag,
              In tag ["HEARTBEAT"; "CHAINSAW"; "TREE_FALL"]%string /\
              p = Production.payload ms tag
                    (String_of_float lib (Production.battery_volts raw) 1))
         (packets (trace (snd (Production.run lib env)))) /\
  Forall (fun p =>
            exists tag,
              In tag ["CLIMBING"; "CHAINSAW"]%string /\
              p = FirmwareV2.payload tag /\
              fields p = [NODE_ID; tag])
         (packets (trace (snd (FirmwareV2.run lib env)))).
Proof.
  split.
  - destruct (production_run_shape lib env)
      as [s Hok Htr|s raw ms Hok Hw Htr|s audio t raw ms Hok Hw Hf Hv Ht Htr
         |s audio Hok Hw Hf Hh Htr]; rewrite Htr; cbn [app packets].
    + constructor.
    + repeat constructor.
      * apply production_payload_full; reflexivity.
      * exists ms, raw, "HEARTBEAT"%string. cbn [In]. auto.
    + rewrite packets_app, (packets_audio _ Hf). cbn [app packets].
      repeat constructor.
      * unfold Production.final_verdict.
        destruct (vote_threshold_exceeded _ _);
          apply production_payload_full; reflexivity.
      * exists ms, raw, (Production.final_verdict t). split; [|reflexivity].
        unfold Production.final_verdict.
        destruct (vote_threshold_exceeded _ _); cbn [In]; auto.
    + rewrite (packets_audio _ Hf). constructor.
  - destruct (v2_run_shape lib env)
      as [s Hok Htr|s Hok Hw Htr|s reads Hok Hw Hf Hl Hhi Htr
         |s reads audio engine nature Hok Hw Hf Hl Hlo Hfa Htr];
      rewrite Htr; cbn [app packets].
    + constructor.
    + constructor.
    + rewrite packets_app, (packets_piezo _ Hf). cbn [app packets].
      repeat constructor. exists "CLIMBING"%string. cbn [In]. auto.
    + rewrite !packets_app, (packets_piezo _ Hf), (packets_audio _ Hfa).
      destruct (v2_chainsaw_detected engine nature); cbn [app packets].
      * repeat constructor. exists "CHAINSAW"%string. cbn [In]. auto.
      * constructor.
Qed.

(** C7.  Both firmwares start the radio before anything else.  When it does
    not start, that is all they do: they halt, with nothing read, analysed or
    sent.  When it starts, they do not halt: the V2 firmware ends in deep
    sleep, and so does the 30-second node (unless the boot runs past the
    model's horizon). *)
Theorem radio_failure_is_fatal (lib : Platform) (env : Env) :
  exists rest rest2,
    trace (snd (Production.run lib env)) = LoRaBegin (lora_begin_ok env) :: rest /\
    trace (snd (FirmwareV2.run lib env)) = LoRaBegin (lora_begin_ok env) :: rest2 /\
    if lora_begin_ok env
    then (fst (Production.run lib env) = Stopped Asleep \/
          (fst (Production.run lib env) = Stopped OutOfFuel /\
           HORIZON < now (snd (Production.run lib env)))) /\
         fst (FirmwareV2.run lib env) = Stopped Asleep
    else rest = [] /\ rest2 = [] /\
         fst (Production.run lib env) = Stopped Halted /\
         fst (FirmwareV2.run lib env) = Stopped Halted.
Proof.
  destruct (production_run_shape lib env)
    as [s Hok Htr|s raw ms Hok Hw Htr|s audio t raw ms Hok Hw Hf Hv Ht Htr
       |s audio Hok Hw Hf Hh Htr];
    destruct (v2_run_shape lib env)
      as [s2 Hok2 Htr2|s2 Hok2 Hw2 Htr2|s2 reads Hok2 Hw2 Hf2 Hl2 Hhi2 Htr2
         |s2 reads audio2 engine nature Hok2 Hw2 Hf2 Hl2 Hlo2 Hfa2 Htr2];
    try congruence; rewrite Htr, Htr2, Hok; cbn [app];
    eexists _, _; (split; [reflexivity|]); (split; [reflexivity|]); auto.
Qed.

(** C8.  No boot of either firmware hands more than one frame to the radio.
    In the 30-second node the frame is built from a battery read made just
    before it is sent, and after it only the return to deep sleep follows; in
    the V2 firmware only the LED and the return to deep sleep follow. *)
Theorem at_most_one_packet (lib : Platform) (env : Env) :
  (length (packets (trace (snd (Production.run lib env)))) <= 1)%nat /\
  (length (packets (trace (snd (FirmwareV2.run lib env)))) <= 1)%nat /\
  (forall pre p post,
      trace (snd (Production.run lib env)) = pre ++ LoRaPacket p :: post ->
      post = [Ext0WakeupEnabled; DeepSleepStart] /\
      exists before raw ms tag,
        pre = before ++ [AnalogRead BAT_PIN raw] /\
        packets before = [] /\
        p = Production.payload ms tag
              (String_of_float lib (Production.battery_volts raw) 1)) /\
  (forall pre p post,
      trace (snd (FirmwareV2.run lib env)) = pre ++ LoRaPacket p :: post ->
      packets pre = [] /\
      (post = [Ext0WakeupEnabled; DeepSleepStart] \/
       post = [DigitalWrite LED_PIN false; Ext0WakeupEnabled; DeepSleepStart])).
Proof.
  split; [|split; [|split]].
  - destruct (production_run_shape lib env)
      as [s Hok Htr|s raw ms Hok Hw Htr|s audio t raw ms Hok Hw Hf Hv Ht Htr
         |s audio Hok Hw Hf Hh Htr]; rewrite Htr; cbn [app packets];
      rewrite ?packets_app, ?(packets_audio _ Hf); cbn; lia.
  - destruct (v2_run_shape lib env)
      as [s Hok Htr|s Hok Hw Htr|s reads Hok Hw Hf Hl Hhi Htr
         |s reads audio engine nature Hok Hw Hf Hl Hlo Hfa Htr];
      rewrite Htr; cbn [app packets];
      rewrite ?packets_app, ?(packets_piezo _ Hf), ?(packets_audio _ Hfa);
      try destruct (v2_chainsaw_detected engine nature); cbn; lia.
  - intros pre p post Hsplit.
    destruct (production_run_shape lib env)
      as [s Hok Htr|s raw ms Hok Hw Htr|s audio t raw ms Hok Hw Hf Hv Ht Htr
         |s audio Hok Hw Hf Hh Htr]; rewrite Htr in Hsplit.
    + exfalso. apply (packets_split_nonempty pre post p).
      rewrite <- Hsplit. reflexivity.
    + destruct (packet_split_unique
                  [LoRaBegin true; AnalogRead BAT_PIN raw]
                  [Ext0WakeupEnabled; DeepSleepStart] pre post _ p
                  eq_refl eq_refl Hsplit) as (-> & -> & ->).
      split; [reflexivity|].
      exists [LoRaBegin true], raw, ms, "HEARTBEAT"%string. auto.
    + destruct (packet_split_unique
                  (([LoRaBegin true; DigitalWrite LED_PIN true] ++ audio ++
                    [DigitalWrite LED_PIN false;
                     SerialTally (Production.total_samples t)
                                 (Production.chainsaw_votes t)])
                   ++ [AnalogRead BAT_PIN raw])
                  [Ext0WakeupEnabled; DeepSleepStart] pre post
                  (Production.payload ms (Production.final_verdict t)
                     (String_of_float lib (Production.battery_volts raw) 1)) p)
        as (-> & -> & ->).
      * rewrite !packets_app, (packets_audio _ Hf). reflexivity.
      * reflexivity.
      * rewrite <- Hsplit. cbn [app]. rewrite <- ?app_assoc. reflexivity.
      * split; [reflexivity|]. eexists _, raw, ms, _.
        split; [reflexivity|]. split; [|reflexivity].
        rewrite !packets_app, (packets_audio _ Hf). reflexivity.
    + exfalso. apply (packets_split_nonempty pre post p).
      rewrite <- Hsplit. cbn [app packets]. apply packets_audio, Hf.
  - intros pre p post Hsplit.
    destruct (v2_run_shape lib env)
      as [s Hok Htr|s Hok Hw Htr|s reads Hok Hw Hf Hl Hhi Htr
         |s reads audio engine nature Hok Hw Hf Hl Hlo Hfa Htr];
      rewrite Htr in Hsplit.
    + exfalso. apply (packets_split_nonempty pre post p).
      rewrite <- Hsplit. reflexivity.
    + exfalso. apply (packets_split_nonempty pre post p).
      rewrite <- Hsplit. reflexivity.
    + destruct (packet_split_unique
                  ([LoRaBegin true; DigitalWrite LED_PIN true] ++ reads)
                  [Ext0WakeupEnabled; DeepSleepStart] pre post
                  (FirmwareV2.payload "CLIMBING") p)
        as (-> & -> & ->).
      * rewrite packets_app, (packets_piezo _ Hf). reflexivity.
      * reflexivity.
      * rewrite <- Hsplit. cbn [app]. rewrite <- ?app_assoc. reflexivity.
      * split; [|left; reflexivity].
        rewrite packets_app, (packets_piezo _ Hf). reflexivity.
    + destruct (v2_chainsaw_detected engine nature).
      * destruct (packet_split_unique
                    ([LoRaBegin true; DigitalWrite LED_PIN true] ++ reads ++
                     audio ++
                     [SerialEnergy engine nature (v2_ratio engine nature)])
                    [DigitalWrite LED_PIN false; Ext0WakeupEnabled;
                     DeepSleepStart] pre post
                    (FirmwareV2.payload "CHAINSAW") p)
          as (-> & -> & ->).
        -- rewrite !packets_app, (packets_piezo _ Hf), (packets_audio _ Hfa).
           reflexivity.
        -- reflexivity.
        -- rewrite <- Hsplit. cbn [app]. rewrite <- ?app_assoc. reflexivity.
        -- split; [|right; reflexivity].
           rewrite !packets_app, (packets_piezo _ Hf), (packets_audio _ Hfa).
           reflexivity.
      * exfalso. apply (packets_split_nonempty pre post p).
        rewrite <- Hsplit. cbn [app packets].
        rewrite !packets_app, (packets_piezo _ Hf), (packets_audio _ Hfa).
        reflexivity.
Qed.

(** C9.  The Spectral Analyzer is a function of the two buffers alone: run on
    states that agree on [vReal] and [vImag] (whatever their timers, traces and
    hardware inputs) it returns the same energy profile, namely the two band
    sums over the magnitudes the FFT calls compute from the buffers. *)
Theorem spectral_analysis_pure
        (lib : Platform) (env1 env2 : Env) (s1 s2 : State) :
  vReal s1 = vReal s2 -> vImag s1 = vImag s2 ->
  fst (spectral_analysis lib env1 s1) = fst (spectral_analysis lib env2 s2) /\
  fst (spectral_analysis lib env1 s1)
  = Done (engine_energy (magnitudes lib (vReal s1, vImag s1)),
          nature_energy (magnitudes lib (vReal s1, vImag s1))).
Proof.
  intros Hr Hi.
  rewrite (proj1 (spectral_analysis_value lib env1 s1)).
  rewrite (proj1 (spectral_analysis_value lib env2 s2)).
  rewrite Hr, Hi. split; reflexivity.
Qed.

Lemma spectral_analysis_pure_witness :
  fst (spectral_analysis bench_platform cold_boot (boot cold_boot))
  = fst (spectral_analysis bench_platform rumble_wake
           (add_event (LoRaBegin true) (set_clock 99 7 (boot rumble_wake)))) /\
  fst (spectral_analysis bench_platform cold_boot (boot cold_boot))
  = Done (engine_energy
            (magnitudes bench_platform
               (vReal (boot cold_boot), vImag (boot cold_boot))),
          nature_energy
            (magnitudes bench_platform
               (vReal (boot cold_boot), vImag (boot cold_boot)))).
Proof.
  apply (spectral_analysis_pure bench_platform cold_boot rumble_wake
           (boot cold_boot)
           (add_event (LoRaBegin true) (set_clock 99 7 (boot rumble_wake))));
    reflexivity.
Defined.

(** C10.  In the 30-second node every vibration wake (radio started, boot
    within the timer's horizon) goes back to sleep having sent exactly one
    frame: CHAINSAW when the chainsaw votes are more than 15% of the windows,
    TREE_FALL in every other case.  No outcome sends nothing. *)
Theorem vibration_wake_sends_one_verdict (lib : Platform) (env : Env) :
  lora_begin_ok env = true ->
  wakeup_cause env = ESP_SLEEP_WAKEUP_EXT0 ->
  now (snd (Production.run lib env)) <= HORIZON ->
  fst (Production.run lib env) = Stopped Asleep /\
  exists total votes ms bat,
    reported_tally (trace (snd (Production.run lib env))) = Some (total, votes) /\
    0 <= votes <= total /\
    ((15 * total < 100 * votes /\
      packets (trace (snd (Production.run lib env)))
      = [Production.payload ms "CHAINSAW" bat]) \/
     (100 * votes <= 15 * total /\
      packets (trace (snd (Production.run lib env)))
      = [Production.payload ms "TREE_FALL" bat])).
Proof.
  intros Hok Hwake Hh.
  destruct (production_vibration_wake lib env Hok Hwake Hh)
    as [Hs (total & votes & Hrep)].
  split; [exact Hs|].
  destruct (production_report lib env total votes Hrep)
    as [_ (t & ms & bat & -> & -> & Hv & Ht & Hp)].
  exists (Production.total_samples t), (Production.chainsaw_votes t), ms, bat.
  split; [exact Hrep|]. split; [exact Hv|].
  destruct (final_verdict_exact t Hv Ht) as [Hc Hf].
  destruct (Z.lt_ge_cases (15 * Production.total_samples t)
                          (100 * Production.chainsaw_votes t)) as [Hlt|Hge].
  - left. split; [exact Hlt|]. rewrite Hp, (proj2 Hc Hlt). reflexivity.
  - right. split; [exact Hge|]. rewrite Hp, (proj2 Hf Hge). reflexivity.
Qed.

Lemma vibration_wake_sends_one_verdict_witness :
  fst (Production.run bench_platform rumble_wake) = Stopped Asleep /\
  exists total votes ms bat,
    reported_tally (trace (snd (Production.run bench_platform rumble_wake)))
    = Some (total, votes) /\
    0 <= votes <= total /\
    ((15 * total < 100 * votes /\
      packets (trace (snd (Production.run bench_platform rumble_wake)))
      = [Production.payload ms "CHAINSAW" bat]) \/
     (100 * votes <= 15 * total /\
      packets (trace (snd (Production.run bench_platform rumble_wake)))
      = [Production.payload ms "TREE_FALL" bat])).
Proof.
  apply (vibration_wake_sends_one_verdict bench_platform rumble_wake).
  - reflexivity.
  - reflexivity.
  - vm_compute. discriminate.
Defined.

(* ================================================================== *)
(** * Further properties of the sketches *)

(* ------------------------------------------------------------------ *)
(** ** The episode of a vibration wake, summed up *)

Lemma mic_values_audio_free (evs : list Event) :
  forallb (fun e => negb (audio_event e)) evs = true ->
  mic_values evs = [] /\ fft_calls evs = [].
Proof.
  induction evs as [|e evs IH]; [split; reflexivity|].
  cbn [forallb]. intros [He Hr]%andb_true_iff. destruct (IH Hr) as [Hm Hf].
  destruct e as [ | |p ?|p ?| | | | | | ]; try destruct p;
    cbn in He; try discriminate; cbn [mic_values fft_calls]; auto.
Qed.

Section EpisodeSummary.
Context (lib : Platform) (env : Env).
Import Production.

Lemma production_episode_summary :
  lora_begin_ok env = true -> is_ext0 (wakeup_cause env) = true ->
  fst (run lib env) = Stopped Asleep ->
  exists t audio raw ms,
    trace (snd (run lib env)) =
      [LoRaBegin true; DigitalWrite LED_PIN true] ++ audio ++
      [DigitalWrite LED_PIN false;
       SerialTally (total_samples t) (chainsaw_votes t);
       AnalogRead BAT_PIN raw;
       LoRaPacket (payload ms (final_verdict t)
                     (String_of_float lib (battery_volts raw) 1));
       Ext0WakeupEnabled; DeepSleepStart] /\
    forallb audio_event audio = true /\
    1 <= total_samples t /\
    Z.of_nat (length (mic_values audio)) = Z.of_nat SAMPLES * total_samples t /\
    Z.of_nat (length (fft_calls audio)) = 3 * total_samples t /\
    0 <= ms < ULONG /\
    (now (snd (run lib env)) <= HORIZON ->
     total_samples t <= 351 /\
     Z.of_N (boot_time env) / 1000 + duration <= ms /\
     Z.of_N (boot_time env) + 30600000 - 999 <= now (snd (run lib env))).
Proof.
  intros Hok Hw Hout.
  destruct (production_episode_detail lib env Hok Hw)
    as [(t & s2 & s' & E & Er & Htr & Hn)|Hof]; [|congruence].
  destruct (production_monitor_facts lib env t s2 E)
    as (H1 & Hm & Hf & _ & _ & Hin).
  destruct (monitor_audio lib env monitor_fuel
              ((Z.of_N (boot_time env) / 1000) mod ULONG) no_votes
              (monitoring_entry env)) as [audio [Ha Hfa]].
  rewrite E in Ha. cbn [snd] in Ha.
  cbn [monitoring_entry trace add_event boot app] in Ha.
  rewrite Ha in Hm, Hf, Htr.
  cbn [app mic_values fft_calls] in Hm, Hf.
  exists t, audio, (Z.of_N (adc env (step s2))),
    (((now s2 + Z.of_N (lag env (step s2))) / 1000) mod ULONG).
  rewrite Er. cbn [snd].
  split; [rewrite Htr; reflexivity|].
  split; [exact Hfa|]. split; [exact H1|]. split; [exact Hm|].
  split; [exact Hf|].
  split; [apply Z.mod_pos_bound; reflexivity|].
  intros Hh.
  pose proof (N2Z.is_nonneg (lag env (step s2))) as Hl.
  pose proof (N2Z.is_nonneg (boot_time env)) as Hb.
  destruct Hin as [H351 Hdur]; [lia|].
  split; [exact H351|].
  unfold HORIZON, duration in *. change ULONG with 4294967296 in *.
  clear Htr Ha Hm Hf E Er.
  split; Z.div_mod_to_equations; lia.
Qed.

(** A boot that reports a tally is a vibration wake with the radio started. *)
Lemma reported_boot (total votes : Z) :
  reported_tally (trace (snd (run lib env))) = Some (total, votes) ->
  lora_begin_ok env = true /\ is_ext0 (wakeup_cause env) = true /\
  fst (run lib env) = Stopped Asleep.
Proof.
  destruct (production_run_shape lib env)
    as [s Hok Htr|s raw ms Hok Hw Htr|s audio t raw ms Hok Hw Hf Hv Ht Htr
       |s audio Hok Hw Hf Hh Htr]; rewrite Htr.
  - discriminate.
  - discriminate.
  - auto.
  - cbn [app reported_tally]. rewrite <- (app_nil_r audio).
    rewrite (reported_tally_audio _ _ Hf). discriminate.
Qed.

End EpisodeSummary.

(* ------------------------------------------------------------------ *)
(** ** The sampler and the analysis cycle *)

(** X1.  The acquisition (A. SAMPLE AUDIO) on buffers of 512 entries returns
    after exactly 512 reads of the microphone pin and nothing else: [vReal]
    then holds the values read, in order, as doubles, whatever it held before,
    [vImag] holds 512 zeros, and the run has used 1024 hardware accesses (a
    read and a timer poll per sample). *)
Theorem acquisition_fills_the_buffers (env : Env) (s : State) :
  length (vReal s) = SAMPLES -> length (vImag s) = SAMPLES ->
  fst (sample_audio env s) = Done tt /\
  trace (snd (sample_audio env s)) = trace s ++ window_reads env (step s) /\
  vReal (snd (sample_audio env s))
  = map double_of_int (mic_values (window_reads env (step s))) /\
  vImag (snd (sample_audio env s)) = replicate SAMPLES 0%float /\
  step (snd (sample_audio env s)) = (step s + 2 * SAMPLES)%nat.
Proof.
  intros Lr Li.
  destruct (returns_run _ s (sample_audio_returns env)) as [[] [s1 E1]].
  destruct (sample_audio_overwrites env s Lr Li) as [R I].
  split; [rewrite E1; reflexivity|].
  split; [apply sample_audio_trace|].
  split; [|split; [exact I|apply sample_audio_step]].
  rewrite R, mic_values_window, map_map. reflexivity.
Qed.

Lemma acquisition_fills_the_buffers_witness :
  fst (sample_audio cold_boot (boot cold_boot)) = Done tt /\
  trace (snd (sample_audio cold_boot (boot cold_boot)))
  = trace (boot cold_boot) ++ window_reads cold_boot (step (boot cold_boot)) /\
  vReal (snd (sample_audio cold_boot (boot cold_boot)))
  = map double_of_int
        (mic_values (window_reads cold_boot (step (boot cold_boot)))) /\
  vImag (snd (sample_audio cold_boot (boot cold_boot)))
  = replicate SAMPLES 0%float /\
  step (snd (sample_audio cold_boot (boot cold_boot)))
  = (step (boot cold_boot) + 2 * SAMPLES)%nat.
Proof.
  apply (acquisition_fills_the_buffers cold_boot (boot cold_boot));
    apply length_replicate.
Defined.

(** X2.  The busy-wait of the acquisition holds the sampling period: as long
    as the 32-bit microsecond timer has not wrapped (the run ends within the
    horizon), 512 samples take at least 512 * 167 = 85504 microseconds, however
    fast the hardware is. *)
Theorem acquisition_keeps_the_sampling_period (env : Env) (s : State) :
  0 <= now s ->
  now (snd (sample_audio env s)) <= HORIZON ->
  now s + 85504 <= now (snd (sample_audio env s)).
Proof.
  intros H0 Hh. pose proof (sample_audio_duration env s H0 Hh) as D.
  unfold window_us, SAMPLES, sampling_period_us in D. lia.
Qed.

Lemma acquisition_keeps_the_sampling_period_witness :
  now (boot cold_boot) + 85504
  <= now (snd (sample_audio cold_boot (boot cold_boot))).
Proof.
  apply (acquisition_keeps_the_sampling_period cold_boot (boot cold_boot)).
  - vm_compute. discriminate.
  - vm_compute. discriminate.
Defined.

(** X3.  One analysis cycle (acquisition, then the three FFT calls and the
    band sums) on buffers of 512 entries: its events are the 512 microphone
    reads followed by windowing, compute and complexToMagnitude, in this
    order; the profile it returns is the engine and nature energy of the
    magnitude spectrum of the window just read with a zero imaginary part; and
    [vReal] is left holding that spectrum. *)
Theorem analysis_cycle_reads_then_transforms
        (lib : Platform) (env : Env) (s : State) :
  length (vReal s) = SAMPLES -> length (vImag s) = SAMPLES ->
  let spectrum :=
    magnitudes lib (sampled env (step s), replicate SAMPLES 0%float) in
  let cycle := (sample_audio env ;; spectral_analysis lib env) s in
  fst cycle = Done (engine_energy spectrum, nature_energy spectrum) /\
  trace (snd cycle) = trace s ++ window_reads env (step s) ++ analyzer_calls /\
  vReal (snd cycle) = spectrum.
Proof.
  intros Lr Li spectrum cycle.
  destruct (analysis_cycle_exact lib env s Lr Li) as (s' & E & Htr & _ & Hr).
  subst cycle. rewrite E. auto.
Qed.

Lemma analysis_cycle_reads_then_transforms_witness :
  let spectrum :=
    magnitudes bench_platform
      (sampled rumble_wake (step (boot rumble_wake)), replicate SAMPLES 0%float) in
  let cycle :=
    (sample_audio rumble_wake ;; spectral_analysis bench_platform rumble_wake)
      (boot rumble_wake) in
  fst cycle = Done (engine_energy spectrum, nature_energy spectrum) /\
  trace (snd cycle)
  = trace (boot rumble_wake)
    ++ window_reads rumble_wake (step (boot rumble_wake)) ++ analyzer_calls /\
  vReal (snd cycle) = spectrum.
Proof.
  apply (analysis_cycle_reads_then_transforms bench_platform rumble_wake
           (boot rumble_wake)); apply length_replicate.
Defined.

(* ------------------------------------------------------------------ *)
(** ** The 30-second node, boot by boot *)

(** X4.  The tally a boot of the 30-second node reports counts the windows it
    really analysed: there is at least one (the loop is entered right after
    [start_time = millis()]), and the boot has read the microphone 512 times
    and called the FFT three times for each window counted, no more and no
    less. *)
Theorem tally_counts_every_window
        (lib : Platform) (env : Env) (total votes : Z) :
  reported_tally (trace (snd (Production.run lib env))) = Some (total, votes) ->
  1 <= total /\
  Z.of_nat (length (mic_values (trace (snd (Production.run lib env)))))
  = 512 * total /\
  Z.of_nat (length (fft_calls (trace (snd (Production.run lib env)))))
  = 3 * total.
Proof.
  intros Hrep.
  destruct (reported_boot lib env total votes Hrep) as (Hok & Hw & Hout).
  destruct (production_episode_summary lib env Hok Hw Hout)
    as (t & audio & raw & ms & Htr & Hfa & H1 & Hm & Hf & _).
  rewrite Htr in Hrep |- *.
  cbn [app reported_tally] in Hrep.
  rewrite (reported_tally_audio _ _ Hfa) in Hrep. cbn [reported_tally] in Hrep.
  injection Hrep as <- <-.
  cbn [app mic_values fft_calls].
  rewrite mic_values_app, fft_calls_app, !length_app.
  cbn [mic_values fft_calls length].
  change (Z.of_nat SAMPLES) with 512 in Hm. lia.
Qed.

Lemma tally_counts_every_window_witness :
  1 <= 1 /\
  Z.of_nat (length (mic_values
                      (trace (snd (Production.run bench_platform quiet_wake)))))
  = 512 * 1 /\
  Z.of_nat (length (fft_calls
                      (trace (snd (Production.run bench_platform quiet_wake)))))
  = 3 * 1.
Proof.
  apply (tally_counts_every_window bench_platform quiet_wake 1 0).
  vm_compute. reflexivity.
Defined.

(** X5.  A monitoring episode that ends before the microsecond timer can wrap
    has analysed at most 351 windows: each takes at least 85504 microseconds
    and the loop stops at the first check after 30000 ms. *)
Theorem episode_holds_at_most_351_windows
        (lib : Platform) (env : Env) (total votes : Z) :
  reported_tally (trace (snd (Production.run lib env))) = Some (total, votes) ->
  now (snd (Production.run lib env)) <= HORIZON ->
  total <= 351.
Proof.
  intros Hrep Hh.
  destruct (reported_boot lib env total votes Hrep) as (Hok & Hw & Hout).
  destruct (production_episode_summary lib env Hok Hw Hout)
    as (t & audio & raw & ms & Htr & Hfa & _ & _ & _ & _ & Hin).
  rewrite Htr in Hrep. cbn [app reported_tally] in Hrep.
  rewrite (reported_tally_audio _ _ Hfa) in Hrep. cbn [reported_tally] in Hrep.
  injection Hrep as <- <-. apply Hin. exact Hh.
Qed.

Lemma episode_holds_at_most_351_windows_witness :
  reported_tally (trace (snd (Production.run bench_platform quiet_wake)))
  = Some (1, 0) /\
  1 <= 351.
Proof.
  assert (H : reported_tally
                (trace (snd (Production.run bench_platform quiet_wake)))
              = Some (1, 0)) by (vm_compute; reflexivity).
  split; [exact H|].
  apply (episode_holds_at_most_351_windows bench_platform quiet_wake 1 0 H).
  vm_compute. discriminate.
Defined.

(** X6.  The verdict of a vibration wake is never early: within the timer's
    horizon, the one frame of the boot carries a counter that is at least
    30000 ms past the millisecond the boot started in, and the node goes to
    sleep no sooner than 30.6 s after its boot (the 30 s of monitoring, the
    500 ms after the packet and the 100 ms before sleep), less the part of a
    millisecond that [millis()] drops. *)
Theorem verdict_follows_thirty_seconds (lib : Platform) (env : Env) :
  lora_begin_ok env = true ->
  wakeup_cause env = ESP_SLEEP_WAKEUP_EXT0 ->
  now (snd (Production.run lib env)) <= HORIZON ->
  exists ms tag bat,
    packets (trace (snd (Production.run lib env)))
    = [Production.payload ms tag bat] /\
    Z.of_N (boot_time env) / 1000 + 30000 <= ms < ULONG /\
    Z.of_N (boot_time env) + 30599001 <= now (snd (Production.run lib env)).
Proof.
  intros Hok Hwake Hh.
  destruct (production_vibration_wake lib env Hok Hwake Hh) as [Hout _].
  assert (Hw : is_ext0 (wakeup_cause env) = true) by (rewrite Hwake; reflexivity).
  destruct (production_episode_summary lib env Hok Hw Hout)
    as (t & audio & raw & ms & Htr & Hfa & _ & _ & _ & Hms & Hin).
  destruct (Hin Hh) as (_ & Hdur & Hnow).
  exists ms, (Production.final_verdict t),
    (String_of_float lib (Production.battery_volts raw) 1).
  split; [|split; [unfold duration in Hdur; lia|lia]].
  rewrite Htr. cbn [app packets]. rewrite packets_app, (packets_audio _ Hfa).
  reflexivity.
Qed.

Lemma verdict_follows_thirty_seconds_witness :
  exists ms tag bat,
    packets (trace (snd (Production.run bench_platform rumble_wake)))
    = [Production.payload ms tag bat] /\
    Z.of_N (boot_time rumble_wake) / 1000 + 30000 <= ms < ULONG /\
    Z.of_N (boot_time rumble_wake) + 30599001
    <= now (snd (Production.run bench_platform rumble_wake)).
Proof.
  apply (verdict_follows_thirty_seconds bench_platform rumble_wake).
  - reflexivity.
  - reflexivity.
  - vm_compute. discriminate.
Defined.

(** X7.  A boot of the 30-second node that is no vibration wake (radio
    started) is fixed by three inputs.  It reads the battery pin once, at the
    first hardware access; its HEARTBEAT frame carries the millisecond count
    taken right after that read and the voltage computed from it; the boot
    ends in deep sleep 600 ms plus the four access times after it began, and
    it touches neither the microphone nor the LED. *)
Theorem heartbeat_boot_is_determined (lib : Platform) (env : Env) :
  lora_begin_ok env = true ->
  is_ext0 (wakeup_cause env) = false ->
  let raw := Z.of_N (adc env 0) in
  let ms := ((Z.of_N (boot_time env) + Z.of_N (lag env 0)) / 1000) mod ULONG in
  fst (Production.run lib env) = Stopped Asleep /\
  trace (snd (Production.run lib env)) =
    [LoRaBegin true; AnalogRead BAT_PIN raw;
     LoRaPacket (Production.payload ms "HEARTBEAT"
                   (String_of_float lib (Production.battery_volts raw) 1));
     Ext0WakeupEnabled; DeepSleepStart] /\
  now (snd (Production.run lib env)) =
    Z.of_N (boot_time env) + Z.of_N (lag env 0) + Z.of_N (lag env 1)
    + Z.of_N (lag env 2) + Z.of_N (lag env 3) + 600000.
Proof.
  intros Hok Hw raw ms. unfold Production.run.
  rewrite setup_unfold, Hok, Hw.
  split; [reflexivity|]. split; [reflexivity|].
  cbn [bind Production.send_packet Production.go_to_sleep snd now step
       set_clock add_event boot].
  unfold Production.send_packet, Production.go_to_sleep, analogRead, millis,
    LoRa_send, delay, deep_sleep, access, emit, modify, get, ret, stop, bind.
  cbn [fst snd now step set_clock add_event boot]. lia.
Qed.

Lemma heartbeat_boot_is_determined_witness :
  let raw := Z.of_N (adc cold_boot 0) in
  let ms :=
    ((Z.of_N (boot_time cold_boot) + Z.of_N (lag cold_boot 0)) / 1000)
      mod ULONG in
  fst (Production.run bench_platform cold_boot) = Stopped Asleep /\
  trace (snd (Production.run bench_platform cold_boot)) =
    [LoRaBegin true; AnalogRead BAT_PIN raw;
     LoRaPacket (Production.payload ms "HEARTBEAT"
                   (String_of_float bench_platform
                      (Production.battery_volts raw) 1));
     Ext0WakeupEnabled; DeepSleepStart] /\
  now (snd (Production.run bench_platform cold_boot)) =
    Z.of_N (boot_time cold_boot) + Z.of_N (lag cold_boot 0)
    + Z.of_N (lag cold_boot 1) + Z.of_N (lag cold_boot 2)
    + Z.of_N (lag cold_boot 3) + 600000.
Proof.
  apply (heartbeat_boot_is_determined bench_platform cold_boot); reflexivity.
Defined.

(* ------------------------------------------------------------------ *)
(** ** The single-window firmware, boot by boot *)

(** X8.  A vibration wake of the V2 firmware (radio started) is fixed by the
    piezo line and the microphone.  It always ends in deep sleep, at least one
    second after the boot (100 reads, 10 ms apart).  The 100 piezo reads are
    the accesses 0, 2, ..., 198.  With more than 5 of them HIGH the only other
    event is the CLIMBING frame.  With 5 or fewer, and 5 itself does not
    alert, the window is the accesses 200, 202, ..., 1222, the three FFT calls
    follow, and the CHAINSAW frame is sent exactly when the ratio test holds
    on the band energies of that window's spectrum; the LED is switched off
    last. *)
Theorem v2_vibration_wake_is_determined (lib : Platform) (env : Env) :
  lora_begin_ok env = true ->
  wakeup_cause env = ESP_SLEEP_WAKEUP_EXT0 ->
  let reads := piezo_reads env 0 100 in
  let spectrum := magnitudes lib (sampled env 200, replicate SAMPLES 0%float) in
  let engine := engine_energy spectrum in
  let nature := nature_energy spectrum in
  fst (FirmwareV2.run lib env) = Stopped Asleep /\
  Z.of_N (boot_time env) + 1000000 <= now (snd (FirmwareV2.run lib env)) /\
  trace (snd (FirmwareV2.run lib env)) =
    [LoRaBegin true; DigitalWrite LED_PIN true] ++ reads ++
    (if 5 <? active_reads reads then
       [LoRaPacket (FirmwareV2.payload "CLIMBING")]
     else
       window_reads env 200 ++ analyzer_calls ++
       [SerialEnergy engine nature (v2_ratio engine nature)] ++
       (if v2_chainsaw_detected engine nature
        then [LoRaPacket (FirmwareV2.payload "CHAINSAW")] else []) ++
       [DigitalWrite LED_PIN false]) ++
    [Ext0WakeupEnabled; DeepSleepStart].
Proof.
  intros Hok Hwake. apply v2_vibration_boot; [exact Hok|].
  rewrite Hwake. reflexivity.
Qed.

Lemma v2_vibration_wake_is_determined_witness :
  let reads := piezo_reads saw_wake 0 100 in
  let spectrum :=
    magnitudes bench_platform (sampled saw_wake 200, replicate SAMPLES 0%float) in
  let engine := engine_energy spectrum in
  let nature := nature_energy spectrum in
  fst (FirmwareV2.run bench_platform saw_wake) = Stopped Asleep /\
  Z.of_N (boot_time saw_wake) + 1000000
  <= now (snd (FirmwareV2.run bench_platform saw_wake)) /\
  trace (snd (FirmwareV2.run bench_platform saw_wake)) =
    [LoRaBegin true; DigitalWrite LED_PIN true] ++ reads ++
    (if 5 <? active_reads reads then
       [LoRaPacket (FirmwareV2.payload "CLIMBING")]
     else
       window_reads saw_wake 200 ++ analyzer_calls ++
       [SerialEnergy engine nature (v2_ratio engine nature)] ++
       (if v2_chainsaw_detected engine nature
        then [LoRaPacket (FirmwareV2.payload "CHAINSAW")] else []) ++
       [DigitalWrite LED_PIN false]) ++
    [Ext0WakeupEnabled; DeepSleepStart].
Proof.
  apply (v2_vibration_wake_is_determined bench_platform saw_wake); reflexivity.
Defined.

(* ------------------------------------------------------------------ *)
(** ** What the events of the sampler and of the vibration window are not *)

Lemma audio_events_quiet (evs : list Event) :
  forallb audio_event evs = true ->
  never_sleeps evs = true /\
  battery_reads evs = [] /\
  forallb (fun e => negb (is_piezo_pin_read e)) evs = true /\
  forallb (fun e => negb (is_battery_read e)) evs = true.
Proof.
  induction evs as [|e evs IH]; [repeat split; reflexivity|].
  cbn [forallb]. intros [He Hr]%andb_true_iff.
  destruct (IH Hr) as (H1 & H2 & H3 & H4).
  unfold never_sleeps, battery_reads in *.
  destruct e as [ | |p ?|p ?| | | | | | ]; try destruct p;
    cbn in He; try discriminate;
    cbn [forallb List.filter sleep_event is_battery_read is_piezo_pin_read
         negb andb]; auto.
Qed.

Lemma piezo_events_quiet (evs : list Event) :
  forallb is_piezo_read evs = true ->
  never_sleeps evs = true /\
  battery_reads evs = [] /\
  forallb (fun e => negb (is_battery_read e)) evs = true.
Proof.
  induction evs as [|e evs IH]; [repeat split; reflexivity|].
  cbn [forallb]. intros [He Hr]%andb_true_iff.
  destruct (IH Hr) as (H1 & H2 & H3).
  unfold never_sleeps, battery_reads in *.
  destruct e as [ | |p ?|p ?| | | | | | ]; try destruct p;
    cbn in He; try discriminate;
    cbn [forallb List.filter sleep_event is_battery_read negb andb]; auto.
Qed.

Lemma never_sleeps_app (a b : list Event) :
  never_sleeps (a ++ b) = never_sleeps a && never_sleeps b.
Proof. apply forallb_app. Qed.

Lemma battery_reads_app (a b : list Event) :
  battery_reads (a ++ b) = battery_reads a ++ battery_reads b.
Proof. apply List.filter_app. Qed.

Lemma ends_armed_app (a b : list Event) :
  never_sleeps a = true -> ends_armed (a ++ b) = ends_armed b.
Proof.
  induction a as [|e a IH]; [reflexivity|].
  unfold never_sleeps. cbn [forallb app]. intros [He Hr]%andb_true_iff.
  specialize (IH Hr).
  destruct e; cbn in He; try discriminate;
    cbn [ends_armed sleep_event negb andb]; exact IH.
Qed.

Lemma led_writes_last (tr : list Event) (high : bool) (rest : list Event) :
  led_writes rest = [] ->
  led_on (tr ++ DigitalWrite LED_PIN high :: rest) = high.
Proof.
  intros Hr. unfold led_on. rewrite led_writes_app. cbn [led_writes].
  rewrite Hr. apply last_last.
Qed.

(* ------------------------------------------------------------------ *)
(** ** The vibration window *)

(** X9.  The vibration window of the V2 firmware ([for i < 100]: read the
    piezo line, wait 10 ms) always returns; its result is the number of reads
    that found the line HIGH, between 0 and 100; it reads the line exactly 100
    times, at every second hardware access, takes a second at least, and
    leaves the sample buffers alone. *)
Theorem vibration_window_counts_active_reads (env : Env) (s : State) :
  let reads := piezo_reads env (step s) 100 in
  let after := snd (FirmwareV2.count_hits env s) in
  fst (FirmwareV2.count_hits env s) = Done (active_reads reads) /\
  0 <= active_reads reads <= 100 /\
  trace after = trace s ++ reads /\
  length reads = 100%nat /\
  now s + 1000000 <= now after /\
  vReal after = vReal s /\ vImag after = vImag s.
Proof.
  intros reads after.
  destruct (count_hits_exact env s) as (s' & E & Htr & _ & Hr & Hi & Hn).
  destruct (piezo_reads_facts env (step s) 100) as (_ & Hl & Ha).
  subst after reads. rewrite E. cbn [fst snd].
  change (Z.of_nat 100) with 100 in Ha.
  split; [reflexivity|]. split; [exact Ha|]. split; [exact Htr|].
  split; [exact Hl|]. split; [exact Hn|]. split; [exact Hr|exact Hi].
Qed.

(* ------------------------------------------------------------------ *)
(** ** Every boot of the two sensors *)

(** X10.  The LED at the moment of deep sleep.  A boot of the 30-second node
    that reaches deep sleep has the LED off: it was never written, or last
    written LOW.  A boot of the V2 firmware that reaches deep sleep leaves the
    LED on in one case only, the CLIMBING alert: there [analyze_environment]
    goes to sleep before its final [digitalWrite(LED_PIN, LOW)]. *)
Theorem led_state_at_sleep (lib : Platform) (env : Env) :
  (fst (Production.run lib env) = Stopped Asleep ->
   led_on (trace (snd (Production.run lib env))) = false) /\
  (fst (FirmwareV2.run lib env) = Stopped Asleep ->
   (led_on (trace (snd (FirmwareV2.run lib env))) = true <->
    packets (trace (snd (FirmwareV2.run lib env)))
    = [FirmwareV2.payload "CLIMBING"])).
Proof.
  split.
  - destruct (production_run_shape lib env)
      as [s Hok Htr|s raw ms Hok Hw Htr|s audio t raw ms Hok Hw Hf Hv Ht Htr
         |s audio Hok Hw Hf Hh Htr]; try discriminate; intros _; rewrite Htr.
    + reflexivity.
    + unfold led_on. cbn [app led_writes]. rewrite led_writes_app.
      rewrite (led_writes_audio _ Hf). reflexivity.
  - destruct (v2_run_shape lib env)
      as [s Hok Htr|s Hok Hw Htr|s reads Hok Hw Hf Hl Hhi Htr
         |s reads audio engine nature Hok Hw Hf Hl Hlo Hfa Htr];
      try discriminate; intros _; rewrite Htr.
    + split; discriminate.
    + unfold led_on. cbn [app led_writes packets].
      rewrite led_writes_app, packets_app.
      rewrite (led_writes_piezo _ Hf), (packets_piezo _ Hf).
      split; reflexivity.
    + unfold led_on. cbn [app led_writes packets].
      rewrite !led_writes_app, !packets_app.
      rewrite (led_writes_piezo _ Hf), (packets_piezo _ Hf).
      rewrite (led_writes_audio _ Hfa), (packets_audio _ Hfa).
      destruct (v2_chainsaw_detected engine nature); cbn; split; discriminate.
Qed.

Lemma led_state_at_sleep_witness :
  led_on (trace (snd (Production.run bench_platform quiet_wake))) = false /\
  led_on (trace (snd (FirmwareV2.run bench_platform climbing_wake))) = true.
Proof.
  split.
  - apply (proj1 (led_state_at_sleep bench_platform quiet_wake)).
    vm_compute. reflexivity.
  - apply (proj2 (led_state_at_sleep bench_platform climbing_wake)).
    + vm_compute. reflexivity.
    + vm_compute. reflexivity.
Defined.

(** X11.  Deep sleep is always armed and always final.  In both firmwares a
    boot ends in deep sleep exactly when its trace ends with the EXT0 wake-up
    being enabled and the deep sleep being started, in this order, with
    neither call anywhere before; a boot that does not reach deep sleep (the
    radio did not start) makes neither call at all.  So the node never sleeps
    without the piezo line armed to wake it. *)
Theorem sleep_is_armed_and_final (lib : Platform) (env : Env) :
  ends_armed (trace (snd (Production.run lib env)))
  = asleep (fst (Production.run lib env)) /\
  never_sleeps (trace (snd (Production.run lib env)))
  = negb (asleep (fst (Production.run lib env))) /\
  ends_armed (trace (snd (FirmwareV2.run lib env)))
  = asleep (fst (FirmwareV2.run lib env)) /\
  never_sleeps (trace (snd (FirmwareV2.run lib env)))
  = negb (asleep (fst (FirmwareV2.run lib env))).
Proof.
  assert (P : ends_armed (trace (snd (Production.run lib env)))
              = asleep (fst (Production.run lib env)) /\
              never_sleeps (trace (snd (Production.run lib env)))
              = negb (asleep (fst (Production.run lib env)))).
  { destruct (production_run_shape lib env)
      as [s Hok Htr|s raw ms Hok Hw Htr|s audio t raw ms Hok Hw Hf Hv Ht Htr
         |s audio Hok Hw Hf Hh Htr]; rewrite Htr; cbn [asleep negb].
    - split; reflexivity.
    - split; reflexivity.
    - destruct (audio_events_quiet _ Hf) as (Hq & _).
      cbn [app]. unfold never_sleeps.
      cbn [ends_armed forallb sleep_event negb andb].
      fold (never_sleeps (audio ++
        [DigitalWrite LED_PIN false;
         SerialTally (Production.total_samples t) (Production.chainsaw_votes t);
         AnalogRead BAT_PIN raw;
         LoRaPacket (Production.payload ms (Production.final_verdict t)
                       (String_of_float lib (Production.battery_volts raw) 1));
         Ext0WakeupEnabled; DeepSleepStart])).
      rewrite (ends_armed_app _ _ Hq), never_sleeps_app, Hq.
      split; reflexivity.
    - destruct (audio_events_quiet _ Hf) as (Hq & _).
      cbn [app]. unfold never_sleeps.
      cbn [ends_armed forallb sleep_event negb andb].
      fold (never_sleeps audio). rewrite Hq.
      rewrite <- (app_nil_r audio), (ends_armed_app _ _ Hq).
      split; reflexivity. }
  destruct P as [P1 P2]. split; [exact P1|]. split; [exact P2|].
  destruct (v2_run_shape lib env)
    as [s Hok Htr|s Hok Hw Htr|s reads Hok Hw Hf Hl Hhi Htr
       |s reads audio engine nature Hok Hw Hf Hl Hlo Hfa Htr];
    rewrite Htr; cbn [asleep negb].
  - split; reflexivity.
  - split; reflexivity.
  - destruct (piezo_events_quiet _ Hf) as (Hq & _).
    cbn [app]. unfold never_sleeps.
    cbn [ends_armed forallb sleep_event negb andb].
    fold (never_sleeps (reads ++
      [LoRaPacket (FirmwareV2.payload "CLIMBING");
       Ext0WakeupEnabled; DeepSleepStart])).
    rewrite (ends_armed_app _ _ Hq), never_sleeps_app, Hq.
    split; reflexivity.
  - destruct (piezo_events_quiet _ Hf) as (Hq & _).
    destruct (audio_events_quiet _ Hfa) as (Hqa & _).
    cbn [app]. unfold never_sleeps.
    cbn [ends_armed forallb sleep_event negb andb].
    match goal with
    | |- context [forallb _ ?l] => fold (never_sleeps l)
    end.
    rewrite (ends_armed_app _ _ Hq), (ends_armed_app _ _ Hqa).
    rewrite !never_sleeps_app, Hq, Hqa.
    destruct (v2_chainsaw_detected engine nature); split; reflexivity.
Qed.

(** X12.  The pins each firmware leaves alone.  No boot of the 30-second node
    ever reads the piezo line (it cannot count vibration, only be woken by
    it), and its battery reads are as many as its frames: one read for each
    frame sent.  No boot of the V2 firmware ever reads the battery pin. *)
Theorem pins_left_alone (lib : Platform) (env : Env) :
  forallb (fun e => negb (is_piezo_pin_read e))
          (trace (snd (Production.run lib env))) = true /\
  length (battery_reads (trace (snd (Production.run lib env))))
  = length (packets (trace (snd (Production.run lib env)))) /\
  forallb (fun e => negb (is_battery_read e))
          (trace (snd (FirmwareV2.run lib env))) = true.
Proof.
  assert (P : forallb (fun e => negb (is_piezo_pin_read e))
                (trace (snd (Production.run lib env))) = true /\
              length (battery_reads (trace (snd (Production.run lib env))))
              = length (packets (trace (snd (Production.run lib env))))).
  { destruct (production_run_shape lib env)
      as [s Hok Htr|s raw ms Hok Hw Htr|s audio t raw ms Hok Hw Hf Hv Ht Htr
         |s audio Hok Hw Hf Hh Htr]; rewrite Htr.
    - split; reflexivity.
    - split; reflexivity.
    - destruct (audio_events_quiet _ Hf) as (_ & Hb & Hp & _).
      cbn [app forallb is_piezo_pin_read negb andb packets].
      rewrite forallb_app, Hp, packets_app, (packets_audio _ Hf).
      unfold battery_reads in *. cbn [List.filter is_battery_read].
      rewrite List.filter_app, Hb. split; reflexivity.
    - destruct (audio_events_quiet _ Hf) as (_ & Hb & Hp & _).
      cbn [app forallb is_piezo_pin_read negb andb packets].
      rewrite Hp, (packets_audio _ Hf).
      unfold battery_reads in *. cbn [List.filter is_battery_read].
      rewrite Hb. split; reflexivity. }
  destruct P as [P1 P2]. split; [exact P1|]. split; [exact P2|].
  destruct (v2_run_shape lib env)
    as [s Hok Htr|s Hok Hw Htr|s reads Hok Hw Hf Hl Hhi Htr
       |s reads audio engine nature Hok Hw Hf Hl Hlo Hfa Htr];
    rewrite Htr.
  - reflexivity.
  - reflexivity.
  - destruct (piezo_events_quiet _ Hf) as (_ & _ & Hb).
    cbn [app forallb is_battery_read negb andb].
    rewrite forallb_app, Hb. reflexivity.
  - destruct (piezo_events_quiet _ Hf) as (_ & _ & Hb).
    destruct (audio_events_quiet _ Hfa) as (_ & _ & _ & Hba).
    cbn [app forallb is_battery_read negb andb].
    rewrite !forallb_app, Hb, Hba.
    destruct (v2_chainsaw_detected engine nature); reflexivity.
Qed.

(* ------------------------------------------------------------------ *)
(** ** Bands, battery and frames *)

Lemma band_fold_local (l : list nat) (acc : float) (v w : list float) :
  (forall i, In i l -> nth i v 0%float = nth i w 0%float) ->
  fold_left (fun acc i => PrimFloat.add acc (nth i v 0%float)) l acc =
  fold_left (fun acc i => PrimFloat.add acc (nth i w 0%float)) l acc.
Proof.
  revert acc. induction l as [|i l IH]; intros acc H; [reflexivity|].
  cbn [fold_left]. rewrite (H i) by (left; reflexivity).
  apply IH. intros j Hj. apply H. right. exact Hj.
Qed.

Lemma band_energy_local (lo hi : nat) (v w : list float) :
  (forall i, (lo <= i < hi)%nat -> nth i v 0%float = nth i w 0%float) ->
  band_energy lo hi v = band_energy lo hi w.
Proof.
  intros H. unfold band_energy. apply band_fold_local.
  intros i Hi%in_seq. apply H. lia.
Qed.

(** X13.  The band sums look at their own bins only: two spectra that agree
    on the bins 8 to 50 have the same engine energy, and two that agree on
    the bins 170 to 255 have the same nature energy, whatever the other bins
    hold (the bins 0 to 7, 51 to 169 and the mirrored upper half 256 to 511
    never reach a verdict). *)
Theorem band_sums_are_local (v w : list float) :
  (forall i, (8 <= i <= 50)%nat -> nth i v 0%float = nth i w 0%float) ->
  (forall i, (170 <= i <= 255)%nat -> nth i v 0%float = nth i w 0%float) ->
  engine_energy v = engine_energy w /\ nature_energy v = nature_energy w.
Proof.
  intros He Hn. unfold engine_energy, nature_energy. split.
  - apply band_energy_local. intros i Hi. apply He. lia.
  - apply band_energy_local. intros i Hi. apply Hn.
    unfold SAMPLES in Hi. cbn in Hi. lia.
Qed.

Lemma band_sums_are_local_witness :
  engine_energy (spike 51 7%float) = engine_energy (spike 300 9%float) /\
  nature_energy (spike 51 7%float) = nature_energy (spike 300 9%float).
Proof.
  apply (band_sums_are_local (spike 51 7%float) (spike 300 9%float)).
  - intros i Hi. unfold spike.
    rewrite !nth_lookup, !list_lookup_insert_ne by lia. reflexivity.
  - intros i Hi. unfold spike.
    rewrite !nth_lookup, !list_lookup_insert_ne by lia. reflexivity.
Defined.

Lemma battery_table_holds : battery_table 4096 = true.
Proof. vm_compute. reflexivity. Qed.

Lemma battery_table_sound (n : nat) (raw : Z) :
  battery_table n = true -> 0 <= raw < Z.of_nat n ->
  PrimFloat.leb 0%float (Production.battery_volts raw) = true /\
  PrimFloat.leb (Production.battery_volts raw) 6.6%float = true /\
  PrimFloat.ltb (Production.battery_volts raw)
                (Production.battery_volts (raw + 1)) = true.
Proof.
  unfold battery_table. rewrite forallb_forall. intros T Hraw.
  assert (Hin : In (Z.to_nat raw) (seq 0 n)) by (apply in_seq; lia).
  specialize (T (Z.to_nat raw) Hin).
  rewrite Z2Nat.id in T by lia. cbv zeta in T.
  apply andb_true_iff in T as [T H3]. apply andb_true_iff in T as [H1 H2].
  auto.
Qed.

(** X14.  The battery formula [(raw / 4095.0) * 3.3 * 2] on the 12-bit range
    of the ADC, in binary64: the voltage is never negative and never above
    6.6, and a higher count always gives a strictly higher voltage (all 4096
    counts are checked; 4095 gives 6.6 exactly). *)
Theorem battery_volts_in_range (raw : Z) :
  0 <= raw <= 4095 ->
  PrimFloat.leb 0%float (Production.battery_volts raw) = true /\
  PrimFloat.leb (Production.battery_volts raw) 6.6%float = true /\
  PrimFloat.ltb (Production.battery_volts raw)
                (Production.battery_volts (raw + 1)) = true.
Proof.
  intros H. apply (battery_table_sound 4096 raw battery_table_holds).
  change (Z.of_nat 4096) with 4096. lia.
Qed.

Lemma battery_volts_in_range_witness :
  PrimFloat.leb 0%float (Production.battery_volts 2300) = true /\
  PrimFloat.leb (Production.battery_volts 2300) 6.6%float = true /\
  PrimFloat.ltb (Production.battery_volts 2300)
                (Production.battery_volts (2300 + 1)) = true.
Proof. apply (battery_volts_in_range 2300). lia. Defined.

Lemma fields_from_last (cur s : string) :
  no_comma s = true -> fields_from cur s = [(cur ++ s)%string].
Proof.
  revert cur. induction s as [|c s IH]; intros cur Hs.
  - cbn. f_equal. induction cur as [|x cur IHc]; cbn; congruence.
  - cbn [no_comma] in Hs. apply andb_true_iff in Hs as [Hc Hs].
    cbn [fields_from]. apply negb_true_iff in Hc. rewrite Hc.
    rewrite IH by exact Hs. f_equal.
    clear. induction cur as [|x cur IHc]; cbn; congruence.
Qed.

Lemma no_comma_app (a b : string) :
  no_comma a = true -> no_comma b = true -> no_comma (a ++ b) = true.
Proof.
  intros Ha Hb. induction a as [|c a IH]; [exact Hb|].
  cbn [no_comma append] in *. apply andb_true_iff in Ha as [Hc Ha].
  rewrite Hc, (IH Ha). reflexivity.
Qed.

Lemma counter_round_trip (ms : Z) :
  counter_of_field (Production.String_of_ulong ms) = Some (Z.to_N ms).
Proof.
  unfold counter_of_field, Production.String_of_ulong.
  rewrite NilZero.usu.
  - cbn [option_map]. rewrite DecimalN.Unsigned.of_to. reflexivity.
  - destruct (Z.to_N ms) as [|p]; [discriminate|].
    apply DecimalPos.Unsigned.to_uint_nonnil.
Qed.

(** X15.  Frames can be taken apart again.  Splitting a frame of the
    30-second node at its commas gives back exactly the four fields it was
    built from (counter, node, type, battery text followed by V), as long as
    type and battery text hold no comma, and the decimal counter reads back as
    the number printed; a frame of the V2 firmware gives back node and
    type. *)
Theorem frame_fields_round_trip (ms : Z) (tag bat : string) :
  no_comma tag = true -> no_comma bat = true ->
  fields (Production.payload ms tag bat)
  = [Production.String_of_ulong ms; NODE_ID; tag; (bat ++ "V")%string] /\
  counter_of_field (Production.String_of_ulong ms) = Some (Z.to_N ms) /\
  fields (FirmwareV2.payload tag) = [NODE_ID; tag].
Proof.
  intros Ht Hb. split; [|split; [apply counter_round_trip|]].
  - unfold fields, Production.payload.
    rewrite (fields_from_field _ _ _ (no_comma_ulong ms)).
    rewrite (fields_from_field EmptyString NODE_ID _ eq_refl).
    rewrite (fields_from_field EmptyString tag _ Ht).
    rewrite fields_from_last by (apply no_comma_app; [exact Hb|reflexivity]).
    reflexivity.
  - unfold fields, FirmwareV2.payload.
    rewrite (fields_from_field EmptyString NODE_ID _ eq_refl).
    rewrite fields_from_last by exact Ht. reflexivity.
Qed.

Lemma frame_fields_round_trip_witness :
  fields (Production.payload 30851 "TREE_FALL" "3.7")
  = [Production.String_of_ulong 30851; NODE_ID; "TREE_FALL"%string;
     ("3.7" ++ "V")%string] /\
  counter_of_field (Production.String_of_ulong 30851) = Some (Z.to_N 30851) /\
  fields (FirmwareV2.payload "TREE_FALL") = [NODE_ID; "TREE_FALL"%string].
Proof.
  apply (frame_fields_round_trip 30851 "TREE_FALL" "3.7"); reflexivity.
Defined.

(* ------------------------------------------------------------------ *)
(** ** The gateways *)

Section GatewayFacts.
Import Gateway.

Lemma append_nil_r (s : string) : (s ++ "")%string = s.
Proof. induction s as [|c s IH]; cbn; congruence. Qed.

Lemma append_assoc (a b c : string) :
  ((a ++ b) ++ c)%string = (a ++ (b ++ c))%string.
Proof. induction a as [|x a IH]; cbn; congruence. Qed.

Lemma read_all_appends (unread incoming : string) :
  read_all unread incoming = (incoming ++ unread)%string.
Proof.
  revert incoming. induction unread as [|c unread IH]; intros incoming.
  - cbn. rewrite append_nil_r. reflexivity.
  - cbn [read_all]. rewrite IH, append_assoc. reflexivity.
Qed.

Lemma serial_stream_app (a b : list Output) :
  serial_stream (a ++ b) = (serial_stream a ++ serial_stream b)%string.
Proof.
  induction a as [|o a IH]; [reflexivity|].
  destruct o; cbn [app serial_stream]; rewrite IH, ?append_assoc; reflexivity.
Qed.

Lemma led_level_app (level : bool) (a b : list Output) :
  led_level level (a ++ b) = led_level (led_level level a) b.
Proof.
  revert level. induction a as [|o a IH]; intros level; [reflexivity|].
  destruct o; cbn [app led_level]; apply IH.
Qed.

Lemma lines_app (a b : list string) :
  lines (a ++ b) = (lines a ++ lines b)%string.
Proof.
  induction a as [|f a IH]; [reflexivity|].
  cbn [app lines]. rewrite IH, append_assoc. reflexivity.
Qed.

(** One call of either [loop()]: what it adds to the serial line, and where it
    leaves the LED. *)
Lemma loop_once (r : option string) (out : list Output) :
  serial_stream (loop r out)
  = (serial_stream out ++ lines (forwarded [r]))%string /\
  serial_stream (v2_loop true r out)
  = (serial_stream out ++ lines (forwarded [r]))%string /\
  led_level false (loop r out) = led_level false out && negb (0 <? parsePacket r)%nat /\
  led_level false (v2_loop true r out)
  = led_level false out && negb (0 <? parsePacket r)%nat.
Proof.
  unfold loop, v2_loop.
  destruct r as [[|c p]|]; cbn [parsePacket String.length Nat.eqb Nat.ltb
    Nat.leb negb forwarded flat_map app lines fifo].
  - rewrite append_nil_r, andb_true_r. auto.
  - rewrite !serial_stream_app, !led_level_app, read_all_appends.
    cbn [serial_stream led_level Serial_print Serial_println append line].
    rewrite !append_nil_r, andb_false_r. auto.
  - rewrite append_nil_r, andb_true_r. auto.
Qed.

Lemma forwarded_cons (r : option string) (rs : list (option string)) :
  forwarded (r :: rs) = forwarded [r] ++ forwarded rs.
Proof. unfold forwarded. cbn [flat_map]. rewrite app_nil_r. reflexivity. Qed.

Lemma forwarded_frames (frames : list string) :
  forallb (fun f => negb (String.eqb f "")) frames = true ->
  forwarded (map Some frames) = frames.
Proof.
  induction frames as [|f frames IH]; [reflexivity|].
  cbn [forallb map]. intros [Hf Hr]%andb_true_iff.
  rewrite (forwarded_cons (Some f) (map Some frames)), (IH Hr).
  destruct f; [discriminate|reflexivity].
Qed.

(** A line of a frame without line ends is cut off the stream in one way. *)
Lemma line_split (f g rest1 rest2 : string) :
  one_line f = true -> one_line g = true ->
  (f ++ CRLF ++ rest1)%string = (g ++ CRLF ++ rest2)%string ->
  f = g /\ rest1 = rest2.
Proof.
  revert g. induction f as [|c f IH]; intros g Hf Hg Heq.
  - destruct g as [|d g].
    + cbn in Heq. injection Heq as ->. auto.
    + cbn in Heq. injection Heq as <- _.
      cbn [one_line] in Hg. cbn in Hg. discriminate.
  - destruct g as [|d g].
    + cbn in Heq. injection Heq as -> _.
      cbn [one_line] in Hf. cbn in Hf. discriminate.
    + cbn [append] in Heq. injection Heq as -> Heq.
      cbn [one_line] in Hf, Hg.
      apply andb_true_iff in Hf as [_ Hf]. apply andb_true_iff in Hg as [_ Hg].
      destruct (IH g Hf Hg Heq) as [-> ->]. auto.
Qed.

(** One call of either [loop()] and the LED: a forwarded packet leaves it LOW,
    anything else leaves it as it was. *)
Lemma loop_led (level : bool) (r : option string) (out : list Output) :
  led_level level (loop r out)
  = match forwarded [r] with [] => led_level level out | _ :: _ => false end /\
  led_level level (v2_loop true r out)
  = match forwarded [r] with [] => led_level level out | _ :: _ => false end.
Proof.
  unfold loop, v2_loop.
  destruct r as [[|c p]|]; cbn [parsePacket String.length Nat.eqb forwarded
    flat_map app]; auto.
  rewrite !led_level_app. auto.
Qed.

Lemma loops_led (level : bool) (receptions : list (option string))
      (out : list Output) :
  led_level level (loops loop receptions out)
  = match forwarded receptions with
    | [] => led_level level out
    | _ :: _ => false
    end /\
  led_level level (loops (v2_loop true) receptions out)
  = match forwarded receptions with
    | [] => led_level level out
    | _ :: _ => false
    end.
Proof.
  unfold loops. revert out.
  induction receptions as [|r rs IH]; intros out; [split; reflexivity|].
  cbn [fold_left]. destruct (IH (loop r out)) as [IH1 _].
  destruct (IH (v2_loop true r out)) as [_ IH2].
  rewrite IH1, IH2, (forwarded_cons r rs).
  destruct (loop_led level r out) as [L1 L2]. rewrite L1, L2.
  destruct (forwarded rs) as [|f fs]; [rewrite app_nil_r|];
    destruct (forwarded [r]); split; reflexivity.
Qed.

(** Polls in a row. *)
Lemma loops_stream (receptions : list (option string)) (out : list Output) :
  serial_stream (loops loop receptions out)
  = (serial_stream out ++ lines (forwarded receptions))%string /\
  serial_stream (loops (v2_loop true) receptions out)
  = (serial_stream out ++ lines (forwarded receptions))%string.
Proof.
  unfold loops. split.
  - revert out. induction receptions as [|r rs IH]; intros out.
    + cbn. rewrite append_nil_r. reflexivity.
    + cbn [fold_left]. rewrite IH, (proj1 (loop_once r out)).
      rewrite (forwarded_cons r rs), lines_app, append_assoc. reflexivity.
  - revert out. induction receptions as [|r rs IH]; intros out.
    + cbn. rewrite append_nil_r. reflexivity.
    + cbn [fold_left]. rewrite IH, (proj1 (proj2 (loop_once r out))).
      rewrite (forwarded_cons r rs), lines_app, append_assoc. reflexivity.
Qed.

End GatewayFacts.

(** X16.  Both gateway loops are faithful bridges.  Whatever the radio hands
    over, poll after poll, the serial line receives, after what it held, one
    line DATA:<frame> CR LF for every packet of at least one byte, in the order
    of arrival, each with its bytes unchanged, and nothing else: a poll
    without a packet and an empty packet print nothing.  The loop of the
    gateway sketch and the loop of the V2 firmware built with IS_GATEWAY write
    the same stream; built as a sensor, the V2 loop does nothing. *)
Theorem gateway_forwards_every_packet
        (receptions : list (option string)) (out : list Gateway.Output) :
  Gateway.serial_stream (Gateway.loops Gateway.loop receptions out)
  = (Gateway.serial_stream out
     ++ Gateway.lines (Gateway.forwarded receptions))%string /\
  Gateway.serial_stream (Gateway.loops (Gateway.v2_loop true) receptions out)
  = (Gateway.serial_stream out
     ++ Gateway.lines (Gateway.forwarded receptions))%string /\
  Gateway.loops (Gateway.v2_loop IS_GATEWAY) receptions out = out.
Proof.
  destruct (loops_stream receptions out) as [H1 H2].
  split; [exact H1|]. split; [exact H2|]. clear H1 H2.
  unfold Gateway.loops.
  induction receptions as [|r rs IH]; [reflexivity|exact IH].
Qed.

(** X17.  The serial stream of a gateway can be read back: two lists of
    frames, none holding a carriage return or a line feed, that give the same
    stream of DATA: lines are the same list.  The ground station loses no
    frame boundary. *)
Theorem gateway_lines_are_unambiguous (frames1 frames2 : list string) :
  forallb Gateway.one_line frames1 = true ->
  forallb Gateway.one_line frames2 = true ->
  Gateway.lines frames1 = Gateway.lines frames2 ->
  frames1 = frames2.
Proof.
  revert frames2. induction frames1 as [|f l1 IH]; intros [|g l2] H1 H2 Heq.
  - reflexivity.
  - cbn in Heq. discriminate.
  - cbn in Heq. discriminate.
  - cbn [forallb] in H1, H2.
    apply andb_true_iff in H1 as [Hf H1]. apply andb_true_iff in H2 as [Hg H2].
    cbn [Gateway.lines] in Heq. unfold Gateway.line in Heq.
    rewrite !append_assoc in Heq.
    change ("DATA:" ++ ?x)%string
      with (String "D" (String "A" (String "T" (String "A" (String ":" x)))))
      in Heq.
    injection Heq as Heq. rewrite ?append_assoc in Heq.
    destruct (line_split f g _ _ Hf Hg Heq) as [-> Hrest].
    f_equal. apply IH; assumption.
Qed.

Lemma gateway_lines_are_unambiguous_witness :
  Gateway.lines ["250,NODE_A,HEARTBEAT,3.7V"; "NODE_A,CLIMBING"]%string
  = Gateway.lines (map (fun f => f) ["250,NODE_A,HEARTBEAT,3.7V"; "NODE_A,CLIMBING"]%string) /\
  ["250,NODE_A,HEARTBEAT,3.7V"; "NODE_A,CLIMBING"]%string
  = map (fun f => f) ["250,NODE_A,HEARTBEAT,3.7V"; "NODE_A,CLIMBING"]%string.
Proof.
  split; [reflexivity|].
  apply (gateway_lines_are_unambiguous
           ["250,NODE_A,HEARTBEAT,3.7V"; "NODE_A,CLIMBING"]%string
           (map (fun f => f)
                ["250,NODE_A,HEARTBEAT,3.7V"; "NODE_A,CLIMBING"]%string));
    reflexivity.
Defined.

(** X18.  The gateways never leave the LED on.  In both gateway loops a poll
    that forwards a packet ends with the LED written LOW and any other poll
    does not write it, so after any polls the LED is LOW as soon as one packet
    was forwarded and is otherwise at the level it had before them.  The
    [setup()] of the gateway sketch with a working radio ends its three flashes
    on LOW, so from there the LED of the gateway sketch is LOW after any polls,
    whatever its level at reset; with a dead radio that [setup()] halts after
    its error line and has not written the LED at all (its level is the level
    at reset, whichever that was). *)
Theorem gateway_led_rests_low
        (level : bool) (receptions : list (option string))
        (out : list Gateway.Output) :
  Gateway.led_level level (Gateway.loops Gateway.loop receptions out)
  = match Gateway.forwarded receptions with
    | [] => Gateway.led_level level out
    | _ :: _ => false
    end /\
  Gateway.led_level level (Gateway.loops (Gateway.v2_loop true) receptions out)
  = match Gateway.forwarded receptions with
    | [] => Gateway.led_level level out
    | _ :: _ => false
    end /\
  fst (Gateway.setup true) = Done tt /\
  Gateway.led_level level
    (Gateway.loops Gateway.loop receptions (snd (Gateway.setup true))) = false /\
  fst (Gateway.setup false) = Stopped Halted /\
  Gateway.led_level level (snd (Gateway.setup false)) = level.
Proof.
  destruct (loops_led level receptions out) as [H1 H2].
  split; [exact H1|]. split; [exact H2|]. split; [reflexivity|].
  split; [|split; reflexivity].
  rewrite (proj1 (loops_led level receptions (snd (Gateway.setup true)))).
  destruct (Gateway.forwarded receptions); reflexivity.
Qed.

(* ------------------------------------------------------------------ *)
(** ** From the sensor to the ground station *)

Lemma production_payload_nonempty (ms : Z) (tag bat : string) :
  negb (String.eqb (Production.payload ms tag bat) "") = true.
Proof.
  unfold Production.payload.
  destruct (Production.String_of_ulong ms); reflexivity.
Qed.

Lemma production_packets (lib : Platform) (env : Env) :
  forallb (fun f => negb (String.eqb f ""))
          (packets (trace (snd (Production.run lib env)))) = true.
Proof.
  destruct (production_run_shape lib env)
    as [s Hok Htr|s raw ms Hok Hw Htr|s audio t raw ms Hok Hw Hf Hv Ht Htr
       |s audio Hok Hw Hf Hh Htr]; rewrite Htr.
  - reflexivity.
  - cbn [packets forallb]. rewrite production_payload_nonempty. reflexivity.
  - cbn [app packets]. rewrite packets_app, (packets_audio _ Hf).
    cbn [app packets forallb]. rewrite production_payload_nonempty. reflexivity.
  - cbn [app packets]. rewrite (packets_audio _ Hf). reflexivity.
Qed.

Lemma v2_packets (lib : Platform) (env : Env) :
  forallb (fun f => negb (String.eqb f ""))
          (packets (trace (snd (FirmwareV2.run lib env)))) = true.
Proof.
  destruct (v2_run_shape lib env)
    as [s Hok Htr|s Hok Hw Htr|s reads Hok Hw Hf Hl Hhi Htr
       |s reads audio engine nature Hok Hw Hf Hl Hlo Hfa Htr];
    rewrite Htr.
  - reflexivity.
  - reflexivity.
  - cbn [app packets]. rewrite packets_app, (packets_piezo _ Hf). reflexivity.
  - cbn [app packets]. rewrite !packets_app.
    rewrite (packets_piezo _ Hf), (packets_audio _ Hfa).
    destruct (v2_chainsaw_detected engine nature); reflexivity.
Qed.

(** X19.  End to end: whatever a boot of a sensor transmits reaches the serial
    line of its gateway, if the radio delivers it.  Handing the frames of a
    boot of the 30-second node to the loop of the gateway sketch, or those of
    a boot of the V2 firmware to the V2 loop built as gateway, adds to the
    serial line exactly one line DATA:<frame> CR LF per frame; no frame of a
    sensor is empty, so none is taken for silence and dropped. *)
Theorem sensor_frames_reach_the_serial_line
        (lib : Platform) (env : Env) (out : list Gateway.Output) :
  Gateway.serial_stream
    (Gateway.loops Gateway.loop
       (map Some (packets (trace (snd (Production.run lib env))))) out)
  = (Gateway.serial_stream out
     ++ Gateway.lines (packets (trace (snd (Production.run lib env)))))%string /\
  Gateway.serial_stream
    (Gateway.loops (Gateway.v2_loop true)
       (map Some (packets (trace (snd (FirmwareV2.run lib env))))) out)
  = (Gateway.serial_stream out
     ++ Gateway.lines (packets (trace (snd (FirmwareV2.run lib env)))))%string.
Proof.
  split.
  - rewrite (proj1 (loops_stream _ out)).
    rewrite (forwarded_frames _ (production_packets lib env)). reflexivity.
  - rewrite (proj2 (loops_stream _ out)).
    rewrite (forwarded_frames _ (v2_packets lib env)). reflexivity.
Qed.

(* ------------------------------------------------------------------ *)
(** ** The windows of an episode, one after the other *)

Lemma flat_map_seq_shift {A} (f : nat -> list A) (a n : nat) :
  flat_map f (seq (S a) n) = flat_map (fun j => f (S j)) (seq a n).
Proof.
  revert a. induction n as [|n IH]; intros a; [reflexivity|].
  cbn [seq flat_map]. rewrite IH. reflexivity.
Qed.

Section BackToBack.
Context (lib : Platform) (env : Env).
Import Production.

(** A window takes 1028 hardware accesses: two per sample, three FFT calls
    and the [yield()]. *)
Lemma monitor_window_step (t : Tally) (s : State) :
  step (snd (monitor_window lib env t s)) = (step s + 1028)%nat.
Proof.
  unfold monitor_window.
  destruct (returns_run _ s (sample_audio_returns env)) as [[] [s1 E1]].
  destruct (returns_run _ s1 (spectral_analysis_returns lib env)) as [p [s2 E2]].
  rewrite (bind_done _ _ _ _ _ E1), (bind_done _ _ _ _ _ E2).
  pose proof (sample_audio_step env s) as H1.
  pose proof (proj2 (spectral_analysis_trace lib env s1)) as H2.
  rewrite E1 in H1. rewrite E2 in H2. cbn [snd] in H1, H2.
  unfold bind, access, ret. cbn [fst snd step set_clock].
  rewrite H2, H1. unfold SAMPLES. lia.
Qed.

(** The events of the [n] windows that start at access [k0]. *)
Lemma monitor_trace_exact fuel start t s t' s' :
  monitor lib env fuel start t s = (Done t', s') ->
  exists n : nat,
    total_samples t' = total_samples t + Z.of_nat n /\
    trace s' = trace s ++
      flat_map (fun j => window_reads env (step s + 1028 * j) ++ analyzer_calls)
               (seq 0 n).
Proof.
  revert t s. induction fuel as [|fuel IH]; intros t s.
  - discriminate.
  - rewrite monitor_step. destruct (_ <? duration).
    + destruct (monitor_window_run lib env t s) as [t1 [s1 [E1 [Ht _]]]].
      pose proof (monitor_window_trace lib env t s) as Htr.
      pose proof (monitor_window_step t s) as Hst.
      rewrite E1 in Htr, Hst. cbn [snd] in Htr, Hst.
      rewrite (bind_done _ _ _ _ _ E1). intros E.
      destruct (IH _ _ E) as (n & Hn & Hs').
      exists (S n). split; [lia|].
      rewrite Hs', Htr, Hst, <- !app_assoc. f_equal.
      cbn [seq flat_map]. rewrite Nat.mul_0_r, Nat.add_0_r, <- !app_assoc.
      do 2 f_equal. rewrite flat_map_seq_shift.
      apply flat_map_ext. intros j. do 2 f_equal. lia.
    + intros [= <- <-]. exists 0%nat. cbn. rewrite app_nil_r. split; [lia|reflexivity].
Qed.

End BackToBack.

Lemma mic_values_windows (env : Env) (f : nat -> nat) (l : list nat) :
  mic_values (flat_map (fun j => window_reads env (f j) ++ analyzer_calls) l)
  = flat_map (fun j => map (fun i => Z.of_N (adc env (f j + 2 * i)))
                           (seq 0 SAMPLES)) l.
Proof.
  induction l as [|j l IH]; [reflexivity|].
  cbn [flat_map]. rewrite !mic_values_app, IH, mic_values_window.
  cbn [mic_values analyzer_calls app]. rewrite app_nil_r. reflexivity.
Qed.

(** X20.  Which samples an episode judges.  In a boot of the 30-second node
    that reports [total] windows, the microphone values read are, in order,
    those of the windows 0 to [total - 1], and sample [i] of window [j] is
    the hardware access [1028 * j + 2 * i]: the windows follow one another
    without a gap (1024 accesses for the samples and their timer polls, three
    FFT calls, one [yield()]), and nothing is read that is not analysed. *)
Theorem monitoring_windows_are_back_to_back
        (lib : Platform) (env : Env) (total votes : Z) :
  reported_tally (trace (snd (Production.run lib env))) = Some (total, votes) ->
  mic_values (trace (snd (Production.run lib env)))
  = flat_map (fun j => map (fun i => Z.of_N (adc env (1028 * j + 2 * i)))
                           (seq 0 SAMPLES))
             (seq 0 (Z.to_nat total)).
Proof.
  intros Hrep.
  destruct (reported_boot lib env total votes Hrep) as (Hok & Hw & Hout).
  destruct (production_episode_detail lib env Hok Hw)
    as [(t & s2 & s' & E & Er & Htr & _)|Hof]; [|congruence].
  destruct (monitor_trace_exact lib env _ _ _ _ _ _ E) as (n & Hn & Htr2).
  cbn [monitoring_entry trace step add_event boot app Production.total_samples
       Production.no_votes] in Hn, Htr2.
  rewrite Er in Hrep |- *. cbn [snd] in Hrep |- *.
  rewrite Htr, Htr2 in Hrep |- *.
  cbn [app reported_tally] in Hrep.
  assert (Ha : forallb audio_event
                 (flat_map (fun j => window_reads env (0 + 1028 * j)
                                     ++ analyzer_calls) (seq 0 n)) = true).
  { clear. induction (seq 0 n) as [|j l IH]; [reflexivity|].
    cbn [flat_map]. rewrite !forallb_app, window_reads_audio, IH. reflexivity. }
  rewrite (reported_tally_audio _ _ Ha) in Hrep. cbn [reported_tally] in Hrep.
  injection Hrep as <- <-.
  rewrite Hn. cbn [app mic_values]. rewrite mic_values_app.
  cbn [mic_values]. rewrite app_nil_r, mic_values_windows.
  replace (Z.to_nat (0 + Z.of_nat n)) with n by lia. reflexivity.
Qed.

Lemma monitoring_windows_are_back_to_back_witness :
  mic_values (trace (snd (Production.run bench_platform quiet_wake)))
  = flat_map (fun j => map (fun i => Z.of_N (adc quiet_wake (1028 * j + 2 * i)))
                           (seq 0 SAMPLES))
             (seq 0 (Z.to_nat 1)).
Proof.
  apply (monitoring_windows_are_back_to_back bench_platform quiet_wake 1 0).
  vm_compute. reflexivity.
Defined.

(* ------------------------------------------------------------------ *)
(** ** The votes of an episode, window by window *)

Section Votes.
Context (lib : Platform) (env : Env).
Hypothesis lib_in_place : works_in_place lib.
Import Production.

(** The buffers after the three FFT calls. *)
Lemma spectral_analysis_buffers (s : State) :
  (vReal (snd (spectral_analysis lib env s)),
   vImag (snd (spectral_analysis lib env s)))
  = FFT_complexToMagnitude lib
      (FFT_compute lib (FFT_windowing lib (vReal s, vImag s))).
Proof.
  unfold spectral_analysis, compute_fft, fft_call, energy_profile, access, emit,
    modify, get, bind.
  cbn [fst snd vReal vImag set_clock set_buffers add_event].
  rewrite <- !surjective_pairing. reflexivity.
Qed.

Lemma spectral_analysis_sizes (s : State) :
  length (vReal s) = SAMPLES -> length (vImag s) = SAMPLES ->
  length (vReal (snd (spectral_analysis lib env s))) = SAMPLES /\
  length (vImag (snd (spectral_analysis lib env s))) = SAMPLES.
Proof.
  intros Lr Li. destruct lib_in_place as (Hw & Hc & Hm).
  pose proof (spectral_analysis_buffers s) as Hb.
  destruct (Hw (vReal s, vImag s) Lr Li) as [W1 W2].
  destruct (Hc _ W1 W2) as [C1 C2].
  destruct (Hm _ C1 C2) as [M1 M2].
  rewrite <- Hb in M1, M2. cbn [fst snd] in M1, M2. auto.
Qed.

Lemma cast_vote_chainsaw (t : Tally) (e n : float) :
  chainsaw_votes (cast_vote t e n)
  = chainsaw_votes t + (if chainsaw_signature e n then 1 else 0).
Proof.
  unfold cast_vote.
  destruct (chainsaw_signature e n); [|destruct (wind_signature e n)];
    cbn [chainsaw_votes]; lia.
Qed.

(** One window of the loop on buffers of the right size. *)
Lemma monitor_window_exact (t : Tally) (s : State) :
  length (vReal s) = SAMPLES -> length (vImag s) = SAMPLES ->
  exists t' s',
    monitor_window lib env t s = (Done t', s') /\
    total_samples t' = total_samples t + 1 /\
    chainsaw_votes t'
    = chainsaw_votes t + (if chainsaw_window lib env (step s) then 1 else 0) /\
    step s' = (step s + 1028)%nat /\
    length (vReal s') = SAMPLES /\ length (vImag s') = SAMPLES.
Proof.
  intros Lr Li.
  pose proof (monitor_window_step lib env t s) as Hst.
  unfold monitor_window in *.
  destruct (returns_run _ s (sample_audio_returns env)) as [[] [s1 E1]].
  destruct (sample_audio_overwrites env s Lr Li) as [R1 I1].
  rewrite E1 in R1, I1. cbn [snd] in R1, I1.
  assert (Lr1 : length (vReal s1) = SAMPLES)
    by (rewrite R1; unfold sampled; rewrite length_map; apply length_seq).
  assert (Li1 : length (vImag s1) = SAMPLES)
    by (rewrite I1; apply length_replicate).
  destruct (spectral_analysis_sizes s1 Lr1 Li1) as [Lr2 Li2].
  destruct (spectral_analysis_value lib env s1) as [V2 _].
  destruct (spectral_analysis lib env s1) as [o s2] eqn:E2.
  cbn [fst snd] in *. subst o.
  rewrite (bind_done _ _ _ _ _ E1), (bind_done _ _ _ _ _ E2) in Hst |- *.
  eexists _, _. split; [reflexivity|].
  cbn [fst snd vReal vImag step set_clock] in Hst |- *.
  split; [apply cast_vote_counts|].
  split; [|auto].
  rewrite cast_vote_chainsaw, R1, I1. reflexivity.
Qed.

(** The loop on buffers of the right size: its windows and its votes. *)
Lemma monitor_votes_exact fuel start t s t' s' :
  length (vReal s) = SAMPLES -> length (vImag s) = SAMPLES ->
  monitor lib env fuel start t s = (Done t', s') ->
  exists n : nat,
    total_samples t' = total_samples t + Z.of_nat n /\
    chainsaw_votes t'
    = chainsaw_votes t
      + Z.of_nat (length (List.filter
                            (fun j => chainsaw_window lib env (step s + 1028 * j))
                            (seq 0 n))).
Proof.
  revert t s. induction fuel as [|fuel IH]; intros t s Lr Li.
  - discriminate.
  - rewrite monitor_step. destruct (_ <? duration).
    + destruct (monitor_window_exact t s Lr Li)
        as (t1 & s1 & E1 & Ht & Hv & Hst & Lr1 & Li1).
      rewrite (bind_done _ _ _ _ _ E1). intros E.
      destruct (IH _ _ Lr1 Li1 E) as (n & Hn & Hvotes).
      exists (S n). split; [lia|].
      rewrite Hvotes, Hv, Hst. cbn [seq List.filter].
      rewrite Nat.mul_0_r, Nat.add_0_r.
      assert (Hshift :
        List.filter (fun j => chainsaw_window lib env (step s + 1028 * j))
                    (seq 1 n)
        = map S (List.filter
                   (fun j => chainsaw_window lib env (step s + 1028 + 1028 * j))
                   (seq 0 n))).
      { rewrite <- seq_shift. generalize (seq 0 n). intros l.
        induction l as [|j l IHl]; [reflexivity|].
        cbn [map List.filter].
        replace (step s + 1028 * S j)%nat with (step s + 1028 + 1028 * j)%nat
          by lia.
        destruct (chainsaw_window lib env (step s + 1028 + 1028 * j));
          cbn [map]; rewrite IHl; reflexivity. }
      rewrite Hshift.
      destruct (chainsaw_window lib env (step s)); cbn [length];
        rewrite length_map; lia.
    + intros [= <- <-]. exists 0%nat. cbn. split; lia.
Qed.

End Votes.

(** X21.  The tally as a function of the samples.  When the FFT library works
    in place (its calls return the two arrays at their size of 512), the
    chainsaw votes a boot of the 30-second node reports are exactly the number
    of its windows that have the chainsaw signature: window [j], sampled from
    hardware access [1028 * j] on, counts when the engine energy of its
    spectrum is above 50000 and above twice its nature energy.  No vote is
    carried over, lost or counted twice. *)
Theorem votes_count_chainsaw_windows
        (lib : Platform) (env : Env) (total votes : Z) :
  works_in_place lib ->
  reported_tally (trace (snd (Production.run lib env))) = Some (total, votes) ->
  votes = Z.of_nat (length (List.filter
                              (fun j => chainsaw_window lib env (1028 * j))
                              (seq 0 (Z.to_nat total)))).
Proof.
  intros Hlib Hrep.
  destruct (reported_boot lib env total votes Hrep) as (Hok & Hw & Hout).
  destruct (production_episode_detail lib env Hok Hw)
    as [(t & s2 & s' & E & Er & Htr & _)|Hof]; [|congruence].
  assert (Lr : length (vReal (monitoring_entry env)) = SAMPLES)
    by apply length_replicate.
  assert (Li : length (vImag (monitoring_entry env)) = SAMPLES)
    by apply length_replicate.
  destruct (monitor_votes_exact lib env Hlib _ _ _ _ _ _ Lr Li E)
    as (n & Hn & Hv).
  cbn [monitoring_entry step add_event boot Production.total_samples
       Production.chainsaw_votes Production.no_votes] in Hn, Hv.
  destruct (monitor_audio lib env Production.monitor_fuel
              ((Z.of_N (boot_time env) / 1000) mod ULONG) Production.no_votes
              (monitoring_entry env)) as [audio [Ha Hfa]].
  rewrite E in Ha. cbn [snd] in Ha.
  rewrite Er in Hrep. cbn [snd] in Hrep. rewrite Htr, Ha in Hrep.
  cbn [monitoring_entry trace add_event boot app reported_tally] in Hrep.
  rewrite (reported_tally_audio _ _ Hfa) in Hrep. cbn [reported_tally] in Hrep.
  injection Hrep as <- <-.
  rewrite Hv, Hn. replace (Z.to_nat (0 + Z.of_nat n)) with n by lia.
  reflexivity.
Qed.

Lemma votes_count_chainsaw_windows_witness :
  1 = Z.of_nat (length (List.filter
                          (fun j => chainsaw_window bench_platform rumble_wake
                                      (1028 * j))
                          (seq 0 (Z.to_nat 1)))).
Proof.
  apply (votes_count_chainsaw_windows bench_platform rumble_wake 1 1).
  - unfold works_in_place, in_place. cbn. auto.
  - vm_compute. reflexivity.
Defined.
